(** * Trend harvester: a shallow embedding of [trend_harvester.py]

  The development follows the Python module class by class:
  text primitives, [KeywordExtractor], [CategoryResolver],
  [ContentExtractor], [TrendHarvesterDB], [TrendHarvester] and the
  results endpoint of [trend_api_endpoints.py].

  Conventions of the embedding.
  - A Python [str] is a [string]; the character classes ([str.lower],
    [str.isspace], the regular-expression classes [\w], [\s]) are the
    ASCII ones, a character above 127 is left alone by [lower] and is
    neither a space nor a word character.
  - A Python [float] that the code obtains by dividing two integers, or
    writes as a decimal literal, is the rational it denotes (a quotient
    is kept in lowest terms); comparisons are the exact ones.
  - A Python [set] of strings is a [gset string]; a [dict] whose order
    of insertion the code relies on is an association list.
  - An exception is a value [Raise msg], [msg] being [str(e)];
    [try ... except Exception] is [try_except], or [try_catch] for code
    that writes to the store.
  - Library calls whose result the module cannot determine (the HTTP
    fetch, the HTML parser, [urlparse], scikit-learn, pytrends, the
    clock) are fields of a [World] record.
  - The SQLite file is a record of tables, [DB]; code that commits to
    it runs in the monad [M], whose state keeps a journal of the
    committed states, so that the history of a run can be stated.
  - A store call of [run_analysis] may raise: the [World] says which
    do.  A lookup by id raises when [sqlite3] cannot bind the id
    ([sqlite_int]). *)

From Stdlib Require Import ZArith QArith Lia Ascii String List Sorted Permutation.
From stdpp Require Import base gmap strings list.

Local Open Scope Z_scope.

(* ================================================================== *)
(** * Text primitives *)
(* ================================================================== *)

Module Text.

Definition code (c : ascii) : N := N_of_ascii c.

Definition in_range (lo hi : N) (c : ascii) : bool :=
  ((lo <=? code c) && (code c <=? hi))%N.

Definition is_upper : ascii -> bool := in_range 65 90.
Definition is_lower : ascii -> bool := in_range 97 122.
Definition is_digit : ascii -> bool := in_range 48 57.
Definition is_alpha (c : ascii) : bool := is_upper c || is_lower c.
Definition is_alnum (c : ascii) : bool := is_alpha c || is_digit c.

(** [\w]: letters, digits and the underscore. *)
Definition is_word (c : ascii) : bool := is_alnum c || (code c =? 95)%N.

(** [str.isspace], also the class [\s]: TAB..CR, FS..US and the space. *)
Definition isspace (c : ascii) : bool :=
  in_range 9 13 c || in_range 28 32 c.

Definition lower_char (c : ascii) : ascii :=
  if is_upper c then ascii_of_N (code c + 32) else c.

Definition upper_char (c : ascii) : ascii :=
  if is_lower c then ascii_of_N (code c - 32) else c.

Fixpoint map_chars (f : ascii -> ascii) (s : string) : string :=
  match s with
  | EmptyString => EmptyString
  | String c s' => String (f c) (map_chars f s')
  end.

(** [s.lower()] *)
Definition lower : string -> string := map_chars lower_char.

(** [len(s)] *)
Definition len (s : string) : nat := String.length s.

(** [s.lstrip()], [s.rstrip()], [s.strip()] *)
Fixpoint lstrip (s : string) : string :=
  match s with
  | EmptyString => EmptyString
  | String c s' => if isspace c then lstrip s' else s
  end.

Fixpoint rstrip (s : string) : string :=
  match s with
  | EmptyString => EmptyString
  | String c s' =>
      match rstrip s' with
      | EmptyString => if isspace c then EmptyString else String c EmptyString
      | t => String c t
      end
  end.

Definition strip (s : string) : string := rstrip (lstrip s).

(** [s[:n]] for [n >= 0] *)
Fixpoint take (n : nat) (s : string) : string :=
  match n, s with
  | O, _ => EmptyString
  | _, EmptyString => EmptyString
  | S n', String c s' => String c (take n' s')
  end.

(** [s.startswith(p)] *)
Fixpoint startswith (p s : string) : bool :=
  match p, s with
  | EmptyString, _ => true
  | String _ _, EmptyString => false
  | String a p', String b s' => if ascii_dec a b then startswith p' s' else false
  end.

(** [sub in s] *)
Fixpoint contains (sub s : string) : bool :=
  startswith sub s ||
  match s with
  | EmptyString => false
  | String _ s' => contains sub s'
  end.

(** [any(word in s for word in words)] *)
Definition contains_any (words : list string) (s : string) : bool :=
  existsb (fun w => contains w s) words.

(** The maximal non-empty runs of characters satisfying [p], left to
    right; [acc] is the run being read. *)
Definition flush (acc : string) : list string :=
  match acc with EmptyString => [] | _ => [acc] end.

Fixpoint runs_go (p : ascii -> bool) (acc s : string) : list string :=
  match s with
  | EmptyString => flush acc
  | String c s' =>
      if p c then runs_go p (acc +:+ String c EmptyString) s'
      else flush acc ++ runs_go p EmptyString s'
  end.

Definition runs (p : ascii -> bool) (s : string) : list string :=
  runs_go p EmptyString s.

(** [s.split()]: the maximal runs of non-space characters. *)
Definition split (s : string) : list string :=
  runs (fun c => negb (isspace c)) s.

(** [sep.join(parts)] *)
Fixpoint join (sep : string) (parts : list string) : string :=
  match parts with
  | [] => EmptyString
  | [p] => p
  | p :: rest => p +:+ sep +:+ join sep rest
  end.

Fixpoint forallb_chars (p : ascii -> bool) (s : string) : bool :=
  match s with
  | EmptyString => true
  | String c s' => p c && forallb_chars p s'
  end.

(** [re.sub(r'\s+', ' ', s)]: every maximal run of spaces becomes one
    space; [in_ws] says that the previous character was a space. *)
Fixpoint collapse_ws_go (in_ws : bool) (s : string) : string :=
  match s with
  | EmptyString => EmptyString
  | String c s' =>
      if isspace c then
        if in_ws then collapse_ws_go true s'
        else String " " (collapse_ws_go true s')
      else String c (collapse_ws_go false s')
  end.

Definition collapse_ws : string -> string := collapse_ws_go false.

(** [s.replace(old, new)] for a non-empty [old]: the occurrences are
    replaced from left to right without overlap; [skip] counts the
    characters of a replaced occurrence still to pass. *)
Fixpoint replace_go (old new : string) (skip : nat) (s : string) : string :=
  match s with
  | EmptyString => EmptyString
  | String c s' =>
      match skip with
      | S k => replace_go old new k s'
      | O =>
          if startswith old s then new +:+ replace_go old new (len old - 1) s'
          else String c (replace_go old new 0 s')
      end
  end.

Definition replace (old new s : string) : string := replace_go old new 0 s.

(** [s.split(sep)[0]] for a one-character separator. *)
Fixpoint before_char (sep : ascii) (s : string) : string :=
  match s with
  | EmptyString => EmptyString
  | String c s' => if ascii_dec c sep then EmptyString else String c (before_char sep s')
  end.

(** [s.title()]: a cased character is put in upper case when the
    character before it is not cased, in lower case otherwise. *)
Fixpoint title_go (prev_cased : bool) (s : string) : string :=
  match s with
  | EmptyString => EmptyString
  | String c s' =>
      if is_alpha c then
        String (if prev_cased then lower_char c else upper_char c) (title_go true s')
      else String c (title_go false s')
  end.

Definition title : string -> string := title_go false.

(** [not s] for a string. *)
Definition is_empty (s : string) : bool :=
  match s with EmptyString => true | _ => false end.

End Text.

(* ================================================================== *)
(** * Exceptions, floats, slices and sorting *)
(* ================================================================== *)

Inductive result (A : Type) : Type :=
| Ok (a : A)
| Raise (msg : string).
Arguments Ok {A} a.
Arguments Raise {A} msg.

(** [try: body except Exception as e: handler(str(e))] for code that
    touches no store. *)
Definition try_except {A : Type} (body : result A) (handler : string -> result A)
  : result A :=
  match body with
  | Ok a => Ok a
  | Raise msg => handler msg
  end.

(** Python floats as exact rationals. *)
Definition float : Type := Q.

(** [a / b] for two positive integers, in lowest terms. *)
Definition fdiv (a b : nat) : float :=
  Qred (Z.of_nat a # Pos.of_nat b).

(** [a > b] and [a < b] *)
Definition fgt (a b : float) : bool :=
  (Qnum b * QDen a <? Qnum a * QDen b)%Z.

Definition flt (a b : float) : bool := fgt b a.

(** [xs[:k]] for a Python integer [k]: a negative [k] counts from the
    end. *)
Definition slice_to {A : Type} (k : Z) (xs : list A) : list A :=
  if 0 <=? k then firstn (Z.to_nat k) xs
  else firstn (Z.to_nat (Z.of_nat (length xs) + k)) xs.

(** [sorted(xs, key=...)] and SQL's [ORDER BY]: a stable sort;
    [before a b] says that the key of [a] comes strictly before the key
    of [b] in the requested order (strictly greater for
    [reverse=True] and [DESC]).  Elements with equal keys keep their
    order. *)
Fixpoint insert_by {A : Type} (before : A -> A -> bool) (x : A) (ys : list A) : list A :=
  match ys with
  | [] => [x]
  | y :: ys' => if before y x then y :: insert_by before x ys' else x :: ys
  end.

Fixpoint sorted_by {A : Type} (before : A -> A -> bool) (xs : list A) : list A :=
  match xs with
  | [] => []
  | x :: xs' => insert_by before x (sorted_by before xs')
  end.

(* ================================================================== *)
(** * KeywordExtractor *)
(* ================================================================== *)

Record ExtractedKeyword : Type := mkExtractedKeyword {
  keyword : string;
  score : float
}.

Module KeywordExtractor.
Import Text.

(** The basic English stopwords used when NLTK is not installed. *)
Definition basic_english_stopwords : list string :=
  [ "i"; "me"; "my"; "myself"; "we"; "our"; "ours"; "ourselves"; "you"; "your"; "yours";
    "yourself"; "yourselves"; "he"; "him"; "his"; "himself"; "she"; "her"; "hers";
    "herself"; "it"; "its"; "itself"; "they"; "them"; "their"; "theirs"; "themselves";
    "what"; "which"; "who"; "whom"; "this"; "that"; "these"; "those"; "am"; "is"; "are";
    "was"; "were"; "be"; "been"; "being"; "have"; "has"; "had"; "having"; "do"; "does";
    "did"; "doing"; "a"; "an"; "the"; "and"; "but"; "if"; "or"; "because"; "as"; "until";
    "while"; "of"; "at"; "by"; "for"; "with"; "through"; "during"; "before"; "after";
    "above"; "below"; "up"; "down"; "in"; "out"; "on"; "off"; "over"; "under"; "again";
    "further"; "then"; "once" ].

Definition custom_stopwords : list string :=
  [ "http"; "https"; "www"; "com"; "org"; "net"; "html"; "page"; "site";
    "click"; "here"; "more"; "read"; "see"; "view"; "get"; "new"; "latest" ].

(** The instance: its only attribute is the stopword set. *)
Record t : Type := mk { all_stopwords : gset string }.

(** [__init__].  [nltk] is [None] when NLTK is not installed
    ([NLTK_AVAILABLE] false), otherwise the outcome of
    [stopwords.words('english')], whose failure leaves the empty set. *)
Definition init (nltk : option (result (list string))) : t :=
  let english_stopwords :=
    match nltk with
    | Some (Ok ws) => list_to_set ws
    | Some (Raise _) => ∅
    | None => list_to_set basic_english_stopwords
    end in
  mk (english_stopwords ∪ list_to_set custom_stopwords).

(** [re.findall(r'\b[a-zA-Z][a-zA-Z0-9]{2,}\b', s)].  A match starts and
    ends at a word boundary and holds letters and digits only, so it is a
    whole maximal run of word characters; the run matches when it begins
    with a letter, has no underscore and has at least three characters. *)
Definition is_token (w : string) : bool :=
  match w with
  | String c rest =>
      is_alpha c && forallb_chars is_alnum rest && (2 <=? len rest)%nat
  | EmptyString => false
  end.

Definition find_tokens (s : string) : list string :=
  List.filter is_token (runs is_word s).

(** [word_freq[word] = word_freq.get(word, 0) + 1] on a dictionary kept
    in insertion order. *)
Fixpoint bump (w : string) (d : list (string * nat)) : list (string * nat) :=
  match d with
  | [] => [(w, 1%nat)]
  | (k, n) :: d' => if String.eqb k w then (k, S n) :: d' else (k, n) :: bump w d'
  end.

Definition count_words (words : list string) : list (string * nat) :=
  fold_left (fun d w => bump w d) words [].

Definition freq_gt (a b : string * nat) : bool := (snd b <? snd a)%nat.

(** The words that [_extract_with_frequency] counts. *)
Definition words_of (self : t) (text : string) : list string :=
  List.filter (fun w => negb (bool_decide (w ∈ all_stopwords self)))
              (find_tokens (lower text)).

(** [_extract_with_frequency].  Nothing in its [try] block raises on a
    string and an integer, the handler is dead code. *)
Definition _extract_with_frequency (self : t) (text : string) (max_features : Z)
  : list ExtractedKeyword :=
  let words := words_of self text in
  let word_freq := count_words words in
  let sorted_words := sorted_by freq_gt word_freq in
  let max_freq := match sorted_words with (_, f) :: _ => f | [] => 1%nat end in
  flat_map (fun '(word, freq) =>
              let score := fdiv freq max_freq in
              if fgt score 0.05%Q then [mkExtractedKeyword word score] else [])
           (slice_to max_features sorted_words).

Definition score_gt (a b : string * float) : bool := fgt (snd a) (snd b).

(** [_extract_with_tfidf].  [tfidf text stop_words] stands for the
    scikit-learn vectorizer: the pairs [zip(feature_names, tfidf_scores)],
    or the exception it raises (an empty vocabulary, for one). *)
Definition _extract_with_tfidf
    (tfidf : string -> gset string -> result (list (string * float)))
    (self : t) (text : string) (max_features : Z) : list ExtractedKeyword :=
  match tfidf text (all_stopwords self) with
  | Ok keyword_scores =>
      let keyword_scores := sorted_by score_gt keyword_scores in
      flat_map (fun '(keyword, score) =>
                  if fgt score 0.01%Q then [mkExtractedKeyword keyword score] else [])
               (slice_to max_features keyword_scores)
  | Raise _ => _extract_with_frequency self text max_features
  end.

(** [extract_keywords].  [sklearn] is [SKLEARN_AVAILABLE]. *)
Definition extract_keywords
    (sklearn : bool)
    (tfidf : string -> gset string -> result (list (string * float)))
    (self : t) (text : string) (max_features : Z) : list ExtractedKeyword :=
  if (len text =? 0)%nat || (len (strip text) <? 50)%nat then []
  else if sklearn then _extract_with_tfidf tfidf self text max_features
  else _extract_with_frequency self text max_features.

End KeywordExtractor.

(* ================================================================== *)
(** * CategoryResolver *)
(* ================================================================== *)

Module CategoryResolver.
Import Text.

(** [CATEGORY_MAPPINGS]: name, Trends id, YouTube id. *)
Definition CATEGORY_MAPPINGS : list (string * (Z * string)) :=
  [ ("Arts & Entertainment", (3, "24"));
    ("Autos & Vehicles", (47, "2"));
    ("Beauty & Fitness", (44, "26"));
    ("Books & Literature", (22, "27"));
    ("Business & Industrial", (12, "28"));
    ("Computers & Electronics", (5, "28"));
    ("Finance", (7, "28"));
    ("Food & Drink", (71, "26"));
    ("Games", (8, "20"));
    ("Health", (45, "26"));
    ("Hobbies & Leisure", (65, "24"));
    ("Home & Garden", (11, "26"));
    ("Internet & Telecom", (13, "28"));
    ("Jobs & Education", (958, "27"));
    ("Law & Government", (19, "25"));
    ("News", (16, "25"));
    ("People & Society", (14, "22"));
    ("Pets & Animals", (66, "15"));
    ("Real Estate", (29, "28"));
    ("Reference", (533, "27"));
    ("Science", (174, "28"));
    ("Shopping", (18, "22"));
    ("Sports", (20, "17"));
    ("Travel", (67, "19")) ].

(** The instance: [trends_categories] maps a category name to its id, in
    the order of insertion. *)
Record t : Type := mk { trends_categories : list (string * Z) }.

Definition static_categories : list (string * Z) :=
  map (fun '(name, (trends_id, _)) => (name, trends_id)) CATEGORY_MAPPINGS.

(** [__init__] with [_load_api_categories].  [api] is the outcome of
    [TrendReq(...).categories()]; when it raises, the built-in table is
    the fallback. *)
Definition init (api : result (list (string * Z))) : t :=
  match api with
  | Ok categories => mk categories
  | Raise _ => mk static_categories
  end.

(** The loop variables of [resolve_trends_category]. *)
Record best : Type := mkBest {
  best_match : option string;
  best_score : float;
  best_id : Z
}.

Definition words_set (s : string) : gset string := list_to_set (split s).

(** One iteration of the loop over [trends_categories.items()]. *)
Definition overlap_step (text_lower : string) (b : best) (category : string * Z) : best :=
  let '(category_name, category_id) := category in
  let category_lower := lower category_name in
  let text_words := words_set text_lower in
  let category_words := words_set category_lower in
  let overlap := size (text_words ∩ category_words) in
  if (0 <? overlap)%nat then
    let score := fdiv overlap (Nat.max (size text_words) (size category_words)) in
    if fgt score (best_score b) then mkBest (Some category_name) score category_id
    else b
  else b.

(** The state of the loop variables after the loop. *)
Definition best_overlap (self : t) (text_lower : string) : best :=
  fold_left (overlap_step text_lower) (trends_categories self) (mkBest None 0.0%Q 16).

Definition tech_words : list string := ["tech"; "software"; "ai"; "computer"; "digital"].
Definition business_words : list string := ["business"; "marketing"; "finance"; "investment"].
Definition health_words : list string := ["health"; "medical"; "fitness"; "wellness"].
Definition food_words : list string := ["food"; "recipe"; "restaurant"; "cooking"].

(** The keyword heuristics applied when the best score is below 0.3. *)
Definition heuristic (text_lower : string) : best :=
  if contains_any tech_words text_lower then
    mkBest (Some "Computers & Electronics") 0.6%Q 5
  else if contains_any business_words text_lower then
    mkBest (Some "Business & Industrial") 0.6%Q 12
  else if contains_any health_words text_lower then
    mkBest (Some "Health") 0.6%Q 45
  else if contains_any food_words text_lower then
    mkBest (Some "Food & Drink") 0.6%Q 71
  else
    mkBest (Some "News") 0.4%Q 16.

(** [best_match or "News"] *)
Definition or_news (m : option string) : string :=
  match m with
  | Some name => if is_empty name then "News" else name
  | None => "News"
  end.

(** [resolve_trends_category]: (category name, category id, confidence). *)
Definition resolve_trends_category (self : t) (text : string) : string * Z * float :=
  if is_empty text || (length (trends_categories self) =? 0)%nat then
    ("News", 16, 0.0%Q)
  else
    let text_lower := lower text in
    let b := best_overlap self text_lower in
    let b := if flt (best_score b) 0.3%Q then heuristic text_lower else b in
    (or_news (best_match b), best_id b, best_score b).

Fixpoint lookup {V : Type} (k : string) (d : list (string * V)) : option V :=
  match d with
  | [] => None
  | (k', v) :: d' => if String.eqb k' k then Some v else lookup k d'
  end.

(** [resolve_youtube_category] *)
Definition resolve_youtube_category (category_name : string) : string :=
  match lookup category_name CATEGORY_MAPPINGS with
  | Some (_, youtube_id) => youtube_id
  | None =>
      let name_lower := lower category_name in
      if contains_any ["tech"; "computer"; "science"] name_lower then "28"
      else if contains_any ["game"; "gaming"] name_lower then "20"
      else if contains_any ["music"; "entertainment"] name_lower then "24"
      else if contains_any ["news"; "politics"] name_lower then "25"
      else if contains_any ["sport"; "fitness"] name_lower then "17"
      else "24"
  end.

End CategoryResolver.

(* ================================================================== *)
(** * ContentExtractor *)
(* ================================================================== *)

Module ContentExtractor.
Import Text.

(** What the code reads from the parsed page once the [script], [style],
    [nav], [footer] and [aside] elements are removed:
    [select_one sel] is [None] when no element matches the selector,
    else the element's [get_text(strip=True, separator=' ')];
    [get_text] is that of the whole document. *)
Record Soup : Type := mkSoup {
  select_one : string -> option string;
  get_text : string
}.

Definition selectors : list string := ["main"; "article"; ".content"; "#content"; ".main"].

(** The loop over the selectors: the text of the first element found. *)
Fixpoint first_match (soup : Soup) (sels : list string) : string :=
  match sels with
  | [] => ""
  | sel :: rest =>
      match select_one soup sel with
      | Some text => text
      | None => first_match soup rest
      end
  end.

(** The body of the [try] block.  [fetch url] is [session.get] followed
    by [raise_for_status], giving [response.text]; [parse] is the HTML
    parser with the removal of the unwanted elements. *)
Definition extract_content_body
    (fetch : string -> result string) (parse : string -> result Soup)
    (url : string) : result string :=
  match fetch url with
  | Raise e => Raise e
  | Ok response_text =>
      match parse response_text with
      | Raise e => Raise e
      | Ok soup =>
          let main_content := first_match soup selectors in
          let main_content :=
            if is_empty main_content then get_text soup else main_content in
          let main_content := collapse_ws main_content in
          let main_content := strip main_content in
          Ok (take (Z.to_nat 10000) main_content)
      end
  end.

(** [extract_content] *)
Definition extract_content
    (fetch : string -> result string) (parse : string -> result Soup)
    (url : string) : result string :=
  try_except (extract_content_body fetch parse url) (fun _ => Ok "").

End ContentExtractor.

(* ================================================================== *)
(** * TrendHarvesterDB *)
(* ================================================================== *)

(** A value bound to an SQL parameter or stored in a column: SQLite
    columns hold values of any of these kinds. *)
Inductive value : Type :=
| VNone
| VInt (n : Z)
| VReal (x : float)
| VStr (s : string)
| VTime (t : Z).

Definition is_null (v : value) : bool :=
  match v with VNone => true | _ => false end.

Module TrendHarvesterDB.
Import Text.

(** A row of the table [runs]. *)
Record run : Type := mkRun {
  id : Z;
  url : value;
  detected_category_name : value;
  detected_category_id : value;
  youtube_category_id : value;
  started_at : value;
  finished_at : value;
  status : value;
  notes : value
}.

Record page_keyword : Type := mkPageKeyword {
  pk_run_id : Z; pk_keyword : string; pk_score : float
}.

Record trends_interest_row : Type := mkInterest {
  ti_run_id : Z; ti_keyword : string; ti_date : string; ti_interest : Z
}.

Record related_query : Type := mkRelated {
  rq_run_id : Z; rq_base_keyword : string; rq_query : string;
  rq_type : string; rq_value : Z
}.

Record youtube_video : Type := mkVideo {
  yt_run_id : Z; yt_video_id : string; yt_title : string; yt_channel : string;
  yt_published_at : string; yt_view_count : Z; yt_like_count : Z;
  yt_comment_count : Z; yt_category_id : string
}.

Record news_article : Type := mkNews {
  na_run_id : Z; na_title : string; na_source : string; na_url : string;
  na_published_at : string; na_snippet : string
}.

(** The database: the six tables, and the counter SQLite keeps for the
    [AUTOINCREMENT] key of [runs]. *)
Record DB : Type := mkDB {
  runs : list run;
  runs_seq : Z;
  page_keywords : list page_keyword;
  trends_interest : list trends_interest_row;
  trends_related_queries : list related_query;
  youtube_videos : list youtube_video;
  news_articles : list news_article
}.

(** [init_database] on a new file. *)
Definition empty_db : DB := mkDB [] 0 [] [] [] [] [].

Definition with_runs (rs : list run) (db : DB) : DB :=
  mkDB rs (runs_seq db) (page_keywords db) (trends_interest db)
       (trends_related_queries db) (youtube_videos db) (news_articles db).

(** [SELECT * FROM runs WHERE id = ?] with [fetchone()] *)
Definition select_run (run_id : Z) (db : DB) : option run :=
  find (fun r => id r =? run_id) (runs db).

(** The key of an inserted run: one more than the largest key in the
    table and the largest key ever given. *)
Definition next_run_id (db : DB) : Z :=
  1 + fold_right Z.max (Z.max 0 (runs_seq db)) (map id (runs db)).

(** [create_run]: [INSERT INTO runs (url, started_at, status) VALUES
    (?, ?, 'running')]; the other columns are NULL.  [now] is the
    reading of [datetime.now()].  The result is [cursor.lastrowid]. *)
Definition create_run (trend_run_url : string) (now : Z) (db : DB) : Z * DB :=
  let run_id := next_run_id db in
  let row := mkRun run_id (VStr trend_run_url) VNone VNone VNone (VTime now)
                   VNone (VStr "running") VNone in
  (run_id,
   mkDB (runs db ++ [row]) run_id (page_keywords db) (trends_interest db)
        (trends_related_queries db) (youtube_videos db) (news_articles db)).

(** [SET column = ?] on one row, for any column of [runs].  The key
    column takes integers only.  The column is given the value as it
    is bound: that is what SQLite does for the values that the type
    affinity of the column leaves alone and that [sqlite3] can bind
    ([stored_as_given] below), and [run_analysis] passes no others. *)
Definition set_column (column : string) (v : value) (r : run) : run :=
  if String.eqb column "id" then
    match v with
    | VInt n => mkRun n (url r) (detected_category_name r) (detected_category_id r)
                      (youtube_category_id r) (started_at r) (finished_at r)
                      (status r) (notes r)
    | _ => r
    end
  else if String.eqb column "url" then
    mkRun (id r) v (detected_category_name r) (detected_category_id r)
          (youtube_category_id r) (started_at r) (finished_at r) (status r) (notes r)
  else if String.eqb column "detected_category_name" then
    mkRun (id r) (url r) v (detected_category_id r)
          (youtube_category_id r) (started_at r) (finished_at r) (status r) (notes r)
  else if String.eqb column "detected_category_id" then
    mkRun (id r) (url r) (detected_category_name r) v
          (youtube_category_id r) (started_at r) (finished_at r) (status r) (notes r)
  else if String.eqb column "youtube_category_id" then
    mkRun (id r) (url r) (detected_category_name r) (detected_category_id r)
          v (started_at r) (finished_at r) (status r) (notes r)
  else if String.eqb column "started_at" then
    mkRun (id r) (url r) (detected_category_name r) (detected_category_id r)
          (youtube_category_id r) v (finished_at r) (status r) (notes r)
  else if String.eqb column "finished_at" then
    mkRun (id r) (url r) (detected_category_name r) (detected_category_id r)
          (youtube_category_id r) (started_at r) v (status r) (notes r)
  else if String.eqb column "status" then
    mkRun (id r) (url r) (detected_category_name r) (detected_category_id r)
          (youtube_category_id r) (started_at r) (finished_at r) v (notes r)
  else if String.eqb column "notes" then
    mkRun (id r) (url r) (detected_category_name r) (detected_category_id r)
          (youtube_category_id r) (started_at r) (finished_at r) (status r) v
  else r.

(** [UPDATE runs SET c1 = ?, c2 = ?, ... WHERE id = ?] *)
Definition sql_update_runs (assignments : list (string * value)) (run_id : Z) (db : DB) : DB :=
  with_runs
    (map (fun r =>
            if id r =? run_id
            then fold_left (fun r '(column, v) => set_column column v r) assignments r
            else r)
         (runs db))
    db.

(** The fields [update_run] accepts. *)
Definition mutable_fields : list string :=
  ["detected_category_name"; "detected_category_id"; "youtube_category_id";
   "finished_at"; "status"; "notes"].

Definition is_mutable (field : string) : bool :=
  existsb (String.eqb field) mutable_fields.

(** [update_run(run_id, **kwargs)]: [kwargs] is the dictionary of the
    keyword arguments, in the order of the call. *)
Definition update_run (run_id : Z) (kwargs : list (string * value)) (db : DB) : DB :=
  match kwargs with
  | [] => db
  | _ =>
      let fields := List.filter (fun '(field, _) => is_mutable field) kwargs in
      match fields with
      | [] => db
      | _ => sql_update_runs fields run_id db
      end
  end.

(** [save_keywords] *)
Definition save_keywords (run_id : Z) (keywords : list ExtractedKeyword) (db : DB) : DB :=
  mkDB (runs db) (runs_seq db)
       (page_keywords db ++
        map (fun kw => mkPageKeyword run_id (keyword kw) (score kw)) keywords)
       (trends_interest db) (trends_related_queries db)
       (youtube_videos db) (news_articles db).

(** The dictionary [get_run_results] builds for a run that exists. *)
Record results : Type := mkResults {
  res_run : run;
  res_keywords : list page_keyword;
  res_trends_interest : list trends_interest_row;
  res_related_queries : list related_query;
  res_youtube_videos : list youtube_video;
  res_news_articles : list news_article
}.

(** The binding of a Python integer to an SQL parameter: [sqlite3]
    takes the integers of 64 bits and raises [OverflowError] on the
    others. *)
Definition sqlite_int (n : Z) : result Z :=
  if (- 2 ^ 63 <=? n) && (n <? 2 ^ 63) then Ok n
  else Raise "Python int too large to convert to SQLite INTEGER".

(** The queries of [get_run_results], once [run_id] is bound: [None]
    is the empty dictionary.  SQL leaves the order of rows with equal
    sort keys open; they are given here in the order of insertion, and
    no statement below depends on it. *)
Definition run_results_of (run_id : Z) (db : DB) : option results :=
  match select_run run_id db with
  | None => None
  | Some run =>
      let keywords :=
        firstn 10 (sorted_by (fun a b => fgt (pk_score a) (pk_score b))
                     (List.filter (fun k => pk_run_id k =? run_id) (page_keywords db))) in
      let trends_interest :=
        sorted_by (fun a b => String.ltb (ti_date a) (ti_date b))
          (List.filter (fun t => ti_run_id t =? run_id) (trends_interest db)) in
      let related_queries :=
        firstn 10 (sorted_by (fun a b => rq_value b <? rq_value a)
                     (List.filter (fun q => (rq_run_id q =? run_id)
                                            && String.eqb (rq_type q) "rising")
                                  (trends_related_queries db))) in
      let youtube_videos :=
        firstn 15 (sorted_by (fun a b => yt_view_count b <? yt_view_count a)
                     (List.filter (fun v => yt_run_id v =? run_id) (youtube_videos db))) in
      let news_articles :=
        firstn 25 (sorted_by (fun a b => String.ltb (na_published_at b) (na_published_at a))
                     (List.filter (fun n => na_run_id n =? run_id) (news_articles db))) in
      Some (mkResults run keywords trends_interest related_queries
                      youtube_videos news_articles)
  end.

(** [get_run_results]: the first [execute] binds [run_id] and raises
    when it cannot. *)
Definition get_run_results (run_id : Z) (db : DB) : result (option results) :=
  match sqlite_int run_id with
  | Raise e => Raise e
  | Ok run_id => Ok (run_results_of run_id db)
  end.

End TrendHarvesterDB.

(* ================================================================== *)
(** * The store monad *)
(* ================================================================== *)

(** The state of a computation on the store: the database, and the
    journal of the states it had after each commit, the latest first. *)
Record Sys : Type := mkSys {
  db : TrendHarvesterDB.DB;
  journal : list TrendHarvesterDB.DB
}.

Definition M (A : Type) : Type := Sys -> result A * Sys.

Definition ret {A : Type} (a : A) : M A := fun s => (Ok a, s).

Definition bind {A B : Type} (m : M A) (k : A -> M B) : M B :=
  fun s =>
    match m s with
    | (Ok a, s') => k a s'
    | (Raise msg, s') => (Raise msg, s')
    end.

Definition raise {A : Type} (msg : string) : M A := fun s => (Raise msg, s).

Definition lift {A : Type} (r : result A) : M A := fun s => (r, s).

(** [try: body except Exception as e: handler(str(e))]; what the body
    committed before it raised stays committed. *)
Definition try_catch {A : Type} (body : M A) (handler : string -> M A) : M A :=
  fun s =>
    match body s with
    | (Ok a, s') => (Ok a, s')
    | (Raise msg, s') => handler msg s'
    end.

(** A write followed by [conn.commit()]. *)
Definition commit (f : TrendHarvesterDB.DB -> TrendHarvesterDB.DB) : M unit :=
  fun s => let d := f (db s) in (Ok tt, mkSys d (d :: journal s)).

Notation "'let*' x ':=' m 'in' k" := (bind m (fun x => k))
  (at level 10, x name, m at level 100, k at level 200).

Fixpoint for_each {A : Type} (xs : list A) (body : A -> M unit) : M unit :=
  match xs with
  | [] => ret tt
  | x :: xs' => let* _ := body x in for_each xs' body
  end.

(* ================================================================== *)
(** * The outside world *)
(* ================================================================== *)

(** What pytrends answers for one batch: [interest_over_time] is the
    frame of [build_payload] followed by [interest_over_time()], one
    row per date (already formatted) with a value per column, or the
    exception raised up to the insertion of its rows;
    [related_queries] maps a keyword to its [rising] frame (rows of
    query and value), [None] when the entry has none, or is the
    exception raised up to the insertion of its rows. *)
Record batch_outcome : Type := mkOutcome {
  interest_over_time : result (list (string * list (string * Z)));
  related_queries : result (list (string * option (list (string * Z))))
}.

(** The store calls of [run_analysis]: [create_run] before the [try]
    block, the calls in the block, and the [update_run] of its
    handler. *)
Inductive store_call : Type :=
| MarkNoContent
| MarkNoKeywords
| SaveKeywords
| PatchCategory
| MarkCompleted
| CreateRun
| MarkFailed.

Record World : Type := mkWorld {
  (** [session.get(url, timeout=10)] and [raise_for_status()] *)
  w_fetch : string -> result string;
  (** [BeautifulSoup(text, 'html.parser')] and the [decompose()] loop *)
  w_parse : string -> result ContentExtractor.Soup;
  (** [urlparse(s)]: its [netloc] and [path], or the [ValueError] *)
  w_urlparse : string -> result (string * string);
  (** [unquote(s)] *)
  w_unquote : string -> string;
  (** [None] when NLTK is missing, else [stopwords.words('english')] *)
  w_nltk : option (result (list string));
  (** [SKLEARN_AVAILABLE] and the vectorizer *)
  w_sklearn : bool;
  w_tfidf : string -> gset string -> result (list (string * float));
  (** [TrendReq(...).categories()] *)
  w_categories : result (list (string * Z));
  (** [PYTRENDS_AVAILABLE], and the answers to the batch that starts at
      a given offset, for a given category *)
  w_pytrends : bool;
  w_trends : nat -> list string -> Z -> batch_outcome;
  (** the environment variables *)
  w_youtube_api_key : option string;
  w_serpapi_key : option string;
  w_gnews_api_key : option string;
  (** the readings of [datetime.now()], in the order of the calls *)
  w_now : nat -> Z;
  (** the rendering [f'{x:.2f}'] of a float *)
  w_format_2f : float -> string;
  (** [Some msg] when the store raises [msg] in that call of
      [run_analysis], before it commits *)
  w_fault : store_call -> option string
}.

(** The truth value of an environment variable. *)
Definition is_set (v : option string) : bool :=
  match v with
  | Some s => negb (Text.is_empty s)
  | None => false
  end.

(* ================================================================== *)
(** * TrendHarvester *)
(* ================================================================== *)

Module TrendHarvester.
Import Text TrendHarvesterDB.

(** The instance built by [__init__]. *)
Definition keyword_extractor (w : World) : KeywordExtractor.t :=
  KeywordExtractor.init (w_nltk w).

Definition category_resolver (w : World) : CategoryResolver.t :=
  CategoryResolver.init (w_categories w).

(** [industry_keywords], in the order of the dictionary. *)
Definition industry_keywords : list (string * list string) :=
  [ ("roofing", ["roofing services"; "roof repair"; "roof installation"; "roofing contractor"; "storm damage repair"; "residential roofing"; "commercial roofing"; "roof replacement"; "roof maintenance"; "gutter services"; "emergency roof repair"]);
    ("dental", ["dental services"; "dentist"; "oral health"; "dental care"; "teeth cleaning"; "dental implants"; "orthodontics"; "cosmetic dentistry"; "preventive care"]);
    ("law", ["legal services"; "attorney"; "legal counsel"; "litigation"; "legal representation"; "law firm"; "legal advice"; "court representation"]);
    ("medical", ["medical services"; "healthcare"; "medical care"; "patient care"; "medical treatment"; "health services"; "clinical care"]);
    ("restaurant", ["restaurant"; "dining"; "food service"; "culinary"; "menu"; "cuisine"; "dining experience"; "food quality"]);
    ("auto", ["automotive services"; "car repair"; "auto maintenance"; "vehicle service"; "automotive repair"; "car care"]);
    ("construction", ["construction services"; "building contractor"; "construction company"; "residential construction"; "commercial construction"]) ].

(** [keyword.split()[0]]; every phrase of the table has a first word. *)
Definition first_word (kw : string) : string :=
  match split kw with
  | w :: _ => w
  | [] => ""
  end.

(** The loop that detects the industry: the first entry one of whose
    phrases has its first word in [full_text]. *)
Fixpoint detect_industry (table : list (string * list string)) (full_text : string)
  : option (string * list string) :=
  match table with
  | [] => None
  | (industry, keywords) :: rest =>
      if existsb (fun kw => contains (first_word kw) full_text) keywords
      then Some (industry, keywords)
      else detect_industry rest full_text
  end.

Definition industry_extras (industry : string) : list string :=
  if String.eqb industry "roofing" then
    ["licensed roofing contractors"; "quality workmanship"; "customer satisfaction";
     "insurance claims assistance"; "free estimates"; "warranty protection";
     "storm damage assessment"; "energy efficient roofing"; "local roofing company"]
  else if String.eqb industry "dental" then
    ["family dentistry"; "modern dental technology"; "patient comfort";
     "dental insurance accepted"; "emergency dental care"; "smile transformation"]
  else if String.eqb industry "law" then
    ["experienced attorneys"; "client advocacy"; "legal expertise";
     "consultation services"; "case evaluation"; "professional representation"]
  else [].

Definition generic_keywords : list string :=
  ["professional services"; "quality service"; "customer focused";
   "experienced team"; "reliable service"; "business solutions";
   "customer satisfaction"; "professional expertise"].

(** The body of the [try] block of
    [_analyze_url_for_business_intelligence]. *)
Definition analyze_url_body (w : World) (url : string) : result string :=
  match w_urlparse w (lower url) with
  | Raise e => Raise e
  | Ok (netloc, parsed_path) =>
      let domain := replace "www." "" netloc in
      let path := w_unquote w parsed_path in
      let business_name := before_char "." domain in
      let business_name :=
        title (map_chars (fun c => if is_alpha c || isspace c then c else " "%char)
                         business_name) in
      let full_text := lower (domain +:+ " " +:+ path) in
      let content_parts := [business_name +:+ " Professional Services"] in
      let content_parts :=
        match detect_industry industry_keywords full_text with
        | Some (industry, keywords) =>
            content_parts ++ keywords ++ industry_extras industry
        | None => content_parts ++ generic_keywords
        end in
      let content_parts :=
        if contains "contact" path
        then content_parts ++ ["contact information"; "customer service"; "business location"]
        else content_parts in
      let content_parts :=
        if contains "about" path
        then content_parts ++ ["company information"; "business history"; "team expertise"]
        else content_parts in
      let content_parts :=
        if contains "services" path
        then content_parts ++ ["service offerings"; "professional solutions"; "service quality"]
        else content_parts in
      Ok (join ". " content_parts +:+ ".")
  end.

Definition generic_paragraph : string :=
  "Professional business services. Quality service provider. Customer satisfaction. Reliable team.".

(** [_analyze_url_for_business_intelligence] *)
Definition _analyze_url_for_business_intelligence (w : World) (url : string)
  : result string :=
  try_except (analyze_url_body w url) (fun _ => Ok generic_paragraph).

(** Step 1 of [run_analysis]: the value of [content] when the test
    [if not content] is reached. *)
Definition content_stage (w : World) (url : string) : result string :=
  match ContentExtractor.extract_content (w_fetch w) (w_parse w) url with
  | Raise e => Raise e
  | Ok content =>
      if is_empty content || (len (strip content) <? 50)%nat
      then _analyze_url_for_business_intelligence w url
      else Ok content
  end.

(** [range(start, stop, step)] for a positive step; [fuel] bounds the
    number of elements. *)
Fixpoint range_step (fuel start stop step : nat) : list nat :=
  match fuel with
  | O => []
  | S fuel' =>
      if (start <? stop)%nat then start :: range_step fuel' (start + step) stop step
      else []
  end.

(** The batches of [_analyze_trends]: for [i] in
    [range(0, len(keywords), 5)], the slice [keywords[i:i+5]]. *)
Definition batches (keywords : list string) : list (nat * list string) :=
  map (fun i => (i, firstn 5 (skipn i keywords)))
      (range_step (length keywords) 0 (length keywords) 5).

(** [interest_data.empty]: the frame has no cell. *)
Definition frame_empty (interest_data : list (string * list (string * Z))) : bool :=
  forallb (fun '(_, row) => (length row =? 0)%nat) interest_data.

(** The rows inserted into [trends_interest] for one batch. *)
Definition interest_rows (run_id : Z) (batch : list string)
    (interest_data : list (string * list (string * Z))) : list trends_interest_row :=
  flat_map (fun '(date, row) =>
              flat_map (fun keyword =>
                          match CategoryResolver.lookup keyword row with
                          | Some v => [mkInterest run_id keyword date v]
                          | None => []
                          end)
                       batch)
           interest_data.

(** The rows inserted into [trends_related_queries] for one batch. *)
Definition related_rows (run_id : Z)
    (related : list (string * option (list (string * Z)))) : list related_query :=
  flat_map (fun '(keyword, queries_data) =>
              match queries_data with
              | Some rising =>
                  map (fun '(query, v) => mkRelated run_id keyword query "rising" v)
                      (firstn 10 rising)
              | None => []
              end)
           related.

Definition insert_interest (rows : list trends_interest_row) (d : DB) : DB :=
  mkDB (runs d) (runs_seq d) (page_keywords d) (trends_interest d ++ rows)
       (trends_related_queries d) (youtube_videos d) (news_articles d).

Definition insert_related (rows : list related_query) (d : DB) : DB :=
  mkDB (runs d) (runs_seq d) (page_keywords d) (trends_interest d)
       (trends_related_queries d ++ rows) (youtube_videos d) (news_articles d).

(** The answer of pytrends to the batch at offset [i]. *)
Definition outcome_of (w : World) (category_id : Z) (i : nat) (batch : list string)
  : batch_outcome :=
  w_trends w i batch (if 0 <? category_id then category_id else 0).

(** The inner [try] block of [_analyze_trends], for one batch. *)
Definition process_batch (w : World) (run_id : Z) (category_id : Z)
    (i : nat) (batch : list string) : M unit :=
  let out := outcome_of w category_id i batch in
  let* interest_data := lift (interest_over_time out) in
  let* _ :=
    if frame_empty interest_data then ret tt
    else commit (insert_interest (interest_rows run_id batch interest_data)) in
  let* related := lift (related_queries out) in
  commit (insert_related (related_rows run_id related)).

(** [_analyze_trends] *)
Definition _analyze_trends (w : World) (run_id : Z) (keywords : list string)
    (category_id : Z) : M unit :=
  if negb (w_pytrends w) then ret tt
  else
    try_catch
      (for_each (batches keywords)
         (fun '(i, batch) =>
            try_catch (process_batch w run_id category_id i batch)
                      (fun _ => ret tt)))
      (fun _ => ret tt).

(** [_analyze_youtube] and [_analyze_news] only write to the log. *)
Definition _analyze_youtube (run_id : Z) (category_id : string) (keywords : list string)
  : M unit := ret tt.

Definition _analyze_news (run_id : Z) (category : string) (keywords : list string)
  : M unit := ret tt.

(** A store call of [run_analysis]. *)
Definition store (w : World) (c : store_call) (f : DB -> DB) : M unit :=
  match w_fault w c with
  | Some msg => raise msg
  | None => commit f
  end.

(** The [try] block of [run_analysis]. *)
Definition run_analysis_body (w : World) (url : string) (run_id : Z) : M Z :=
  let* content := lift (content_stage w url) in
  if is_empty content then
    let* _ := store w MarkNoContent
                (update_run run_id [("status", VStr "failed");
                                    ("notes", VStr "Could not extract or analyze content")]) in
    ret run_id
  else
    let keywords :=
      KeywordExtractor.extract_keywords (w_sklearn w) (w_tfidf w)
        (keyword_extractor w) content 25 in
    match keywords with
    | [] =>
        let* _ := store w MarkNoKeywords
                    (update_run run_id [("status", VStr "failed");
                                        ("notes", VStr "No keywords extracted")]) in
        ret run_id
    | _ =>
        let* _ := store w SaveKeywords (save_keywords run_id keywords) in
        let category_text := join " " (map keyword (firstn 10 keywords)) in
        let '(category_name, trends_id, confidence) :=
          CategoryResolver.resolve_trends_category (category_resolver w) category_text in
        let youtube_id := CategoryResolver.resolve_youtube_category category_name in
        let* _ := store w PatchCategory
                    (update_run run_id [("detected_category_name", VStr category_name);
                                        ("detected_category_id", VInt trends_id);
                                        ("youtube_category_id", VStr youtube_id)]) in
        let seed_keywords := map keyword (firstn 7 keywords) in
        let* _ :=
          if w_pytrends w then _analyze_trends w run_id seed_keywords trends_id
          else ret tt in
        let* _ :=
          if is_set (w_youtube_api_key w)
          then _analyze_youtube run_id youtube_id (firstn 3 seed_keywords)
          else ret tt in
        let* _ :=
          if is_set (w_serpapi_key w) || is_set (w_gnews_api_key w)
          then _analyze_news run_id category_name (firstn 3 seed_keywords)
          else ret tt in
        let* _ := store w MarkCompleted
                    (update_run run_id
                       [("status", VStr "completed");
                        ("finished_at", VTime (w_now w 2));
                        ("notes", VStr ("Analysis completed with "
                                        +:+ w_format_2f w confidence
                                        +:+ " category confidence"))]) in
        ret run_id
    end.

(** [self.db.create_run(trend_run)] as a computation on the store; it
    stands before the [try] block, so what it raises leaves
    [run_analysis]. *)
Definition new_run (w : World) (url : string) : M Z :=
  fun s =>
    match w_fault w CreateRun with
    | Some msg => (Raise msg, s)
    | None =>
        let '(run_id, d) := create_run url (w_now w 1) (db s) in
        (Ok run_id, mkSys d (d :: journal s))
    end.

(** [run_analysis].  The [update_run] of the handler is a store call
    like the others: what it raises leaves [run_analysis], and no id is
    returned. *)
Definition run_analysis (w : World) (url : string) : M Z :=
  let* run_id := new_run w url in
  try_catch (run_analysis_body w url run_id)
    (fun e =>
       let* _ := store w MarkFailed
                   (update_run run_id [("status", VStr "failed");
                                       ("notes", VStr e)]) in
       ret run_id).

(** [get_results] *)
Definition get_results (run_id : Z) (d : DB) : result (option results) :=
  get_run_results run_id d.

(** [get_run_status]: the status and the notes; the [execute] binds
    [run_id] and raises when it cannot. *)
Definition get_run_status (run_id : Z) (d : DB) : result (value * value) :=
  match sqlite_int run_id with
  | Raise e => Raise e
  | Ok run_id =>
      Ok (match select_run run_id d with
          | Some run => (status run, notes run)
          | None => (VStr "not_found", VStr "Run not found")
          end)
  end.

End TrendHarvester.

(* ================================================================== *)
(** * The results endpoint of [trend_api_endpoints.py] *)
(* ================================================================== *)

Module TrendApi.
Import TrendHarvesterDB.

(** [_group_trends_by_keyword]: the dictionary from a keyword to its
    points (date, interest), in the order of insertion. *)
Fixpoint group_add (keyword : string) (point : string * Z)
    (grouped : list (string * list (string * Z))) : list (string * list (string * Z)) :=
  match grouped with
  | [] => [(keyword, [point])]
  | (k, points) :: rest =>
      if String.eqb k keyword then (k, points ++ [point]) :: rest
      else (k, points) :: group_add keyword point rest
  end.

Definition _group_trends_by_keyword (trends_data : list trends_interest_row)
  : list (string * list (string * Z)) :=
  fold_left (fun grouped trend =>
               group_add (ti_keyword trend) (ti_date trend, ti_interest trend) grouped)
            trends_data [].

(** The body of the successful response. *)
Record payload : Type := mkPayload {
  run_info : Z * value * value * value * value;
  detected_category : value * value * value;
  keywords : list page_keyword;
  trends_interest_by_keyword : list (string * list (string * Z));
  rising_queries : list related_query;
  youtube_videos_out : list youtube_video;
  news_articles_out : list news_article
}.

(** A response: the JSON body and the HTTP status. *)
Inductive response : Type :=
| Json (body : payload)
| Error (message : string) (http_status : Z).

(** [GET /api/trends/runs/<run_id>/results].  The handler of the route
    answers 500 with the text of the exception. *)
Definition get_run_results (run_id : Z) (d : DB) : response :=
  match TrendHarvester.get_results run_id d with
  | Raise e => Error e 500
  | Ok None => Error "Run not found or no results available" 404
  | Ok (Some results) =>
      let run := res_run results in
      Json (mkPayload
              (id run, url run, status run, started_at run, finished_at run)
              (detected_category_name run, detected_category_id run,
               youtube_category_id run)
              (firstn 10 (res_keywords results))
              (_group_trends_by_keyword (res_trends_interest results))
              (firstn 10 (res_related_queries results))
              (firstn 15 (res_youtube_videos results))
              (firstn 25 (res_news_articles results)))
  end.

End TrendApi.

(* ================================================================== *)
(** * Predicates used in the statements *)
(* ================================================================== *)

(** Two rows of [runs] agree on the columns outside the allow-list of
    [update_run]. *)
Definition same_fixed (r r' : TrendHarvesterDB.run) : Prop :=
  TrendHarvesterDB.id r' = TrendHarvesterDB.id r /\
  TrendHarvesterDB.url r' = TrendHarvesterDB.url r /\
  TrendHarvesterDB.started_at r' = TrendHarvesterDB.started_at r.

(** The not-found response. *)
Definition not_found (r : TrendApi.response) : Prop :=
  match r with
  | TrendApi.Error _ 404 => True
  | _ => False
  end.

(** A run that has not finished. *)
Definition unfinished (r : TrendHarvesterDB.run) : Prop :=
  TrendHarvesterDB.status r = VStr "pending" \/
  TrendHarvesterDB.status r = VStr "running".

(** A lower-cased text matches none of the four keyword families of
    [resolve_trends_category]. *)
Definition matches_no_family (text_lower : string) : Prop :=
  Text.contains_any CategoryResolver.tech_words text_lower = false /\
  Text.contains_any CategoryResolver.business_words text_lower = false /\
  Text.contains_any CategoryResolver.health_words text_lower = false /\
  Text.contains_any CategoryResolver.food_words text_lower = false.

(** The best word-overlap score of a text is below 0.3. *)
Definition low_overlap (self : CategoryResolver.t) (text : string) : Prop :=
  flt (CategoryResolver.best_score
         (CategoryResolver.best_overlap self (Text.lower text))) 0.3%Q = true.

(** What the journal shows of a run: its status and its finish time. *)
Definition view (run_id : Z) (d : TrendHarvesterDB.DB) : option (value * value) :=
  option_map (fun r => (TrendHarvesterDB.status r, TrendHarvesterDB.finished_at r))
             (TrendHarvesterDB.select_run run_id d).

(** From [s] to [s'] the store was committed to, without a change to
    the status or the finish time of the run. *)
Definition quiet (run_id : Z) (s s' : Sys) : Prop :=
  exists new,
    journal s' = new ++ journal s /\
    Forall (fun d => view run_id d = view run_id (db s)) new /\
    view run_id (db s') = view run_id (db s).

(** The legal moves of the status of a run. *)
Definition forward (a b : value) : Prop :=
  (a = VStr "pending" /\ b = VStr "running") \/
  (a = VStr "running" /\ (b = VStr "completed" \/ b = VStr "failed")).

(** Between two successive states of the store the status stays or
    moves forward. *)
Definition status_step (a b : option (value * value)) : Prop :=
  match a, b with
  | Some (sa, _), Some (sb, _) => sa = sb \/ forward sa sb
  | _, _ => False
  end.

Definition terminal (st : value) : Prop :=
  st = VStr "completed" \/ st = VStr "failed".

(** The database with rows added to the two tables of the
    search-interest stage. *)
Definition add_trends (interest : list TrendHarvesterDB.trends_interest_row)
    (related : list TrendHarvesterDB.related_query) (d : TrendHarvesterDB.DB)
  : TrendHarvesterDB.DB :=
  TrendHarvesterDB.mkDB
    (TrendHarvesterDB.runs d) (TrendHarvesterDB.runs_seq d)
    (TrendHarvesterDB.page_keywords d)
    (TrendHarvesterDB.trends_interest d ++ interest)
    (TrendHarvesterDB.trends_related_queries d ++ related)
    (TrendHarvesterDB.youtube_videos d) (TrendHarvesterDB.news_articles d).

(** The rows a batch contributes on its own: its interest rows when
    the interest frame arrives, its related-query rows when both
    answers arrive, and nothing of what raised. *)
Definition batch_interest_rows (w : World) (run_id category_id : Z)
    (b : nat * list string) : list TrendHarvesterDB.trends_interest_row :=
  match interest_over_time (TrendHarvester.outcome_of w category_id b.1 b.2) with
  | Ok interest_data => TrendHarvester.interest_rows run_id b.2 interest_data
  | Raise _ => []
  end.

Definition batch_related_rows (w : World) (run_id category_id : Z)
    (b : nat * list string) : list TrendHarvesterDB.related_query :=
  match interest_over_time (TrendHarvester.outcome_of w category_id b.1 b.2),
        related_queries (TrendHarvester.outcome_of w category_id b.1 b.2) with
  | Ok _, Ok related => TrendHarvester.related_rows run_id related
  | _, _ => []
  end.

(** The keywords of step 2 of [run_analysis], the seed keywords and the
    category id of steps 3 and 4. *)
Definition keywords_of (w : World) (url : string) : list ExtractedKeyword :=
  match TrendHarvester.content_stage w url with
  | Ok content =>
      KeywordExtractor.extract_keywords (w_sklearn w) (w_tfidf w)
        (TrendHarvester.keyword_extractor w) content 25
  | Raise _ => []
  end.

Definition seed_keywords_of (w : World) (url : string) : list string :=
  map keyword (firstn 7 (keywords_of w url)).

Definition trends_id_of (w : World) (url : string) : Z :=
  snd (fst (CategoryResolver.resolve_trends_category
              (TrendHarvester.category_resolver w)
              (Text.join " " (map keyword (firstn 10 (keywords_of w url)))))).

(** The last update of a run whose [try] block ended without an
    exception: to [failed] with a note, or to [completed] with the
    finish time and a note. *)
Definition closing_update (w : World) (kwargs : list (string * value)) : Prop :=
  (exists n, kwargs = [("status", VStr "failed"); ("notes", n)]) \/
  (exists n, kwargs = [("status", VStr "completed");
                       ("finished_at", VTime (w_now w 2)); ("notes", n)]).

(** A run whose finish time is set exactly when its status is
    terminal. *)
Definition finish_iff_terminal (r : TrendHarvesterDB.run) : Prop :=
  TrendHarvesterDB.finished_at r <> VNone <-> terminal (TrendHarvesterDB.status r).

(** A state of the store in which the run exists, and has a finish time
    exactly when it is completed. *)
Definition finish_iff_completed (run_id : Z) (d : TrendHarvesterDB.DB) : Prop :=
  exists st fin,
    view run_id d = Some (st, fin) /\ (fin <> VNone <-> st = VStr "completed").

(* ================================================================== *)
(** * Sample worlds *)
(* ================================================================== *)

(** A world without NLTK, scikit-learn and a category service, with no
    API key; the page, the answers of pytrends and the faults of the
    store are given. *)
Definition sample_world
    (fetch : string -> result string) (page_text : string)
    (trends : nat -> list string -> Z -> batch_outcome)
    (fault : store_call -> option string) : World :=
  mkWorld fetch
    (fun _ => Ok (ContentExtractor.mkSoup (fun _ => None) page_text))
    (fun _ => Ok ("www.acmeroofing.example", "/services"))
    (fun s => s)
    None false (fun _ _ => Raise "scikit-learn is not installed")
    (Raise "name 'TrendReq' is not defined")
    true trends None None None
    (fun n => Z.of_nat n) (fun _ => "0.60") fault.

(** pytrends refuses the first batch and answers the later ones. *)
Definition first_batch_fails (i : nat) (batch : list string) (category_id : Z)
  : batch_outcome :=
  if (i =? 0)%nat then mkOutcome (Raise "429 Too Many Requests") (Raise "unused")
  else mkOutcome (Ok [("2024-05-01", map (fun k => (k, 42)) batch)])
                 (Ok [("storm", Some [("storm damage roof", 250)])]).

(** The site is unreachable: the content comes from the URL. *)
Definition offline_world : World :=
  sample_world (fun _ => Raise "ConnectionError") "" first_batch_fails (fun _ => None).

(** The same, with a store that raises when the keywords are saved. *)
Definition locked_world : World :=
  sample_world (fun _ => Raise "ConnectionError") "" first_batch_fails
    (fun c => match c with
              | SaveKeywords => Some "database is locked"
              | _ => None
              end).

(** The same, with a store that stays locked: it raises when the
    keywords are saved and again in the handler. *)
Definition store_down_world : World :=
  sample_world (fun _ => Raise "ConnectionError") "" first_batch_fails
    (fun c => match c with
              | SaveKeywords | MarkFailed => Some "database is locked"
              | _ => None
              end).

(** A page of stopwords: more than 50 characters and no keyword. *)
Definition stopword_world : World :=
  sample_world (fun _ => Ok "<html>...</html>")
    "the and the and the and the and the and the and the and the and"
    first_batch_fails (fun _ => None).

Definition fresh_store : Sys := mkSys TrendHarvesterDB.empty_db [].

(** A computation on the store that leaves the status and the finish
    time of a run alone, from whatever state it starts. *)
Definition preserves (run_id : Z) {A : Type} (m : M A) : Prop :=
  forall s, quiet run_id s (m s).2.

(* ================================================================== *)
(** * The other routes of [trend_api_endpoints.py] *)
(* ================================================================== *)

(** A JSON value as [request.get_json()] returns it ([None] is
    [JNull]); an object is the list of its entries, one per key. *)
#[local] Unset Elimination Schemes.
Inductive json : Type :=
| JNull
| JBool (b : bool)
| JInt (n : Z)
| JFloat (x : float)
| JStr (s : string)
| JList (items : list json)
| JDict (fields : list (string * json)).
#[local] Set Elimination Schemes.

(** [type(j).__name__] *)
Definition type_name (j : json) : string :=
  match j with
  | JNull => "NoneType"
  | JBool _ => "bool"
  | JInt _ => "int"
  | JFloat _ => "float"
  | JStr _ => "str"
  | JList _ => "list"
  | JDict _ => "dict"
  end.

(** [not j] *)
Definition falsy (j : json) : bool :=
  match j with
  | JNull => true
  | JBool b => negb b
  | JInt n => n =? 0
  | JFloat x => Qeq_bool x 0
  | JStr s => Text.is_empty s
  | JList items => match items with [] => true | _ => false end
  | JDict fields => match fields with [] => true | _ => false end
  end.

(** [j == 'url'] *)
Definition is_url_string (j : json) : bool :=
  match j with
  | JStr s => String.eqb s "url"
  | _ => false
  end.

(** The [TypeError] and [AttributeError] that the body of the analyze
    route raises on a value of the wrong type: [x in j] for a [j] that
    cannot be searched, [j['url']] for a [j] that takes no string
    index, [j.strip] for a [j] that has no such method.  The
    interpreter gives them their text. *)
Inductive py_error : Type :=
| NotIterable (type : string)
| BadIndex (type : string)
| NoAttribute (type : string) (attribute : string).

Module TrendApiRoutes.
Import Text TrendHarvesterDB.

(** The answer of a route: its JSON body and its HTTP status. *)
Inductive reply : Type :=
| Started (run_id : Z)
| StatusOf (status notes : value)
| Failure (message : string) (http_status : Z).

(** [url.startswith(('http://', 'https://'))] *)
Definition has_scheme (url : string) : bool :=
  startswith "http://" url || startswith "https://" url.

(** ['url' in data] followed by [data['url']], for a value [data] that
    is not falsy: the entry of an object, [None] when it has none; a
    list or a string may hold ['url'] but takes no string index; the
    other values cannot be searched.  [describe] is [str(e)]. *)
Definition url_entry (describe : py_error -> string) (data : json)
  : result (option json) :=
  match data with
  | JDict fields => Ok (CategoryResolver.lookup "url" fields)
  | JList items =>
      if existsb is_url_string items then Raise (describe (BadIndex "list"))
      else Ok None
  | JStr s =>
      if contains "url" s then Raise (describe (BadIndex "str")) else Ok None
  | j => Raise (describe (NotIterable (type_name j)))
  end.

(** [POST /api/trends/analyze].  [body] is the outcome of
    [request.get_json()]: the parsed value, or the exception it raises
    on a body that is missing or is no JSON; [in_time] says whether the
    worker thread returned within the two seconds the route waits for
    it.  The run goes on in its thread when the route stops waiting, so
    the store is the one the run leaves.  An exception that leaves
    [run_analysis] is raised again by [future.result] and answered like
    the timeout. *)
Definition analyze_url (w : World) (describe : py_error -> string)
    (body : result json) (in_time : bool) : M reply :=
  fun s =>
    match body with
    | Raise e => (Ok (Failure e 500), s)
    | Ok data =>
        if falsy data then (Ok (Failure "URL is required" 400), s)
        else
          match url_entry describe data with
          | Raise e => (Ok (Failure e 500), s)
          | Ok None => (Ok (Failure "URL is required" 400), s)
          | Ok (Some (JStr raw)) =>
              let url := strip raw in
              if is_empty url then (Ok (Failure "Valid URL is required" 400), s)
              else
                let url := if has_scheme url then url else "https://" +:+ url in
                match TrendHarvester.run_analysis w url s with
                | (Ok run_id, s') =>
                    if in_time then (Ok (Started run_id), s')
                    else (Ok (Failure "Failed to start analysis" 500), s')
                | (Raise _, s') => (Ok (Failure "Failed to start analysis" 500), s')
                end
          | Ok (Some j) =>
              (Ok (Failure (describe (NoAttribute (type_name j) "strip")) 500), s)
          end
    end.

(** [v == s] for a string [s] *)
Definition is_str (s : string) (v : value) : bool :=
  match v with
  | VStr t => String.eqb t s
  | _ => false
  end.

(** [GET /api/trends/runs/<run_id>/status].  The handler of the route
    answers 500 with the text of the exception. *)
Definition get_run_status (run_id : Z) (d : DB) : reply :=
  match TrendHarvester.get_run_status run_id d with
  | Raise e => Failure e 500
  | Ok (status, notes) =>
      if is_str "not_found" status then Failure "Run not found" 404
      else StatusOf status notes
  end.

(** [GET /api/trends/categories]: name, Trends id, YouTube id. *)
Definition get_categories : list (string * Z * string) :=
  map (fun '(name, (trends_id, youtube_id)) => (name, trends_id, youtube_id))
      CategoryResolver.CATEGORY_MAPPINGS.

(** [GET /api/trends/health]: the state of the two optional sources. *)
Definition health_check (w : World) : string * string :=
  (if is_set (w_youtube_api_key w) then "available" else "not_configured",
   if is_set (w_serpapi_key w) || is_set (w_gnews_api_key w)
   then "available" else "not_configured").

End TrendApiRoutes.

(* ================================================================== *)
(** * Order of occurrence *)
(* ================================================================== *)

(** In the list [l], an occurrence of [a] comes before an occurrence of
    [b]. *)
Fixpoint before_in {A : Type} (l : list A) (a b : A) : Prop :=
  match l with
  | [] => False
  | x :: l' => (x = a /\ In b l') \/ before_in l' a b
  end.

(** Reading the words from the start, [a] is met before [b] is. *)
Fixpoint met_before (words : list string) (a b : string) : Prop :=
  match words with
  | [] => False
  | x :: words' => x = a \/ (x <> b /\ met_before words' a b)
  end.

(** The store after the run of [offline_world]. *)
Definition offline_store : TrendHarvesterDB.DB :=
  db (TrendHarvester.run_analysis offline_world
        "https://www.acmeroofing.example/services" fresh_store).2.

(* ================================================================== *)
(** * Predicates on the store *)
(* ================================================================== *)


(** A row as a computation on the run [run_id] may leave it: its key,
    URL and start time are kept, and the row of another run is kept
    whole. *)
Definition row_kept (run_id : Z) (r r' : TrendHarvesterDB.run) : Prop :=
  same_fixed r r' /\ (TrendHarvesterDB.id r <> run_id -> r' = r).

(** From [d] to [d'] the rows of [runs] are kept in this sense, the
    tables of keywords, interest points and related queries have only
    been added to, with rows of the run [run_id], and the tables of
    videos and articles are the same. *)
Definition evolves (run_id : Z) (d d' : TrendHarvesterDB.DB) : Prop :=
  Forall2 (row_kept run_id) (TrendHarvesterDB.runs d) (TrendHarvesterDB.runs d') /\
  TrendHarvesterDB.runs_seq d' = TrendHarvesterDB.runs_seq d /\
  (exists rows, TrendHarvesterDB.page_keywords d'
                = TrendHarvesterDB.page_keywords d ++ rows /\
                Forall (fun k => TrendHarvesterDB.pk_run_id k = run_id) rows) /\
  (exists rows, TrendHarvesterDB.trends_interest d'
                = TrendHarvesterDB.trends_interest d ++ rows /\
                Forall (fun t => TrendHarvesterDB.ti_run_id t = run_id) rows) /\
  (exists rows, TrendHarvesterDB.trends_related_queries d'
                = TrendHarvesterDB.trends_related_queries d ++ rows /\
                Forall (fun q => TrendHarvesterDB.rq_run_id q = run_id) rows) /\
  TrendHarvesterDB.youtube_videos d' = TrendHarvesterDB.youtube_videos d /\
  TrendHarvesterDB.news_articles d' = TrendHarvesterDB.news_articles d.

(** A computation on the store whose final database is related by [R]
    to the one it starts from. *)
Definition steps (R : TrendHarvesterDB.DB -> TrendHarvesterDB.DB -> Prop)
    {A : Type} (m : M A) : Prop :=
  forall s, R (db s) (db (m s).2).

(* ================================================================== *)
(** * Predicates on texts *)
(* ================================================================== *)

(** Every space character of [s] is the blank, and no two of them are
    adjacent; [after_space] says that a space character comes just
    before [s]. *)
Fixpoint single_spaced (after_space : bool) (s : string) : bool :=
  match s with
  | EmptyString => true
  | String c s' =>
      if Text.isspace c
      then Ascii.eqb c " " && negb after_space && single_spaced true s'
      else single_spaced false s'
  end.

(* ================================================================== *)
(** * The score of a category *)
(* ================================================================== *)

(** The score that the loop of [resolve_trends_category] computes for a
    category name: the number of words that the text and the name
    share, divided by the larger of the two numbers of words; 0 stands
    for a name that shares no word, which the loop passes over. *)
Definition overlap_score (text_lower category_name : string) : float :=
  let text_words := CategoryResolver.words_set text_lower in
  let category_words := CategoryResolver.words_set (Text.lower category_name) in
  let overlap := size (text_words ∩ category_words) in
  if (0 <? overlap)%nat
  then fdiv overlap (Nat.max (size text_words) (size category_words))
  else 0%Q.

(** What the loop variables of [resolve_trends_category] hold once the
    loop has been through the categories [seen]. *)
Definition best_of (text_lower : string) (seen : list (string * Z))
    (b : CategoryResolver.best) : Prop :=
  (0 <= CategoryResolver.best_score b)%Q /\
  (forall c, In c seen -> (overlap_score text_lower c.1 <= CategoryResolver.best_score b)%Q) /\
  ((CategoryResolver.best_match b = None /\ (CategoryResolver.best_score b == 0)%Q) \/
   exists name, CategoryResolver.best_match b = Some name /\
                In (name, CategoryResolver.best_id b) seen /\
                CategoryResolver.best_score b = overlap_score text_lower name /\
                (0 < CategoryResolver.best_score b)%Q).

(* ================================================================== *)
(** * Values that SQLite stores as they are given *)
(* ================================================================== *)



(* ================================================================== *)
(** * The finish time along the life of a run *)
(* ================================================================== *)

(** A state of the store in which the run exists, has no finish time
    while it is [running] and has the finish time [finish] once it is
    [completed]. *)
Definition finish_follows_status (finish : value) (run_id : Z)
    (d : TrendHarvesterDB.DB) : Prop :=
  exists st fin,
    view run_id d = Some (st, fin) /\
    (st = VStr "running" -> fin = VNone) /\
    (st = VStr "completed" -> fin = finish).

(* ================================================================== *)
(** * The terms of a text *)
(* ================================================================== *)

(** The words of the claim on the frequency fallback, written out on
    their own, apart from the code of [_extract_with_frequency]: a
    token is a word of at least three characters, all of them letters
    or digits, that begins with a letter; the terms of a text are the
    tokens among the words of its lower-cased form (the maximal runs of
    letters, digits and underscores) that the stopword set does not
    hold, in the order of the text; the frequency of a term is the
    number of its occurrences among them. *)
Module Terms.

Definition is_token (t : string) : bool :=
  (3 <=? Text.len t)%nat &&
  Text.forallb_chars Text.is_alnum t &&
  match t with
  | String c _ => Text.is_alpha c
  | EmptyString => false
  end.

Definition terms (stopwords : gset string) (text : string) : list string :=
  List.filter (fun t => is_token t && negb (bool_decide (t ∈ stopwords)))
              (Text.runs Text.is_word (Text.lower text)).

Definition frequency (stopwords : gset string) (text : string) (t : string) : nat :=
  count_occ string_dec (terms stopwords text) t.

End Terms.

(* ================================================================== *)
(** * A run added to the store *)
(* ================================================================== *)

(** From [d] to [d'] the run [row] was added and nothing else was
    changed: the key of [row] was the key of no run, the table of runs
    is the one of [d] followed by [row], which has the URL and the
    start time given, the key counter is the key of [row]; the tables
    of keywords, interest points and related queries are those of [d]
    followed by rows of this run; the tables of videos and articles are
    those of [d]. *)
Definition run_added (url : string) (started : Z) (row : TrendHarvesterDB.run)
    (d d' : TrendHarvesterDB.DB) : Prop :=
  TrendHarvesterDB.select_run (TrendHarvesterDB.id row) d = None /\
  TrendHarvesterDB.runs d' = TrendHarvesterDB.runs d ++ [row] /\
  TrendHarvesterDB.url row = VStr url /\
  TrendHarvesterDB.started_at row = VTime started /\
  TrendHarvesterDB.runs_seq d' = TrendHarvesterDB.id row /\
  (exists rows, TrendHarvesterDB.page_keywords d'
                = TrendHarvesterDB.page_keywords d ++ rows /\
                Forall (fun k => TrendHarvesterDB.pk_run_id k = TrendHarvesterDB.id row)
                       rows) /\
  (exists rows, TrendHarvesterDB.trends_interest d'
                = TrendHarvesterDB.trends_interest d ++ rows /\
                Forall (fun t => TrendHarvesterDB.ti_run_id t = TrendHarvesterDB.id row)
                       rows) /\
  (exists rows, TrendHarvesterDB.trends_related_queries d'
                = TrendHarvesterDB.trends_related_queries d ++ rows /\
                Forall (fun q => TrendHarvesterDB.rq_run_id q = TrendHarvesterDB.id row)
                       rows) /\
  TrendHarvesterDB.youtube_videos d' = TrendHarvesterDB.youtube_videos d /\
  TrendHarvesterDB.news_articles d' = TrendHarvesterDB.news_articles d.

(* ================================================================== *)
(** * Properties of the text primitives *)
(* ================================================================== *)

Section TextFacts.
Import Text.

Lemma len_lstrip_le (s : string) : (len (lstrip s) <= len s)%nat.
Proof.
  induction s as [|c s IH]; simpl; [lia|].
  destruct (isspace c); simpl; unfold len in *; lia.
Qed.

Lemma len_rstrip_le (s : string) : (len (rstrip s) <= len s)%nat.
Proof.
  unfold len. induction s as [|c s IH]; simpl; [lia|].
  destruct (rstrip s) as [|c' t] eqn:E.
  - destruct (isspace c); simpl; lia.
  - simpl in *. lia.
Qed.

Lemma len_strip_le (s : string) : (len (strip s) <= len s)%nat.
Proof.
  unfold strip. etransitivity; [apply len_rstrip_le | apply len_lstrip_le].
Qed.

Lemma len_take_le (n : nat) (s : string) : (len (take n s) <= n)%nat.
Proof.
  unfold len. revert s. induction n as [|n IH]; intros [|c s]; simpl; try lia.
  specialize (IH s). lia.
Qed.

Lemma is_empty_true (s : string) : is_empty s = true <-> s = "".
Proof. destruct s; simpl; split; congruence. Qed.

Lemma append_not_empty (s t : string) : t <> "" -> s +:+ t <> "".
Proof.
  intros Ht. destruct s as [|c s]; simpl; [exact Ht | discriminate].
Qed.

Lemma startswith_lower (p s : string) :
  startswith p s = true -> startswith (lower p) (lower s) = true.
Proof.
  revert s. induction p as [|a p IH]; intros [|b s]; simpl; try congruence.
  destruct (ascii_dec a b) as [->|]; [|discriminate].
  intros H. destruct (ascii_dec (lower_char b) (lower_char b)); [|congruence].
  apply IH, H.
Qed.

Lemma contains_lower (sub s : string) :
  contains sub s = true -> contains (lower sub) (lower s) = true.
Proof.
  induction s as [|c s IH]; simpl.
  - rewrite !orb_false_r. apply (startswith_lower sub "").
  - intros H. apply orb_true_iff in H as [H|H]; apply orb_true_iff.
    + left. apply (startswith_lower sub (String c s)), H.
    + right. apply IH, H.
Qed.

End TextFacts.

(* ================================================================== *)
(** * KeywordExtractor: short texts *)
(* ================================================================== *)

(** C5.  A text of fewer than 50 characters has no keywords, whatever
    the number of terms asked for, the stopword set and the scoring
    algorithm in use. *)
Theorem extract_keywords_short_text
    (sklearn : bool)
    (tfidf : string -> gset string -> result (list (string * float)))
    (self : KeywordExtractor.t) (text : string) (max_features : Z) :
  (Text.len text < 50)%nat ->
  KeywordExtractor.extract_keywords sklearn tfidf self text max_features = [].
Proof.
  intros Hshort. unfold KeywordExtractor.extract_keywords.
  pose proof (len_strip_le text) as Hle.
  assert (Hlt : (Text.len (Text.strip text) <? 50)%nat = true)
    by (apply Nat.ltb_lt; lia).
  rewrite Hlt, orb_true_r. reflexivity.
Qed.

Lemma extract_keywords_short_text_witness :
  KeywordExtractor.extract_keywords true
    (fun _ _ => Ok [("roofing", 1%Q)]) (KeywordExtractor.init None)
    "roofing roofing roofing roofing roofing" 25 = [].
Proof.
  apply extract_keywords_short_text. vm_compute. lia.
Defined.

(* ================================================================== *)
(** * ContentExtractor *)
(* ================================================================== *)

Lemma Ok_inj {A : Type} (x y : A) : Ok x = Ok y -> x = y.
Proof. intros H. congruence. Qed.

(** The [try] block fails exactly when the fetch or the parser does. *)
Lemma extract_content_body_raises fetch parse url e :
  ContentExtractor.extract_content_body fetch parse url = Raise e <->
  fetch url = Raise e \/
  exists response_text, fetch url = Ok response_text /\ parse response_text = Raise e.
Proof.
  unfold ContentExtractor.extract_content_body.
  destruct (fetch url) as [t|e1] eqn:Hf.
  - destruct (parse t) as [soup|e2] eqn:Hp; split.
    + discriminate.
    + intros [H|(t' & Ht' & H)]; [discriminate|]. congruence.
    + intros H. right. exists t. split; congruence.
    + intros [H|(t' & Ht' & H)]; [discriminate|]. congruence.
  - split; [intros H; left; exact H|].
    intros [H|(t' & Ht' & _)]; [exact H | discriminate].
Qed.

Lemma extract_content_ok fetch parse url :
  exists text, ContentExtractor.extract_content fetch parse url = Ok text.
Proof.
  unfold ContentExtractor.extract_content, try_except.
  destruct (ContentExtractor.extract_content_body fetch parse url) as [t|e];
    eexists; reflexivity.
Qed.

(** C7.  [extract_content] returns a text for every URL and raises
    nothing: the empty string when the fetch or the parser raises, and
    otherwise the text of the [try] block, of at most 10,000
    characters. *)
Theorem extract_content_never_raises
    (fetch : string -> result string)
    (parse : string -> result ContentExtractor.Soup) (url : string) :
  exists text,
    ContentExtractor.extract_content fetch parse url = Ok text /\
    (Z.of_nat (Text.len text) <= 10000) /\
    (forall e, fetch url = Raise e -> text = "") /\
    (forall response_text e,
       fetch url = Ok response_text -> parse response_text = Raise e -> text = "") /\
    (forall t, ContentExtractor.extract_content_body fetch parse url = Ok t ->
               text = t).
Proof.
  unfold ContentExtractor.extract_content, try_except.
  destruct (ContentExtractor.extract_content_body fetch parse url) as [t|e] eqn:Hb.
  - exists t. split; [reflexivity|]. split.
    { unfold ContentExtractor.extract_content_body in Hb.
      destruct (fetch url); [|discriminate].
      destruct (parse a); [|discriminate].
      apply Ok_inj in Hb. rewrite <- Hb.
      match goal with |- context [Text.take ?n ?s] =>
        pose proof (len_take_le n s) as Hle end.
      lia. }
    split; [|split].
    + intros e He.
      assert (Hr : ContentExtractor.extract_content_body fetch parse url = Raise e)
        by (apply extract_content_body_raises; left; exact He).
      congruence.
    + intros rt e Hf Hp.
      assert (Hr : ContentExtractor.extract_content_body fetch parse url = Raise e)
        by (apply extract_content_body_raises; right; exists rt; split; assumption).
      congruence.
    + intros t' Ht'. congruence.
  - exists "". split; [reflexivity|]. split; [simpl; lia|].
    split; [reflexivity|]. split; [reflexivity | discriminate].
Qed.

Lemma extract_content_never_raises_witness :
  ContentExtractor.extract_content (fun _ => Raise "timeout")
    (fun _ => Raise "unused") "https://example.com" = Ok "".
Proof.
  destruct (extract_content_never_raises (fun _ => Raise "timeout")
              (fun _ => Raise "unused") "https://example.com")
    as (text & Heq & _ & Hfail & _).
  rewrite Heq. f_equal. apply (Hfail "timeout"). reflexivity.
Defined.

(** The text of the first element found, its whitespace collapsed. *)
Example extract_content_page :
  ContentExtractor.extract_content (fun _ => Ok "<html>")
    (fun _ => Ok (ContentExtractor.mkSoup
                    (fun sel => if String.eqb sel "article"
                                then Some "  Roof   repair
 and gutters " else None)
                    "menu Roof repair and gutters footer"))
    "https://example.com" = Ok "Roof repair and gutters".
Proof. vm_compute. reflexivity. Qed.

(* ================================================================== *)
(** * The fallback content synthesizer *)
(* ================================================================== *)

Lemma analyze_url_body_not_empty (w : World) (url content : string) :
  TrendHarvester.analyze_url_body w url = Ok content -> content <> "".
Proof.
  unfold TrendHarvester.analyze_url_body.
  destruct (w_urlparse w (Text.lower url)) as [[netloc path]|e]; [|discriminate].
  intros H. apply Ok_inj in H. rewrite <- H.
  apply append_not_empty. discriminate.
Qed.

Lemma analyze_url_not_empty (w : World) (url : string) :
  exists content,
    TrendHarvester._analyze_url_for_business_intelligence w url = Ok content /\
    content <> "".
Proof.
  unfold TrendHarvester._analyze_url_for_business_intelligence, try_except.
  destruct (TrendHarvester.analyze_url_body w url) as [content|e] eqn:Hb.
  - exists content. split; [reflexivity|]. eapply analyze_url_body_not_empty, Hb.
  - exists TrendHarvester.generic_paragraph. split; [reflexivity | discriminate].
Qed.

(** The content that [run_analysis] tests is never empty. *)
Lemma content_stage_ok (w : World) (url : string) :
  exists content,
    TrendHarvester.content_stage w url = Ok content /\
    Text.is_empty content = false.
Proof.
  unfold TrendHarvester.content_stage.
  destruct (extract_content_ok (w_fetch w) (w_parse w) url) as [text ->].
  destruct (Text.is_empty text || (Text.len (Text.strip text) <? 50)%nat) eqn:Hc.
  - destruct (analyze_url_not_empty w url) as (content & -> & Hne).
    exists content. split; [reflexivity|].
    destruct (Text.is_empty content) eqn:He; [|reflexivity].
    apply is_empty_true in He. contradiction.
  - exists text. split; [reflexivity|].
    apply orb_false_iff in Hc. tauto.
Qed.

(** C10.  The fallback synthesizer returns a non-empty string for every
    URL, the generic paragraph when its [try] block raises; hence the
    content that [run_analysis] tests with [if not content] is never
    empty, and the branch that marks the run as failed for want of
    content is not taken. *)
Theorem fallback_content_never_empty (w : World) (url : string) :
  (exists content,
     TrendHarvester._analyze_url_for_business_intelligence w url = Ok content /\
     content <> "" /\
     (forall e, TrendHarvester.analyze_url_body w url = Raise e ->
                content = TrendHarvester.generic_paragraph)) /\
  (exists content,
     TrendHarvester.content_stage w url = Ok content /\
     Text.is_empty content = false).
Proof.
  split; [|apply content_stage_ok].
  destruct (analyze_url_not_empty w url) as (content & Heq & Hne).
  exists content. repeat split; try assumption.
  intros e He.
  unfold TrendHarvester._analyze_url_for_business_intelligence in Heq.
  rewrite He in Heq. simpl in Heq. congruence.
Qed.

Lemma fallback_content_never_empty_witness :
  TrendHarvester._analyze_url_for_business_intelligence
    (mkWorld (fun _ => Raise "timeout") (fun _ => Raise "unused")
       (fun _ => Raise "Invalid IPv6 URL") (fun s => s) None false
       (fun _ _ => Raise "unused") (Raise "unused") false
       (fun _ _ _ => mkOutcome (Raise "unused") (Raise "unused"))
       None None None (fun _ => 0) (fun _ => "0.00") (fun _ => None))
    "http://[broken" = Ok TrendHarvester.generic_paragraph.
Proof.
  match goal with |- ?f ?w ?u = _ =>
    destruct (fallback_content_never_empty w u) as [(content & Heq & _ & Hgen) _];
    rewrite Heq; f_equal; apply (Hgen "Invalid IPv6 URL") end.
  reflexivity.
Defined.

(* ================================================================== *)
(** * TrendHarvesterDB: [update_run] *)
(* ================================================================== *)

Section UpdateRun.
Import TrendHarvesterDB.

Lemma same_fixed_refl r : same_fixed r r.
Proof. repeat split. Qed.

Lemma same_fixed_trans r1 r2 r3 :
  same_fixed r1 r2 -> same_fixed r2 r3 -> same_fixed r1 r3.
Proof. unfold same_fixed. intuition congruence. Qed.

Lemma set_column_mutable (column : string) (v : value) (r : run) :
  is_mutable column = true -> same_fixed r (set_column column v r).
Proof.
  unfold is_mutable, mutable_fields. simpl. rewrite orb_false_r.
  intros H.
  repeat (apply orb_true_iff in H as [H|H];
          [apply String.eqb_eq in H; subst column; repeat split|]).
  apply String.eqb_eq in H; subst column; repeat split.
Qed.

Lemma assignments_same_fixed (fields : list (string * value)) (r : run) :
  Forall (fun kv => is_mutable (fst kv) = true) fields ->
  same_fixed r (fold_left (fun r '(column, v) => set_column column v r) fields r).
Proof.
  revert r. induction fields as [|[column v] fields IH]; intros r Hall; simpl.
  - apply same_fixed_refl.
  - inversion Hall as [|? ? Hc Hrest]; subst.
    eapply same_fixed_trans; [apply set_column_mutable, Hc | apply IH, Hrest].
Qed.

Lemma filter_mutable_all (kwargs : list (string * value)) :
  Forall (fun kv => is_mutable (fst kv) = true)
         (List.filter (fun '(field, _) => is_mutable field) kwargs).
Proof.
  induction kwargs as [|[field v] kwargs IH]; simpl; [constructor|].
  destruct (is_mutable field) eqn:E; [constructor; assumption | assumption].
Qed.

Lemma filter_mutable_idem (kwargs : list (string * value)) :
  List.filter (fun '(field, _) => is_mutable field)
    (List.filter (fun '(field, _) => is_mutable field) kwargs)
  = List.filter (fun '(field, _) => is_mutable field) kwargs.
Proof.
  induction kwargs as [|[field v] kwargs IH]; simpl; [reflexivity|].
  destruct (is_mutable field) eqn:E; simpl; [rewrite E, IH|]; auto.
Qed.

Lemma sql_update_same_fixed (fields : list (string * value)) (run_id : Z) (d : DB) :
  Forall (fun kv => is_mutable (fst kv) = true) fields ->
  Forall2 same_fixed (runs d) (runs (sql_update_runs fields run_id d)).
Proof.
  intros Hall. unfold sql_update_runs, with_runs. simpl.
  induction (runs d) as [|r rs IH]; simpl; constructor; [|exact IH].
  destruct (id r =? run_id); [apply assignments_same_fixed, Hall | apply same_fixed_refl].
Qed.

Lemma Forall2_same_fixed_refl (rs : list run) : Forall2 same_fixed rs rs.
Proof. induction rs; constructor; [apply same_fixed_refl | assumption]. Qed.

(** What [update_run] does in terms of the filtered arguments. *)
Lemma update_run_unfold (run_id : Z) (kwargs : list (string * value)) (d : DB) :
  update_run run_id kwargs d =
  match List.filter (fun '(field, _) => is_mutable field) kwargs with
  | [] => d
  | fields => sql_update_runs fields run_id d
  end.
Proof.
  destruct kwargs as [|kv kwargs]; [reflexivity|].
  unfold update_run.
  destruct (List.filter (fun '(field, _) => is_mutable field) (kv :: kwargs));
    reflexivity.
Qed.

End UpdateRun.

(** The frame of [update_run]. *)
Lemma update_run_frame
    (run_id : Z) (kwargs : list (string * value)) (d : TrendHarvesterDB.DB) :
  let d' := TrendHarvesterDB.update_run run_id kwargs d in
  Forall2 same_fixed (TrendHarvesterDB.runs d) (TrendHarvesterDB.runs d') /\
  TrendHarvesterDB.runs_seq d' = TrendHarvesterDB.runs_seq d /\
  TrendHarvesterDB.page_keywords d' = TrendHarvesterDB.page_keywords d /\
  TrendHarvesterDB.trends_interest d' = TrendHarvesterDB.trends_interest d /\
  TrendHarvesterDB.trends_related_queries d' = TrendHarvesterDB.trends_related_queries d /\
  TrendHarvesterDB.youtube_videos d' = TrendHarvesterDB.youtube_videos d /\
  TrendHarvesterDB.news_articles d' = TrendHarvesterDB.news_articles d.
Proof.
  cbv zeta. rewrite update_run_unfold.
  pose proof (filter_mutable_all kwargs) as Hall.
  destruct (List.filter (fun '(field, _) => TrendHarvesterDB.is_mutable field) kwargs)
    as [|kv fields] eqn:E.
  - repeat split. apply Forall2_same_fixed_refl.
  - repeat split. apply sql_update_same_fixed, Hall.
Qed.

Lemma update_run_ignores_others
    (run_id : Z) (kwargs : list (string * value)) (d : TrendHarvesterDB.DB) :
  TrendHarvesterDB.update_run run_id kwargs d =
  TrendHarvesterDB.update_run run_id
    (List.filter (fun kv => TrendHarvesterDB.is_mutable (fst kv)) kwargs) d.
Proof.
  assert (Hf : List.filter (fun kv : string * value => TrendHarvesterDB.is_mutable (fst kv)) kwargs
               = List.filter (fun '(field, _) => TrendHarvesterDB.is_mutable field) kwargs).
  { apply filter_ext. intros [? ?]. reflexivity. }
  rewrite Hf, !update_run_unfold, filter_mutable_idem. reflexivity.
Qed.

Lemma update_run_trends_interest
    (run_id : Z) (kwargs : list (string * value)) (d : TrendHarvesterDB.DB) :
  TrendHarvesterDB.trends_interest (TrendHarvesterDB.update_run run_id kwargs d)
  = TrendHarvesterDB.trends_interest d.
Proof. apply (update_run_frame run_id kwargs d). Qed.

Lemma update_run_related_queries
    (run_id : Z) (kwargs : list (string * value)) (d : TrendHarvesterDB.DB) :
  TrendHarvesterDB.trends_related_queries (TrendHarvesterDB.update_run run_id kwargs d)
  = TrendHarvesterDB.trends_related_queries d.
Proof. apply (update_run_frame run_id kwargs d). Qed.

(** C9.  Whatever keyword arguments [update_run] is given, the rows of
    [runs] keep their [id], [url] and [started_at] (the columns outside
    the allow-list), no other table changes, and the call does what it
    does when the arguments outside the allow-list are left out. *)
Theorem update_run_allow_list
    (run_id : Z) (kwargs : list (string * value)) (d : TrendHarvesterDB.DB) :
  let d' := TrendHarvesterDB.update_run run_id kwargs d in
  Forall2 same_fixed (TrendHarvesterDB.runs d) (TrendHarvesterDB.runs d') /\
  TrendHarvesterDB.runs_seq d' = TrendHarvesterDB.runs_seq d /\
  TrendHarvesterDB.page_keywords d' = TrendHarvesterDB.page_keywords d /\
  TrendHarvesterDB.trends_interest d' = TrendHarvesterDB.trends_interest d /\
  TrendHarvesterDB.trends_related_queries d' = TrendHarvesterDB.trends_related_queries d /\
  TrendHarvesterDB.youtube_videos d' = TrendHarvesterDB.youtube_videos d /\
  TrendHarvesterDB.news_articles d' = TrendHarvesterDB.news_articles d /\
  d' = TrendHarvesterDB.update_run run_id
         (List.filter (fun kv => TrendHarvesterDB.is_mutable (fst kv)) kwargs) d.
Proof.
  cbv zeta.
  pose proof (update_run_frame run_id kwargs d) as H. cbv zeta in H.
  repeat split; try apply H. apply update_run_ignores_others.
Qed.

(** An update that names [id], [url] and [started_at] next to [status]:
    only the status changes. *)
Example update_run_ignores_fixed_columns :
  let d := snd (TrendHarvesterDB.create_run "https://example.com" 7 TrendHarvesterDB.empty_db) in
  TrendHarvesterDB.runs
    (TrendHarvesterDB.update_run 1
       [("id", VInt 99); ("url", VStr "x"); ("status", VStr "failed");
        ("started_at", VNone); ("colour", VStr "red")] d)
  = [TrendHarvesterDB.mkRun 1 (VStr "https://example.com") VNone VNone VNone
       (VTime 7) VNone (VStr "failed") VNone].
Proof. reflexivity. Qed.

(** The same assignments sent to the table without the allow-list do
    change the fixed columns. *)
Example sql_update_changes_fixed_columns :
  let d := snd (TrendHarvesterDB.create_run "https://example.com" 7 TrendHarvesterDB.empty_db) in
  TrendHarvesterDB.runs
    (TrendHarvesterDB.sql_update_runs
       [("id", VInt 99); ("url", VStr "x"); ("started_at", VNone)] 1 d)
  = [TrendHarvesterDB.mkRun 99 (VStr "x") VNone VNone VNone
       VNone VNone (VStr "running") VNone].
Proof. reflexivity. Qed.

(* ================================================================== *)
(** * The results endpoint *)
(* ================================================================== *)

(** The ids that [sqlite3] binds. *)
Lemma sqlite_int_ok (n : Z) :
  - 2 ^ 63 <= n < 2 ^ 63 -> TrendHarvesterDB.sqlite_int n = Ok n.
Proof.
  intros [Hlo Hhi]. unfold TrendHarvesterDB.sqlite_int.
  apply Z.leb_le in Hlo. apply Z.ltb_lt in Hhi. rewrite Hlo, Hhi. reflexivity.
Qed.

Lemma sqlite_int_overflow (n : Z) :
  ~ (- 2 ^ 63 <= n < 2 ^ 63) ->
  TrendHarvesterDB.sqlite_int n
  = Raise "Python int too large to convert to SQLite INTEGER".
Proof.
  intros Hout. unfold TrendHarvesterDB.sqlite_int.
  destruct (- 2 ^ 63 <=? n) eqn:Elo; [|reflexivity].
  destruct (n <? 2 ^ 63) eqn:Ehi; [|reflexivity].
  apply Z.leb_le in Elo. apply Z.ltb_lt in Ehi. exfalso. apply Hout. split; assumption.
Qed.

(** What [get_run_results] returns, when it returns. *)
Lemma get_run_results_ok (run_id : Z) (d : TrendHarvesterDB.DB)
    (r : option TrendHarvesterDB.results) :
  TrendHarvesterDB.get_run_results run_id d = Ok r ->
  r = TrendHarvesterDB.run_results_of run_id d.
Proof.
  unfold TrendHarvesterDB.get_run_results, TrendHarvesterDB.sqlite_int.
  destruct ((- 2 ^ 63 <=? run_id) && (run_id <? 2 ^ 63)); [|discriminate].
  intros [= <-]. reflexivity.
Qed.

(** C3, as amended.  For an id of 64 bits the results endpoint answers
    not-found exactly when no run has the id; a run that exists gets a
    payload that shows its current status, finished or not.  An id
    beyond 64 bits is not looked up: the binding raises, and the
    endpoint answers 500. *)
Theorem results_not_found_iff_absent (run_id : Z) (d : TrendHarvesterDB.DB) :
  (- 2 ^ 63 <= run_id < 2 ^ 63 ->
   (not_found (TrendApi.get_run_results run_id d) <->
    TrendHarvesterDB.select_run run_id d = None) /\
   (forall r, TrendHarvesterDB.select_run run_id d = Some r ->
      exists body, TrendApi.get_run_results run_id d = TrendApi.Json body /\
                   snd (fst (fst (TrendApi.run_info body))) = TrendHarvesterDB.status r)) /\
  (~ (- 2 ^ 63 <= run_id < 2 ^ 63) ->
   TrendApi.get_run_results run_id d
   = TrendApi.Error "Python int too large to convert to SQLite INTEGER" 500).
Proof.
  unfold TrendApi.get_run_results, TrendHarvester.get_results,
    TrendHarvesterDB.get_run_results.
  split.
  - intros Hrange. rewrite (sqlite_int_ok run_id Hrange).
    unfold TrendHarvesterDB.run_results_of.
    destruct (TrendHarvesterDB.select_run run_id d) as [r|]; simpl.
    + split; [split; [contradiction | discriminate]|].
      intros r' Hr'. injection Hr' as <-. eexists. split; reflexivity.
    + split; [tauto | discriminate].
  - intros Hout. rewrite (sqlite_int_overflow run_id Hout). reflexivity.
Qed.

Lemma results_not_found_iff_absent_witness :
  exists body,
    TrendApi.get_run_results 1
      (snd (TrendHarvesterDB.create_run "https://example.com" 7
              TrendHarvesterDB.empty_db)) = TrendApi.Json body /\
    snd (fst (fst (TrendApi.run_info body))) = VStr "running".
Proof.
  assert (Hrange : - 2 ^ 63 <= 1 < 2 ^ 63) by lia.
  apply (proj2 (proj1 (results_not_found_iff_absent 1
                         (snd (TrendHarvesterDB.create_run "https://example.com" 7
                                 TrendHarvesterDB.empty_db))) Hrange)
               (TrendHarvesterDB.mkRun 1 (VStr "https://example.com") VNone VNone VNone
                  (VTime 7) VNone (VStr "running") VNone)).
  reflexivity.
Defined.

Example results_of_huge_run_id :
  TrendApi.get_run_results (2 ^ 63) TrendHarvesterDB.empty_db
  = TrendApi.Error "Python int too large to convert to SQLite INTEGER" 500.
Proof. reflexivity. Qed.

Example results_of_unknown_run :
  TrendApi.get_run_results 7 TrendHarvesterDB.empty_db
  = TrendApi.Error "Run not found or no results available" 404.
Proof. reflexivity. Qed.

(** C3, as stated, fails on both of its cases: a run that was just
    created is running, and the endpoint answers with a payload; and
    for an id beyond 64 bits, which no run has, the endpoint answers
    500 and not not-found. *)
Lemma unfinished_run_gets_payload :
  ~ (forall (run_id : Z) (d : TrendHarvesterDB.DB),
       (exists r, TrendHarvesterDB.select_run run_id d = Some r /\ unfinished r) ->
       not_found (TrendApi.get_run_results run_id d)) /\
  ~ (forall (run_id : Z) (d : TrendHarvesterDB.DB),
       TrendHarvesterDB.select_run run_id d = None ->
       not_found (TrendApi.get_run_results run_id d)).
Proof.
  split.
  - intros H.
    specialize (H 1 (snd (TrendHarvesterDB.create_run "https://example.com" 7
                            TrendHarvesterDB.empty_db))).
    apply H. eexists. split; [reflexivity|]. right. reflexivity.
  - intros H. exact (H (2 ^ 63) TrendHarvesterDB.empty_db eq_refl).
Qed.

(* ================================================================== *)
(** * CategoryResolver: the static fallback *)
(* ================================================================== *)

Section StaticResolver.
Import Text CategoryResolver.

Variable e : string.

(** The resolver built when the category list could not be loaded. *)
Let self : CategoryResolver.t := init (Raise e).

Lemma static_categories_loaded : (length (trends_categories self) =? 0)%nat = false.
Proof. reflexivity. Qed.

(** On a non-empty text of low overlap the answer is that of the
    keyword heuristics. *)
Lemma resolve_low_overlap (text : string) :
  text <> "" -> low_overlap self text ->
  resolve_trends_category self text =
  (or_news (best_match (heuristic (lower text))),
   best_id (heuristic (lower text)),
   best_score (heuristic (lower text))).
Proof.
  intros Hne Hlow. unfold resolve_trends_category.
  rewrite static_categories_loaded.
  destruct (is_empty text) eqn:E; [apply is_empty_true in E; contradiction|].
  unfold low_overlap in Hlow. simpl orb. cbv zeta. rewrite Hlow. reflexivity.
Qed.

Lemma contains_tech_family (text : string) :
  contains "tech" text = true \/ contains "software" text = true \/
  contains "ai" text = true ->
  contains_any tech_words (lower text) = true.
Proof.
  unfold contains_any, tech_words. cbn [existsb].
  intros [H|[H|H]]; apply contains_lower in H.
  - change (lower "tech") with "tech" in H. rewrite H. reflexivity.
  - change (lower "software") with "software" in H. rewrite H.
    rewrite ?orb_true_r. reflexivity.
  - change (lower "ai") with "ai" in H. rewrite H.
    rewrite ?orb_true_r. reflexivity.
Qed.

Lemma contains_nonempty (sub text : string) :
  sub <> "" -> contains sub text = true -> text <> "".
Proof.
  intros Hs H ->. destruct sub; [contradiction | discriminate].
Qed.

End StaticResolver.

(** C4, as amended.  With the static table in use, on a text whose best
    word-overlap score is below 0.3: a text that contains "tech",
    "software" or "ai" resolves to Computers & Electronics (id 5) at
    confidence 0.6; a non-empty text that matches no keyword family
    resolves to News (id 16) at confidence 0.4. *)
Theorem resolve_trends_category_static_fallback (e text : string) :
  low_overlap (CategoryResolver.init (Raise e)) text ->
  (Text.contains "tech" text = true \/ Text.contains "software" text = true \/
   Text.contains "ai" text = true ->
   CategoryResolver.resolve_trends_category (CategoryResolver.init (Raise e)) text
   = ("Computers & Electronics", 5, 0.6%Q)) /\
  (text <> "" -> matches_no_family (Text.lower text) ->
   CategoryResolver.resolve_trends_category (CategoryResolver.init (Raise e)) text
   = ("News", 16, 0.4%Q)).
Proof.
  intros Hlow. split.
  - intros Hc.
    assert (Hne : text <> "").
    { destruct Hc as [H|[H|H]]; eapply contains_nonempty; try exact H; discriminate. }
    rewrite (resolve_low_overlap e text Hne Hlow).
    unfold CategoryResolver.heuristic.
    rewrite (contains_tech_family text Hc). reflexivity.
  - intros Hne (Ht & Hb & Hh & Hf).
    rewrite (resolve_low_overlap e text Hne Hlow).
    unfold CategoryResolver.heuristic. rewrite Ht, Hb, Hh, Hf. reflexivity.
Qed.

Lemma resolve_trends_category_static_fallback_witness :
  CategoryResolver.resolve_trends_category (CategoryResolver.init (Raise "NameError"))
    "AI software technology" = ("Computers & Electronics", 5, 0.6%Q) /\
  CategoryResolver.resolve_trends_category (CategoryResolver.init (Raise "NameError"))
    "gardening weekly" = ("News", 16, 0.4%Q).
Proof.
  split.
  - apply (resolve_trends_category_static_fallback "NameError" "AI software technology").
    + vm_compute. reflexivity.
    + right. left. vm_compute. reflexivity.
  - apply (resolve_trends_category_static_fallback "NameError" "gardening weekly").
    + vm_compute. reflexivity.
    + discriminate.
    + vm_compute. repeat split.
Defined.

(** C4, as stated, fails on the empty text: its overlap score is below
    0.3 and it matches no keyword family, but the confidence returned is
    0.0. *)
Lemma resolve_empty_text_confidence :
  ~ (forall e text : string,
       low_overlap (CategoryResolver.init (Raise e)) text ->
       matches_no_family (Text.lower text) ->
       CategoryResolver.resolve_trends_category (CategoryResolver.init (Raise e)) text
       = ("News", 16, 0.4%Q)).
Proof.
  intros H. specialize (H "NameError" "").
  assert (Hlow : low_overlap (CategoryResolver.init (Raise "NameError")) "")
    by (vm_compute; reflexivity).
  assert (Hnf : matches_no_family (Text.lower "")) by (vm_compute; repeat split).
  specialize (H Hlow Hnf). vm_compute in H. discriminate H.
Qed.

Example resolve_empty_text :
  CategoryResolver.resolve_trends_category (CategoryResolver.init (Raise "NameError")) ""
  = ("News", 16, 0.0%Q).
Proof. reflexivity. Qed.

(* ================================================================== *)
(** * The stable sort *)
(* ================================================================== *)

Section StableSort.
Context {A : Type}.

Lemma insert_by_perm (before : A -> A -> bool) (x : A) (ys : list A) :
  Permutation (insert_by before x ys) (x :: ys).
Proof.
  induction ys as [|y ys IH]; simpl; [reflexivity|].
  destruct (before y x); [|reflexivity].
  rewrite IH. apply perm_swap.
Qed.

Lemma sorted_by_perm (before : A -> A -> bool) (xs : list A) :
  Permutation (sorted_by before xs) xs.
Proof.
  induction xs as [|x xs IH]; simpl; [reflexivity|].
  rewrite insert_by_perm. constructor. exact IH.
Qed.

Lemma firstn_In (x : A) (n : nat) (xs : list A) :
  In x (firstn n xs) -> In x xs.
Proof.
  revert n. induction xs as [|y xs IH]; intros [|n]; simpl; try tauto.
  intros [H|H]; [left; exact H | right; eapply IH, H].
Qed.

Lemma firstn_sorted (R : A -> A -> Prop) (n : nat) (xs : list A) :
  StronglySorted R xs -> StronglySorted R (firstn n xs).
Proof.
  intros Hs. revert n. induction Hs as [|x xs Hs IH Hall]; intros [|n]; simpl;
    try constructor.
  - apply IH.
  - apply List.Forall_forall. intros y Hy. apply firstn_In in Hy.
    eapply List.Forall_forall in Hall; eauto.
Qed.

Variable key : A -> nat.

(** Descending order of the keys. *)
Let desc (a b : A) : Prop := (key b <= key a)%nat.
Let before (a b : A) : bool := (key b <? key a)%nat.

Lemma insert_by_sorted (x : A) (ys : list A) :
  StronglySorted desc ys -> StronglySorted desc (insert_by before x ys).
Proof.
  induction 1 as [|y ys Hs IH Hall]; simpl.
  - repeat constructor.
  - unfold before at 1. destruct (key x <? key y)%nat eqn:E.
    + constructor; [exact IH|].
      eapply Permutation_Forall; [symmetry; apply insert_by_perm|].
      constructor; [|exact Hall].
      apply Nat.ltb_lt in E. unfold desc. lia.
    + apply Nat.ltb_ge in E.
      constructor; [constructor; assumption|].
      constructor; [exact E|].
      eapply List.Forall_impl; [|exact Hall].
      intros z Hz. unfold desc in *. lia.
Qed.

Lemma sorted_by_sorted (xs : list A) :
  StronglySorted desc (sorted_by before xs).
Proof.
  induction xs as [|x xs IH]; simpl; [constructor | apply insert_by_sorted, IH].
Qed.

End StableSort.

(* ================================================================== *)
(** * KeywordExtractor: the frequency fallback *)
(* ================================================================== *)

Section Frequency.
Import KeywordExtractor.

Local Abbreviation lookup := CategoryResolver.lookup.

(** The term frequency of [w] in a list of words. *)
Local Abbreviation tf words w := (count_occ string_dec words w).

Lemma lookup_bump (k w : string) (d : list (string * nat)) :
  lookup k (bump w d) =
  if String.eqb w k
  then Some (S (match lookup k d with Some n => n | None => O end))
  else lookup k d.
Proof.
  induction d as [|[k' n] d IH]; simpl.
  - destruct (String.eqb w k); reflexivity.
  - destruct (String.eqb k' w) eqn:E1; simpl.
    + apply String.eqb_eq in E1. subst k'.
      destruct (String.eqb w k); reflexivity.
    + rewrite IH. destruct (String.eqb k' k) eqn:E2; [|reflexivity].
      apply String.eqb_eq in E2. subst k'.
      rewrite String.eqb_sym, E1. reflexivity.
Qed.

Lemma count_words_snoc (ws : list string) (w : string) :
  count_words (ws ++ [w]) = bump w (count_words ws).
Proof. unfold count_words. rewrite fold_left_app. reflexivity. Qed.

(** The dictionary holds the frequency of every word that occurs. *)
Lemma lookup_count_words (ws : list string) (k : string) :
  lookup k (count_words ws) =
  match tf ws k with O => None | n => Some n end.
Proof.
  induction ws as [|w ws IH] using rev_ind; [reflexivity|].
  rewrite count_words_snoc, lookup_bump, IH, count_occ_app. simpl.
  destruct (string_dec w k) as [->|Hne].
  - rewrite String.eqb_refl. destruct (tf ws k); simpl; f_equal; lia.
  - apply String.eqb_neq in Hne. rewrite Hne, Nat.add_0_r. reflexivity.
Qed.

Lemma bump_keys (w : string) (d : list (string * nat)) :
  map fst (bump w d) = map fst d \/
  (~ In w (map fst d) /\ map fst (bump w d) = map fst d ++ [w]).
Proof.
  induction d as [|[k n] d IH]; simpl.
  - right. split; [tauto | reflexivity].
  - destruct (String.eqb k w) eqn:E; simpl; [left; reflexivity|].
    apply String.eqb_neq in E.
    destruct IH as [->|[Hni ->]]; [left; reflexivity|].
    right. split; [tauto | reflexivity].
Qed.

Lemma count_words_nodup (ws : list string) : List.NoDup (map fst (count_words ws)).
Proof.
  induction ws as [|w ws IH] using rev_ind; [constructor|].
  rewrite count_words_snoc.
  destruct (bump_keys w (count_words ws)) as [->|[Hni ->]]; [exact IH|].
  apply List.NoDup_app; [exact IH | |].
  - constructor; [intros [] | constructor].
  - intros x Hx [<-|[]]. contradiction.
Qed.

Lemma nodup_lookup (d : list (string * nat)) (k : string) (n : nat) :
  List.NoDup (map fst d) -> In (k, n) d -> lookup k d = Some n.
Proof.
  induction d as [|[k' n'] d IH]; simpl; [tauto|].
  intros Hnd [Heq|Hin].
  - injection Heq as -> ->. rewrite String.eqb_refl. reflexivity.
  - inversion Hnd as [|? ? Hni Hnd']; subst.
    destruct (String.eqb k' k) eqn:E; [|apply IH; assumption].
    apply String.eqb_eq in E. subst k'. exfalso. apply Hni.
    apply (in_map fst) in Hin. exact Hin.
Qed.

Lemma lookup_in (d : list (string * nat)) (k : string) (n : nat) :
  lookup k d = Some n -> In (k, n) d.
Proof.
  induction d as [|[k' n'] d IH]; simpl; [discriminate|].
  destruct (String.eqb k' k) eqn:E.
  - apply String.eqb_eq in E. subst k'. intros [= ->]. left. reflexivity.
  - intros H. right. apply IH, H.
Qed.

(** The entries of the dictionary are the words with their frequency. *)
Lemma count_words_entry (ws : list string) (k : string) (n : nat) :
  In (k, n) (count_words ws) <-> n = tf ws k /\ (0 < n)%nat.
Proof.
  split.
  - intros Hin. apply nodup_lookup in Hin; [|apply count_words_nodup].
    rewrite lookup_count_words in Hin.
    destruct (tf ws k); [discriminate|]. injection Hin as <-. lia.
  - intros [-> Hpos]. apply lookup_in. rewrite lookup_count_words.
    destruct (tf ws k); [lia | reflexivity].
Qed.

Lemma fgt_lt (a b : float) : fgt a b = true <-> (b < a)%Q.
Proof. unfold fgt, Qlt. apply Z.ltb_lt. Qed.

Lemma fdiv_same (n : nat) : (0 < n)%nat -> fdiv n n = 1%Q.
Proof.
  intros Hn. unfold fdiv.
  change 1%Q with (Qred 1). apply Qred_complete.
  unfold Qeq. cbn [Qnum Qden].
  assert (H : Z.pos (Pos.of_nat n) = Z.of_nat n).
  { rewrite <- positive_nat_Z, Nat2Pos.id; lia. }
  rewrite H. lia.
Qed.

Lemma slice_to_cons {B : Type} (k : Z) (x : B) (xs : list B) :
  1 <= k -> slice_to k (x :: xs) = x :: firstn (Z.to_nat (k - 1)) xs.
Proof.
  intros Hk. unfold slice_to.
  destruct (0 <=? k) eqn:E; [|apply Z.leb_gt in E; lia].
  replace (Z.to_nat k) with (S (Z.to_nat (k - 1))) by lia. reflexivity.
Qed.

Variable words : list string.
Variable max_freq : nat.

(** The body of the loop that builds the result. *)
Let emit : string * nat -> list ExtractedKeyword :=
  fun '(word, freq) =>
    let score := fdiv freq max_freq in
    if fgt score 0.05%Q then [mkExtractedKeyword word score] else [].

Lemma emit_spec (l : list (string * nat)) (kw : ExtractedKeyword) :
  In kw (flat_map emit l) ->
  exists n, In (keyword kw, n) l /\ score kw = fdiv n max_freq /\
            (0.05 < score kw)%Q.
Proof.
  induction l as [|[word freq] l IH]; simpl; [tauto|].
  intros Hin. apply in_app_or in Hin as [Hin|Hin].
  - destruct (fgt (fdiv freq max_freq) 0.05%Q) eqn:E; [|destruct Hin].
    destruct Hin as [<-|[]]. exists freq. simpl.
    split; [left; reflexivity|]. split; [reflexivity|]. apply fgt_lt, E.
  - destruct (IH Hin) as (n & Hn & Hs & Hlt). exists n. tauto.
Qed.

Lemma emit_sorted (l : list (string * nat)) :
  StronglySorted (fun a b => (snd b <= snd a)%nat) l ->
  (forall k n, In (k, n) l -> n = tf words k) ->
  StronglySorted (fun a b => (tf words (keyword b) <= tf words (keyword a))%nat)
                 (flat_map emit l).
Proof.
  induction 1 as [|[word freq] l Hs IH Hall]; intros Hfreq; simpl; [constructor|].
  assert (IH' := IH (fun k n H => Hfreq k n (or_intror H))).
  destruct (fgt (fdiv freq max_freq) 0.05%Q); simpl; [|exact IH'].
  constructor; [exact IH'|].
  apply List.Forall_forall. intros kw Hkw. simpl.
  destruct (emit_spec l kw Hkw) as (n & Hn & _).
  rewrite <- (Hfreq word freq (or_introl eq_refl)).
  rewrite <- (Hfreq _ n (or_intror Hn)).
  eapply List.Forall_forall in Hall; [|exact Hn]. exact Hall.
Qed.

End Frequency.

Example frequency_fallback_roof :
  KeywordExtractor._extract_with_frequency (KeywordExtractor.init None)
    "The roof, the Roof and the ROOF: a gutter is not a roof." 25
  = [mkExtractedKeyword "roof" 1%Q; mkExtractedKeyword "gutter" (1 # 4);
     mkExtractedKeyword "not" (1 # 4)].
Proof. vm_compute. reflexivity. Qed.

(* ================================================================== *)
(** * The table of runs *)
(* ================================================================== *)

Section RunsTable.
Import TrendHarvesterDB.

Lemma fold_max_above (base : Z) (ids : list Z) :
  base <= fold_right Z.max base ids /\
  Forall (fun i => i <= fold_right Z.max base ids) ids.
Proof.
  induction ids as [|i ids [IHb IHall]]; simpl; [split; [lia | constructor]|].
  split; [lia|]. constructor; [lia|].
  eapply List.Forall_impl; [|exact IHall]. intros j Hj. simpl in Hj. lia.
Qed.

(** The key given to a new run is above every key of the table. *)
Lemma next_run_id_above (d : DB) : Forall (fun r => id r < next_run_id d) (runs d).
Proof.
  unfold next_run_id.
  destruct (fold_max_above (Z.max 0 (runs_seq d)) (map id (runs d))) as [_ H].
  apply List.Forall_forall. intros r Hr.
  eapply List.Forall_forall in H; [|apply in_map, Hr]. simpl in H. lia.
Qed.

Lemma find_none_above (n : Z) (rs : list run) :
  Forall (fun r => id r < n) rs -> find (fun r => id r =? n) rs = None.
Proof.
  induction 1 as [|r rs Hr _ IH]; simpl; [reflexivity|].
  destruct (id r =? n) eqn:E; [apply Z.eqb_eq in E; lia | exact IH].
Qed.

Lemma select_run_fresh (d : DB) : select_run (next_run_id d) d = None.
Proof. apply find_none_above, next_run_id_above. Qed.

Lemma find_app_none {B : Type} (p : B -> bool) (xs ys : list B) :
  find p xs = None -> find p (xs ++ ys) = find p ys.
Proof.
  induction xs as [|x xs IH]; simpl; [reflexivity|].
  destruct (p x); [discriminate | exact IH].
Qed.

(** The row of a run that was just created. *)
Lemma select_run_created (url : string) (now : Z) (d : DB) :
  select_run (create_run url now d).1 (create_run url now d).2 =
  Some (mkRun (next_run_id d) (VStr url) VNone VNone VNone (VTime now)
              VNone (VStr "running") VNone).
Proof.
  unfold create_run, select_run. simpl.
  rewrite find_app_none by apply select_run_fresh.
  simpl. rewrite Z.eqb_refl. reflexivity.
Qed.

(** The effect of an [UPDATE] on the row of a run. *)
Lemma select_run_sql_update (fields : list (string * value)) (run_id run_id' : Z) (d : DB) :
  Forall (fun kv => is_mutable (fst kv) = true) fields ->
  select_run run_id' (sql_update_runs fields run_id d) =
  option_map
    (fun r => if id r =? run_id
              then fold_left (fun r '(column, v) => set_column column v r) fields r
              else r)
    (select_run run_id' d).
Proof.
  intros Hall. unfold select_run, sql_update_runs, with_runs. simpl.
  induction (runs d) as [|r rs IH]; simpl; [reflexivity|].
  destruct (id r =? run_id) eqn:E.
  - destruct (assignments_same_fixed fields r Hall) as (-> & _).
    destruct (id r =? run_id'); [simpl; rewrite E; reflexivity | exact IH].
  - destruct (id r =? run_id'); [simpl; rewrite E; reflexivity | exact IH].
Qed.

Lemma select_run_id (run_id : Z) (d : DB) (r : run) :
  select_run run_id d = Some r -> id r = run_id.
Proof.
  unfold select_run. intros H. apply find_some in H as [_ H].
  apply Z.eqb_eq, H.
Qed.

(** [update_run] with the status and the notes. *)
Lemma select_run_mark (run_id : Z) (st notes_text : value) (d : DB) (r : run) :
  select_run run_id d = Some r ->
  select_run run_id (update_run run_id [("status", st); ("notes", notes_text)] d) =
  Some (mkRun (id r) (url r) (detected_category_name r) (detected_category_id r)
              (youtube_category_id r) (started_at r) (finished_at r) st notes_text).
Proof.
  intros Hr. rewrite update_run_unfold.
  change (List.filter _ _) with [("status", st); ("notes", notes_text)].
  cbv iota.
  rewrite select_run_sql_update by (repeat constructor).
  rewrite Hr. cbn [option_map].
  rewrite (proj2 (Z.eqb_eq _ _) (select_run_id _ _ _ Hr)). reflexivity.
Qed.

(** [update_run] with the status, the finish time and the notes. *)
Lemma select_run_complete (run_id : Z) (st fin notes_text : value) (d : DB) (r : run) :
  select_run run_id d = Some r ->
  select_run run_id
    (update_run run_id [("status", st); ("finished_at", fin); ("notes", notes_text)] d) =
  Some (mkRun (id r) (url r) (detected_category_name r) (detected_category_id r)
              (youtube_category_id r) (started_at r) fin st notes_text).
Proof.
  intros Hr. rewrite update_run_unfold.
  change (List.filter _ _)
    with [("status", st); ("finished_at", fin); ("notes", notes_text)].
  cbv iota.
  rewrite select_run_sql_update by (repeat constructor).
  rewrite Hr. cbn [option_map].
  rewrite (proj2 (Z.eqb_eq _ _) (select_run_id _ _ _ Hr)). reflexivity.
Qed.

(** [update_run] with the three category columns leaves the status and
    the finish time of every run as they are. *)
Lemma view_patch_category (run_id run_id' : Z) (name cat yt : value) (d : DB) :
  view run_id'
    (update_run run_id [("detected_category_name", name);
                        ("detected_category_id", cat);
                        ("youtube_category_id", yt)] d)
  = view run_id' d.
Proof.
  unfold view. rewrite update_run_unfold.
  change (List.filter _ _)
    with [("detected_category_name", name); ("detected_category_id", cat);
          ("youtube_category_id", yt)].
  cbv iota.
  rewrite select_run_sql_update by (repeat constructor).
  destruct (select_run run_id' d) as [r|]; [|reflexivity].
  cbn [option_map]. destruct (id r =? run_id); reflexivity.
Qed.

End RunsTable.

(* ================================================================== *)
(** * Commits that leave a run's status alone *)
(* ================================================================== *)

Section Quiet.
Import TrendHarvesterDB.

Lemma quiet_refl (run_id : Z) (s : Sys) : quiet run_id s s.
Proof. exists []. repeat split. constructor. Qed.

Lemma quiet_trans (run_id : Z) (s1 s2 s3 : Sys) :
  quiet run_id s1 s2 -> quiet run_id s2 s3 -> quiet run_id s1 s3.
Proof.
  intros (n1 & Hj1 & Hall1 & Hv1) (n2 & Hj2 & Hall2 & Hv2).
  exists (n2 ++ n1). split; [rewrite Hj2, Hj1, app_assoc; reflexivity|].
  split; [|congruence].
  apply Forall_app. split; [|exact Hall1].
  eapply List.Forall_impl; [|exact Hall2]. intros d Hd. simpl in Hd. congruence.
Qed.

Lemma quiet_commit (run_id : Z) (f : DB -> DB) (s : Sys) :
  view run_id (f (db s)) = view run_id (db s) ->
  quiet run_id s (commit f s).2.
Proof.
  intros Hv. exists [f (db s)]. simpl. repeat split; [|exact Hv].
  constructor; [exact Hv | constructor].
Qed.

Lemma add_trends_nil (d : DB) : add_trends [] [] d = d.
Proof. destruct d. unfold add_trends. simpl. rewrite !app_nil_r. reflexivity. Qed.

Lemma add_trends_add i1 r1 i2 r2 (d : DB) :
  add_trends i2 r2 (add_trends i1 r1 d) = add_trends (i1 ++ i2) (r1 ++ r2) d.
Proof. unfold add_trends. simpl. rewrite !app_assoc. reflexivity. Qed.

Lemma insert_interest_add rows (d : DB) :
  TrendHarvester.insert_interest rows d = add_trends rows [] d.
Proof.
  unfold TrendHarvester.insert_interest, add_trends. rewrite app_nil_r. reflexivity.
Qed.

Lemma insert_related_add rows (d : DB) :
  TrendHarvester.insert_related rows d = add_trends [] rows d.
Proof.
  unfold TrendHarvester.insert_related, add_trends. rewrite app_nil_r. reflexivity.
Qed.

Lemma view_add_trends (run_id : Z) i r (d : DB) :
  view run_id (add_trends i r d) = view run_id d.
Proof. reflexivity. Qed.

End Quiet.

(* ================================================================== *)
(** * The search-interest stage *)
(* ================================================================== *)

Section TrendsStage.
Import TrendHarvesterDB TrendHarvester.

Lemma frame_empty_rows (run_id : Z) (batch : list string)
    (data : list (string * list (string * Z))) :
  frame_empty data = true -> interest_rows run_id batch data = [].
Proof.
  unfold frame_empty, interest_rows.
  induction data as [|[date row] data IH]; simpl; [reflexivity|].
  intros H. apply andb_true_iff in H as [Hrow Hrest].
  rewrite (IH Hrest), app_nil_r.
  destruct row; [|discriminate]. clear.
  induction batch as [|k batch IHb]; simpl; [reflexivity | exact IHb].
Qed.

Variable w : World.
Variables run_id category_id : Z.

(** One batch adds its own rows and nothing else, whether it ends
    normally or raises. *)
Lemma process_batch_effect (i : nat) (batch : list string) (s : Sys) :
  exists r s',
    process_batch w run_id category_id i batch s = (r, s') /\
    db s' = add_trends (batch_interest_rows w run_id category_id (i, batch))
                       (batch_related_rows w run_id category_id (i, batch)) (db s) /\
    quiet run_id s s'.
Proof.
  unfold process_batch, batch_interest_rows, batch_related_rows, bind, lift.
  cbn [fst snd].
  destruct (interest_over_time (outcome_of w category_id i batch)) as [data|e1].
  - destruct (frame_empty data) eqn:Hempty.
    + rewrite (frame_empty_rows _ _ _ Hempty). cbn [ret].
      destruct (related_queries (outcome_of w category_id i batch)) as [rel|e2].
      * eexists _, _. split; [reflexivity|]. cbn [commit db].
        split; [apply insert_related_add|]. apply quiet_commit. reflexivity.
      * eexists _, _. split; [reflexivity|].
        split; [symmetry; apply add_trends_nil | apply quiet_refl].
    + cbn [commit].
      destruct (related_queries (outcome_of w category_id i batch)) as [rel|e2].
      * eexists _, _. split; [reflexivity|]. cbn [db].
        split.
        { rewrite insert_related_add, insert_interest_add, add_trends_add.
          rewrite app_nil_r. reflexivity. }
        eapply quiet_trans.
        { apply (quiet_commit run_id
                   (insert_interest (interest_rows run_id batch data)) s).
          reflexivity. }
        apply (quiet_commit run_id (insert_related (related_rows run_id rel))
                 (commit (insert_interest (interest_rows run_id batch data)) s).2).
        reflexivity.
      * eexists _, _. split; [reflexivity|]. cbn [db].
        split; [apply insert_interest_add|]. apply quiet_commit. reflexivity.
  - eexists _, _. split; [reflexivity|].
    split; [symmetry; apply add_trends_nil | apply quiet_refl].
Qed.

(** The loop over the batches: every batch adds its own rows, in
    order, whatever happened to the batches before it. *)
Lemma batches_effect (bs : list (nat * list string)) (s : Sys) :
  exists s',
    for_each bs
      (fun '(i, batch) =>
         try_catch (process_batch w run_id category_id i batch) (fun _ => ret tt)) s
    = (Ok tt, s') /\
    db s' = add_trends (flat_map (batch_interest_rows w run_id category_id) bs)
                       (flat_map (batch_related_rows w run_id category_id) bs) (db s) /\
    quiet run_id s s'.
Proof.
  revert s. induction bs as [|[i batch] bs IH]; intros s.
  - exists s. split; [reflexivity|].
    split; [symmetry; apply add_trends_nil | apply quiet_refl].
  - cbn [for_each flat_map]. unfold bind at 1, try_catch at 1.
    destruct (process_batch_effect i batch s) as (r & s1 & -> & Hdb1 & Hq1).
    assert (Hnext : forall s2 : Sys, s2 = s1 ->
      exists s',
        for_each bs
          (fun '(i, batch) =>
             try_catch (process_batch w run_id category_id i batch) (fun _ => ret tt)) s2
        = (Ok tt, s') /\
        db s' = add_trends
                  (batch_interest_rows w run_id category_id (i, batch) ++
                   flat_map (batch_interest_rows w run_id category_id) bs)
                  (batch_related_rows w run_id category_id (i, batch) ++
                   flat_map (batch_related_rows w run_id category_id) bs) (db s) /\
        quiet run_id s s').
    { intros s2 ->. destruct (IH s1) as (s' & Hrun & Hdb & Hq).
      exists s'. split; [exact Hrun|].
      split; [rewrite Hdb, Hdb1; apply add_trends_add|].
      eapply quiet_trans; eassumption. }
    destruct r as [[]|e]; cbn [ret]; apply Hnext; reflexivity.
Qed.

(** [_analyze_trends] never raises. *)
Lemma analyze_trends_effect (keywords : list string) (s : Sys) :
  exists s',
    _analyze_trends w run_id keywords category_id s = (Ok tt, s') /\
    db s' =
      (if w_pytrends w
       then add_trends
              (flat_map (batch_interest_rows w run_id category_id) (batches keywords))
              (flat_map (batch_related_rows w run_id category_id) (batches keywords))
              (db s)
       else db s) /\
    quiet run_id s s'.
Proof.
  unfold _analyze_trends. destruct (w_pytrends w); cbn [negb].
  - unfold try_catch at 1.
    destruct (batches_effect (batches keywords) s) as (s' & -> & Hdb & Hq).
    exists s'. repeat split; assumption.
  - exists s. repeat split. apply quiet_refl.
Qed.

End TrendsStage.

(* ================================================================== *)
(** * The orchestrator *)
(* ================================================================== *)

Section Orchestrator.
Import TrendHarvesterDB TrendHarvester.

Variable w : World.
Variable url : string.

(** The ways the [try] block ends: with an exception, the status left
    alone; or with the run id, after one closing update. *)
Lemma run_analysis_body_cases (run_id : Z) (s : Sys) :
  exists r s1,
    run_analysis_body w url run_id s = (r, s1) /\
    ((exists msg, r = Raise msg /\ quiet run_id s s1) \/
     (r = Ok run_id /\
      exists s_mid kwargs,
        quiet run_id s s_mid /\
        s1 = (commit (update_run run_id kwargs) s_mid).2 /\
        closing_update w kwargs)).
Proof.
  unfold run_analysis_body, bind at 1, lift.
  destruct (content_stage w url) as [content|e].
  2:{ eexists _, _. split; [reflexivity|]. left. eexists. split; [reflexivity|].
      apply quiet_refl. }
  destruct (Text.is_empty content).
  { unfold bind, store. destruct (w_fault w MarkNoContent) as [msg|].
    - eexists _, _. split; [reflexivity|]. left. eexists. split; [reflexivity|].
      apply quiet_refl.
    - eexists _, _. split; [reflexivity|]. right. split; [reflexivity|].
      eexists s, _. split; [apply quiet_refl|]. split; [reflexivity|].
      left. eexists. reflexivity. }
  destruct (KeywordExtractor.extract_keywords _ _ _ content 25) as [|kw kws].
  { unfold bind, store. destruct (w_fault w MarkNoKeywords) as [msg|].
    - eexists _, _. split; [reflexivity|]. left. eexists. split; [reflexivity|].
      apply quiet_refl.
    - eexists _, _. split; [reflexivity|]. right. split; [reflexivity|].
      eexists s, _. split; [apply quiet_refl|]. split; [reflexivity|].
      left. eexists. reflexivity. }
  unfold bind at 1, store at 1. destruct (w_fault w SaveKeywords) as [msg|].
  { eexists _, _. split; [reflexivity|]. left. eexists. split; [reflexivity|].
    apply quiet_refl. }
  cbn [raise].
  set (s1 := (commit (save_keywords run_id (kw :: kws)) s).2).
  assert (Hq1 : quiet run_id s s1) by (apply quiet_commit; reflexivity).
  change (commit (save_keywords run_id (kw :: kws)) s) with (Ok tt, s1).
  cbv iota beta.
  destruct (CategoryResolver.resolve_trends_category _ _) as [[category_name trends_id] confidence].
  unfold bind at 1, store at 1. destruct (w_fault w PatchCategory) as [msg|].
  { eexists _, _. split; [reflexivity|]. left. eexists. split; [reflexivity|].
    exact Hq1. }
  match goal with |- context [commit ?f s1] =>
    set (s2 := (commit f s1).2);
    assert (Hq2 : quiet run_id s1 s2) by (apply quiet_commit, view_patch_category);
    change (commit f s1) with (Ok tt, s2) end.
  cbv iota beta.
  assert (Hq3 : exists s3,
    (if w_pytrends w
     then _analyze_trends w run_id (map keyword (firstn 7 (kw :: kws))) trends_id
     else ret tt) s2 = (Ok tt, s3) /\ quiet run_id s2 s3).
  { destruct (w_pytrends w).
    - destruct (analyze_trends_effect w run_id trends_id
                  (map keyword (firstn 7 (kw :: kws))) s2) as (s3 & Heq & _ & Hq).
      exists s3. split; assumption.
    - exists s2. split; [reflexivity | apply quiet_refl]. }
  destruct Hq3 as (s3 & Heq3 & Hq3).
  unfold bind at 1. rewrite Heq3.
  unfold bind at 1.
  assert (Hyt : (if is_set (w_youtube_api_key w)
                 then _analyze_youtube run_id
                        (CategoryResolver.resolve_youtube_category category_name)
                        (firstn 3 (map keyword (firstn 7 (kw :: kws))))
                 else ret tt) s3 = (Ok tt, s3))
    by (destruct (is_set (w_youtube_api_key w)); reflexivity).
  rewrite Hyt. unfold bind at 1.
  assert (Hnews : (if is_set (w_serpapi_key w) || is_set (w_gnews_api_key w)
                   then _analyze_news run_id category_name
                          (firstn 3 (map keyword (firstn 7 (kw :: kws))))
                   else ret tt) s3 = (Ok tt, s3))
    by (destruct (is_set (w_serpapi_key w) || is_set (w_gnews_api_key w)); reflexivity).
  rewrite Hnews. unfold bind, store.
  assert (Hq : quiet run_id s s3)
    by (eapply quiet_trans; [exact Hq1|]; eapply quiet_trans; eassumption).
  destruct (w_fault w MarkCompleted) as [msg|].
  { eexists _, _. split; [reflexivity|]. left. eexists. split; [reflexivity|].
    exact Hq. }
  eexists _, _. split; [reflexivity|]. right. split; [reflexivity|].
  eexists s3, _. split; [exact Hq|]. split; [reflexivity|].
  right. eexists. reflexivity.
Qed.

End Orchestrator.

Section RunAnalysis.
Import TrendHarvesterDB TrendHarvester.

Variable w : World.
Variable url : string.

Lemma view_select (run_id : Z) (d : DB) (st fin : value) :
  view run_id d = Some (st, fin) ->
  exists r, select_run run_id d = Some r /\ status r = st /\ finished_at r = fin.
Proof.
  unfold view. destruct (select_run run_id d) as [r|]; [|discriminate].
  simpl. intros [= <- <-]. exists r. repeat split.
Qed.

(** The closing update of a running run. *)
Lemma closing_view (run_id : Z) (kwargs : list (string * value)) (d : DB) :
  view run_id d = Some (VStr "running", VNone) ->
  closing_update w kwargs ->
  view run_id (update_run run_id kwargs d) = Some (VStr "completed", VTime (w_now w 2)) \/
  view run_id (update_run run_id kwargs d) = Some (VStr "failed", VNone).
Proof.
  intros Hv Hc. apply view_select in Hv as (r & Hr & Hst & Hfin).
  destruct Hc as [[n ->]|[n ->]].
  - right. unfold view. rewrite (select_run_mark _ _ _ _ _ Hr). simpl.
    rewrite Hfin. reflexivity.
  - left. unfold view. rewrite (select_run_complete _ _ _ _ _ _ Hr). reflexivity.
Qed.

(** The run as [new_run] leaves it. *)
Lemma new_run_view (s : Sys) :
  view (create_run url (w_now w 1) (db s)).1 (db s) = None /\
  view (create_run url (w_now w 1) (db s)).1 (create_run url (w_now w 1) (db s)).2
  = Some (VStr "running", VNone).
Proof.
  split.
  - unfold view. cbn [create_run fst]. rewrite select_run_fresh. reflexivity.
  - unfold view. rewrite select_run_created. reflexivity.
Qed.

Hypothesis created : w_fault w CreateRun = None.

(** The journal of a run that was created: the states committed while
    the run is running, the creation first, and then either one closing
    state and the id of the run, or the exception that the update of
    the handler raised, the run still [running]. *)
Lemma run_analysis_outcome (s : Sys) :
  exists r s' running,
    run_analysis w url s = (r, s') /\
    ((r = Ok (create_run url (w_now w 1) (db s)).1 /\
      journal s' = db s' :: running ++ (create_run url (w_now w 1) (db s)).2 :: journal s /\
      Forall (fun d => view (create_run url (w_now w 1) (db s)).1 d
                       = Some (VStr "running", VNone)) running /\
      (view (create_run url (w_now w 1) (db s)).1 (db s')
       = Some (VStr "completed", VTime (w_now w 2)) \/
       view (create_run url (w_now w 1) (db s)).1 (db s') = Some (VStr "failed", VNone))) \/
     (exists msg,
        r = Raise msg /\ w_fault w MarkFailed = Some msg /\
        journal s' = running ++ (create_run url (w_now w 1) (db s)).2 :: journal s /\
        Forall (fun d => view (create_run url (w_now w 1) (db s)).1 d
                         = Some (VStr "running", VNone)) running /\
        view (create_run url (w_now w 1) (db s)).1 (db s') = Some (VStr "running", VNone))).
Proof.
  destruct (new_run_view s) as [_ Hv0].
  unfold run_analysis, bind at 1, new_run. rewrite created.
  set (run_id := (create_run url (w_now w 1) (db s)).1) in *.
  set (d0 := (create_run url (w_now w 1) (db s)).2) in *.
  change (create_run url (w_now w 1) (db s)) with (run_id, d0).
  cbv iota beta.
  set (s0 := mkSys d0 (d0 :: journal s)).
  assert (Hclose : forall sq kwargs,
            quiet run_id s0 sq -> closing_update w kwargs ->
            exists running,
              journal (commit (update_run run_id kwargs) sq).2
              = db (commit (update_run run_id kwargs) sq).2 :: running ++ d0 :: journal s /\
              Forall (fun d => view run_id d = Some (VStr "running", VNone)) running /\
              (view run_id (db (commit (update_run run_id kwargs) sq).2)
               = Some (VStr "completed", VTime (w_now w 2)) \/
               view run_id (db (commit (update_run run_id kwargs) sq).2)
               = Some (VStr "failed", VNone))).
  { intros sq kwargs (new & Hj & Hall & Hvq) Hc.
    exists new. cbn [commit snd db journal].
    split; [rewrite Hj; reflexivity|].
    split.
    - eapply List.Forall_impl; [|exact Hall]. intros d Hd. simpl in Hd.
      rewrite Hd. exact Hv0.
    - apply closing_view; [|exact Hc]. rewrite Hvq. exact Hv0. }
  unfold try_catch.
  destruct (run_analysis_body_cases w url run_id s0)
    as (r & s1 & -> & [(msg & -> & Hq)|(-> & s_mid & kwargs & Hq & -> & Hc)]).
  - unfold bind, store. destruct (w_fault w MarkFailed) as [msg'|] eqn:Hh.
    + destruct Hq as (new & Hj & Hall & Hvq).
      eexists _, s1, new. split; [reflexivity|]. right.
      exists msg'. split; [reflexivity|]. split; [reflexivity|].
      split; [exact Hj|]. split.
      * eapply List.Forall_impl; [|exact Hall]. intros d Hd. simpl in Hd.
        rewrite Hd. exact Hv0.
      * rewrite Hvq. exact Hv0.
    + cbn [commit ret].
      destruct (Hclose s1 [("status", VStr "failed"); ("notes", VStr msg)] Hq)
        as (running & Hj & Hall & Hfin).
      { left. eexists. reflexivity. }
      eexists _, _, running. split; [reflexivity|]. left.
      split; [reflexivity|]. repeat split; assumption.
  - destruct (Hclose s_mid kwargs Hq Hc) as (running & Hj & Hall & Hfin).
    eexists _, _, running. split; [reflexivity|]. left.
    split; [reflexivity|]. repeat split; assumption.
Qed.

Hypothesis handled : w_fault w MarkFailed = None.

(** The journal of a run whose creation and whose handler the store
    lets through: the run id is returned after one closing state. *)
Lemma run_analysis_trace (s : Sys) :
  exists s' running final,
    run_analysis w url s = (Ok (create_run url (w_now w 1) (db s)).1, s') /\
    db s' = final /\
    journal s' = final :: running ++ (create_run url (w_now w 1) (db s)).2 :: journal s /\
    Forall (fun d => view (create_run url (w_now w 1) (db s)).1 d
                     = Some (VStr "running", VNone)) running /\
    (view (create_run url (w_now w 1) (db s)).1 final
     = Some (VStr "completed", VTime (w_now w 2)) \/
     view (create_run url (w_now w 1) (db s)).1 final = Some (VStr "failed", VNone)).
Proof.
  destruct (run_analysis_outcome s)
    as (r & s' & running & Hrun & [(-> & Hj & Hall & Hfin)|(msg & _ & Hh & _)]).
  - exists s', running, (db s'). repeat split; assumption.
  - rewrite handled in Hh. discriminate Hh.
Qed.

End RunAnalysis.

(* ================================================================== *)
(** * The other runs *)
(* ================================================================== *)

Section OtherRuns.
Import TrendHarvesterDB TrendHarvester.

Variable other : Z.

Lemma preserves_ret {A : Type} (a : A) : preserves other (ret a).
Proof. intros s. apply quiet_refl. Qed.

Lemma preserves_raise {A : Type} (msg : string) : preserves other (@raise A msg).
Proof. intros s. apply quiet_refl. Qed.

Lemma preserves_lift {A : Type} (r : result A) : preserves other (lift r).
Proof. intros s. apply quiet_refl. Qed.

Lemma preserves_bind {A B : Type} (m : M A) (k : A -> M B) :
  preserves other m -> (forall a, preserves other (k a)) -> preserves other (bind m k).
Proof.
  intros Hm Hk s. unfold bind. specialize (Hm s).
  destruct (m s) as [[a|msg] s1]; cbn [snd] in *; [|exact Hm].
  eapply quiet_trans; [exact Hm | apply Hk].
Qed.

Lemma preserves_try_catch {A : Type} (body : M A) (handler : string -> M A) :
  preserves other body -> (forall msg, preserves other (handler msg)) ->
  preserves other (try_catch body handler).
Proof.
  intros Hb Hh s. unfold try_catch. specialize (Hb s).
  destruct (body s) as [[a|msg] s1]; cbn [snd] in *; [exact Hb|].
  eapply quiet_trans; [exact Hb | apply Hh].
Qed.

Lemma preserves_commit (f : DB -> DB) :
  (forall d, view other (f d) = view other d) -> preserves other (commit f).
Proof. intros Hf s. apply quiet_commit, Hf. Qed.

Lemma preserves_for_each {A : Type} (xs : list A) (body : A -> M unit) :
  (forall x, preserves other (body x)) -> preserves other (for_each xs body).
Proof.
  intros Hb. induction xs as [|x xs IH]; simpl.
  - apply preserves_ret.
  - apply preserves_bind; [apply Hb | intros _; exact IH].
Qed.

Lemma preserves_store (w : World) (c : store_call) (f : DB -> DB) :
  (forall d, view other (f d) = view other d) -> preserves other (store w c f).
Proof.
  intros Hf. unfold store. destruct (w_fault w c).
  - apply preserves_raise.
  - apply preserves_commit, Hf.
Qed.

(** The search-interest stage does not touch the table of runs. *)
Lemma analyze_trends_preserves (w : World) (run_id : Z) (keywords : list string)
    (category_id : Z) :
  preserves other (_analyze_trends w run_id keywords category_id).
Proof.
  unfold _analyze_trends. destruct (negb (w_pytrends w)); [apply preserves_ret|].
  apply preserves_try_catch; [|intros; apply preserves_ret].
  apply preserves_for_each. intros [i batch].
  apply preserves_try_catch; [|intros; apply preserves_ret].
  unfold process_batch.
  apply preserves_bind; [apply preserves_lift | intros data].
  apply preserves_bind.
  - destruct (frame_empty data); [apply preserves_ret|].
    apply preserves_commit. reflexivity.
  - intros _. apply preserves_bind; [apply preserves_lift | intros rel].
    apply preserves_commit. reflexivity.
Qed.

(** An update of one run leaves the other runs as they are. *)
Lemma view_update_run_other (run_id : Z) (kwargs : list (string * value)) (d : DB) :
  other <> run_id -> view other (update_run run_id kwargs d) = view other d.
Proof.
  intros Hne. rewrite update_run_unfold.
  pose proof (filter_mutable_all kwargs) as Hall.
  destruct (List.filter (fun '(field, _) => is_mutable field) kwargs) as [|kv fields];
    [reflexivity|].
  unfold view. rewrite select_run_sql_update by exact Hall.
  destruct (select_run other d) as [r|] eqn:Hr; [|reflexivity].
  cbn [option_map]. apply select_run_id in Hr.
  destruct (id r =? run_id) eqn:E; [apply Z.eqb_eq in E; congruence | reflexivity].
Qed.

Lemma find_app {B : Type} (p : B -> bool) (xs ys : list B) :
  find p (xs ++ ys) = match find p xs with Some x => Some x | None => find p ys end.
Proof.
  induction xs as [|x xs IH]; simpl; [reflexivity|].
  destruct (p x); [reflexivity | exact IH].
Qed.

(** The creation of a run leaves the other runs as they are. *)
Lemma view_create_run_other (url : string) (now : Z) (d : DB) :
  other <> (create_run url now d).1 ->
  view other (create_run url now d).2 = view other d.
Proof.
  cbn [create_run fst snd]. intros Hne.
  unfold view, select_run. cbn [runs]. rewrite find_app.
  destruct (find (fun r => id r =? other) (runs d)); [reflexivity|].
  cbn [find id].
  destruct (next_run_id d =? other) eqn:E; [apply Z.eqb_eq in E; congruence|].
  reflexivity.
Qed.

Lemma run_analysis_body_preserves (w : World) (url : string) (run_id : Z) :
  other <> run_id -> preserves other (run_analysis_body w url run_id).
Proof.
  intros Hne. unfold run_analysis_body.
  apply preserves_bind; [apply preserves_lift | intros content].
  destruct (Text.is_empty content).
  { apply preserves_bind; [|intros; apply preserves_ret].
    apply preserves_store. intros d. apply view_update_run_other, Hne. }
  destruct (KeywordExtractor.extract_keywords _ _ _ content 25) as [|kw kws].
  { apply preserves_bind; [|intros; apply preserves_ret].
    apply preserves_store. intros d. apply view_update_run_other, Hne. }
  apply preserves_bind; [apply preserves_store; reflexivity | intros _].
  destruct (CategoryResolver.resolve_trends_category _ _)
    as [[category_name trends_id] confidence].
  apply preserves_bind;
    [apply preserves_store; intros d; apply view_update_run_other, Hne | intros _].
  apply preserves_bind.
  { destruct (w_pytrends w); [apply analyze_trends_preserves | apply preserves_ret]. }
  intros _. apply preserves_bind.
  { destruct (is_set (w_youtube_api_key w)); apply preserves_ret. }
  intros _. apply preserves_bind.
  { destruct (is_set (w_serpapi_key w) || is_set (w_gnews_api_key w));
      apply preserves_ret. }
  intros _. apply preserves_bind; [|intros; apply preserves_ret].
  apply preserves_store. intros d. apply view_update_run_other, Hne.
Qed.

(** [run_analysis] leaves every run but its own as it is, in every
    state of the store it commits. *)
Lemma run_analysis_preserves (w : World) (url : string) (s : Sys) :
  other <> (create_run url (w_now w 1) (db s)).1 ->
  quiet other s (run_analysis w url s).2.
Proof.
  intros Hne. unfold run_analysis, bind at 1, new_run.
  destruct (w_fault w CreateRun) as [msg0|]; [apply quiet_refl|].
  pose proof (view_create_run_other url (w_now w 1) (db s) Hne) as Hv.
  set (run_id := (create_run url (w_now w 1) (db s)).1) in *.
  set (d0 := (create_run url (w_now w 1) (db s)).2) in *.
  change (create_run url (w_now w 1) (db s)) with (run_id, d0).
  cbv iota beta.
  apply (quiet_trans other s (mkSys d0 (d0 :: journal s))).
  - exists [d0]. cbn [journal db]. split; [reflexivity|].
    split; [|exact Hv]. constructor; [exact Hv | constructor].
  - apply (preserves_try_catch
             (run_analysis_body w url run_id)
             (fun e => bind (store w MarkFailed
                               (update_run run_id
                                  [("status", VStr "failed"); ("notes", VStr e)]))
                            (fun _ => ret run_id))).
    + apply run_analysis_body_preserves, Hne.
    + intros msg. apply preserves_bind; [|intros; apply preserves_ret].
      apply preserves_store. intros d. apply view_update_run_other, Hne.
Qed.

End OtherRuns.

Lemma sorted_snoc_const {A : Type} (R : A -> A -> Prop) (v x : A) (l : list A) :
  R v v -> R v x -> Forall (fun y => y = v) l -> Sorted R (l ++ [x]).
Proof.
  intros Hvv Hvx. induction 1 as [|y l -> Hall IH]; simpl.
  - repeat constructor.
  - constructor; [exact IH|].
    destruct Hall as [|z l -> _]; simpl; constructor; assumption.
Qed.

Lemma sorted_const {A : Type} (R : A -> A -> Prop) (v : A) (l : list A) :
  R v v -> Forall (fun y => y = v) l -> Sorted R l.
Proof.
  intros Hvv. induction 1 as [|y l -> Hall IH]; constructor; [exact IH|].
  destruct Hall as [|z l -> _]; constructor. exact Hvv.
Qed.

(** X23.  The life of a run that [create_run] has stored.  In the
    successive states of the store that [run_analysis] commits, the
    first of which holds the run as created, the status of the run is
    [running] from its creation (never [pending]) and stays or moves
    forward from one state to the next; the run has no finish time
    while it is [running] and has one once it is [completed].  When
    [run_analysis] returns, it returns the id of this run and the
    status is terminal; when the update of its handler raises, the run
    is left [running].  The status and the finish time of every other
    run are left as they were. *)
Theorem run_status_moves_forward (w : World) (url : string) (s : Sys) :
  w_fault w CreateRun = None ->
  exists r s' first rest,
    TrendHarvester.run_analysis w url s = (r, s') /\
    journal s' = rev (first :: rest) ++ journal s /\
    view (TrendHarvesterDB.create_run url (w_now w 1) (db s)).1 (db s) = None /\
    view (TrendHarvesterDB.create_run url (w_now w 1) (db s)).1 first
    = Some (VStr "running", VNone) /\
    Sorted status_step
      (map (view (TrendHarvesterDB.create_run url (w_now w 1) (db s)).1) (first :: rest)) /\
    Forall (finish_follows_status (VTime (w_now w 2))
              (TrendHarvesterDB.create_run url (w_now w 1) (db s)).1) (first :: rest) /\
    (forall run_id, r = Ok run_id ->
       run_id = (TrendHarvesterDB.create_run url (w_now w 1) (db s)).1 /\
       exists st fin, view run_id (db s') = Some (st, fin) /\ terminal st) /\
    (forall msg, r = Raise msg ->
       view (TrendHarvesterDB.create_run url (w_now w 1) (db s)).1 (db s')
       = Some (VStr "running", VNone)) /\
    (forall other, other <> (TrendHarvesterDB.create_run url (w_now w 1) (db s)).1 ->
       Forall (fun d => view other d = view other (db s)) (first :: rest)).
Proof.
  intros Hcreated.
  destruct (run_analysis_outcome w url Hcreated s) as (r & s' & running & Hrun & Hcases).
  destruct (new_run_view w url s) as [Hfresh Hv0].
  pose proof (fun other => run_analysis_preserves other w url s) as Hothers.
  set (run_id := (TrendHarvesterDB.create_run url (w_now w 1) (db s)).1) in *.
  set (d0 := (TrendHarvesterDB.create_run url (w_now w 1) (db s)).2) in *.
  assert (Hstep : status_step (Some (VStr "running", VNone)) (Some (VStr "running", VNone)))
    by (left; reflexivity).
  assert (Hquiet : forall states,
            journal s' = rev states ++ journal s ->
            forall other, other <> run_id ->
              Forall (fun d => view other d = view other (db s)) states).
  { intros states Hj other Hne. specialize (Hothers other Hne).
    rewrite Hrun in Hothers. cbn [snd] in Hothers.
    destruct Hothers as (new & Hnew & Hq & _).
    rewrite Hj in Hnew. apply app_inv_tail in Hnew.
    apply List.Forall_forall. intros d Hd.
    eapply List.Forall_forall in Hq; [exact Hq|].
    rewrite <- Hnew. apply in_rev in Hd. exact Hd. }
  destruct Hcases as [(-> & Hj & Hall & Hfin)|(msg & -> & _ & Hj & Hall & Hlast)].
  - assert (Hj' : journal s' = rev (d0 :: rev running ++ [db s']) ++ journal s).
    { rewrite Hj. cbn [rev]. rewrite rev_app_distr, rev_involutive. cbn [rev app].
      rewrite <- !app_assoc. reflexivity. }
    assert (Hrunning : Forall (fun d => view run_id d = Some (VStr "running", VNone))
                              (d0 :: rev running)).
    { constructor; [exact Hv0|]. apply List.Forall_forall. intros d Hd.
      apply in_rev in Hd. eapply List.Forall_forall in Hall; eauto. }
    exists (Ok run_id), s', d0, (rev running ++ [db s']).
    split; [exact Hrun|]. split; [exact Hj'|].
    split; [exact Hfresh|]. split; [exact Hv0|].
    split.
    { change (d0 :: rev running ++ [db s']) with ((d0 :: rev running) ++ [db s']).
      rewrite map_app. cbn [map].
      apply (sorted_snoc_const status_step (Some (VStr "running", VNone))).
      - exact Hstep.
      - destruct Hfin as [-> | ->]; right; right; split; auto.
      - change (view run_id d0 :: map (view run_id) (rev running))
          with (map (view run_id) (d0 :: rev running)).
        apply List.Forall_map. exact Hrunning. }
    split.
    { change (d0 :: rev running ++ [db s']) with ((d0 :: rev running) ++ [db s']).
      apply Forall_app. split.
      - eapply List.Forall_impl; [|exact Hrunning]. intros d Hd. simpl in Hd.
        exists (VStr "running"), VNone. split; [exact Hd|].
        split; [reflexivity | discriminate].
      - constructor; [|constructor].
        destruct Hfin as [Hf | Hf]; eexists _, _; (split; [exact Hf|]).
        + split; [discriminate | reflexivity].
        + split; discriminate. }
    split.
    { intros id [= <-]. split; [reflexivity|].
      destruct Hfin as [Hf | Hf]; eexists _, _; (split; [exact Hf|]).
      - left. reflexivity.
      - right. reflexivity. }
    split; [discriminate|].
    apply Hquiet, Hj'.
  - assert (Hj' : journal s' = rev (d0 :: rev running) ++ journal s).
    { rewrite Hj. cbn [rev]. rewrite rev_involutive, <- app_assoc. reflexivity. }
    assert (Hrunning : Forall (fun d => view run_id d = Some (VStr "running", VNone))
                              (d0 :: rev running)).
    { constructor; [exact Hv0|]. apply List.Forall_forall. intros d Hd.
      apply in_rev in Hd. eapply List.Forall_forall in Hall; eauto. }
    exists (Raise msg), s', d0, (rev running).
    split; [exact Hrun|]. split; [exact Hj'|].
    split; [exact Hfresh|]. split; [exact Hv0|].
    split.
    { apply (sorted_const status_step (Some (VStr "running", VNone))); [exact Hstep|].
      apply List.Forall_map. exact Hrunning. }
    split.
    { eapply List.Forall_impl; [|exact Hrunning]. intros d Hd. simpl in Hd.
      exists (VStr "running"), VNone. split; [exact Hd|].
      split; [reflexivity | discriminate]. }
    split; [discriminate|].
    split; [intros _ _; exact Hlast|].
    apply Hquiet, Hj'.
Qed.

Lemma run_status_moves_forward_witness :
  exists r s' first rest,
    TrendHarvester.run_analysis store_down_world
      "https://www.acmeroofing.example/services" fresh_store = (r, s') /\
    journal s' = rev (first :: rest) ++ journal fresh_store /\
    Sorted status_step (map (view 1) (first :: rest)) /\
    (forall msg, r = Raise msg -> view 1 (db s') = Some (VStr "running", VNone)).
Proof.
  destruct (run_status_moves_forward store_down_world
              "https://www.acmeroofing.example/services" fresh_store eq_refl)
    as (r & s' & first & rest & Hrun & Hj & _ & _ & Hsorted & _ & _ & Hraise & _).
  exists r, s', first, rest. repeat split; assumption.
Defined.

(** C1.  The code at the failing input: a page of stopwords gives a
    run that [run_analysis] marks [failed], a terminal status, and
    whose finish time is left unset; so the finish time is not set
    exactly when the status is terminal. *)
Theorem failed_run_has_no_finish_time :
  exists r,
    (TrendHarvester.run_analysis stopword_world "https://example.com" fresh_store).1
    = Ok 1 /\
    TrendHarvesterDB.select_run 1
      (db (TrendHarvester.run_analysis stopword_world "https://example.com"
             fresh_store).2) = Some r /\
    TrendHarvesterDB.status r = VStr "failed" /\
    TrendHarvesterDB.notes r = VStr "No keywords extracted" /\
    TrendHarvesterDB.finished_at r = VNone /\
    ~ finish_iff_terminal r.
Proof.
  eexists. split; [vm_compute; reflexivity|].
  split; [vm_compute; reflexivity|]. cbn.
  split; [reflexivity|]. split; [reflexivity|]. split; [reflexivity|].
  intros [_ Hback]. apply Hback; [right; reflexivity | reflexivity].
Qed.

Example stopword_run :
  (TrendHarvester.run_analysis stopword_world "https://example.com" fresh_store).1 = Ok 1 /\
  view 1 (db (TrendHarvester.run_analysis stopword_world "https://example.com"
                fresh_store).2) = Some (VStr "failed", VNone).
Proof. vm_compute. split; reflexivity. Qed.

Example offline_run :
  (TrendHarvester.run_analysis offline_world "https://www.acmeroofing.example/services"
     fresh_store).1 = Ok 1 /\
  view 1 (db (TrendHarvester.run_analysis offline_world
                "https://www.acmeroofing.example/services" fresh_store).2)
  = Some (VStr "completed", VTime 2).
Proof. vm_compute. split; reflexivity. Qed.

(** The row of a run after the handler of [run_analysis]. *)
Lemma handler_marks_failed (run_id : Z) (msg : string)
    (d : TrendHarvesterDB.DB) (st fin : value) :
  view run_id d = Some (st, fin) ->
  exists r,
    TrendHarvesterDB.select_run run_id
      (TrendHarvesterDB.update_run run_id
         [("status", VStr "failed"); ("notes", VStr msg)] d) = Some r /\
    TrendHarvesterDB.id r = run_id /\
    TrendHarvesterDB.status r = VStr "failed" /\
    TrendHarvesterDB.notes r = VStr msg.
Proof.
  intros Hv. apply view_select in Hv as (r & Hr & _ & _).
  eexists. split; [apply (select_run_mark _ _ _ _ _ Hr)|].
  cbn. split; [eapply select_run_id, Hr|]. split; reflexivity.
Qed.

(** C2, as amended.  When the store lets the creation of the run and
    the update of the handler through, [run_analysis] returns the id
    that [create_run] assigned, for every URL and whatever happens in
    its [try] block; when the block raises, the run is left with the
    status [failed] and with the text of the exception as its notes. *)
Theorem run_analysis_returns_run_id (w : World) (url : string) (s : Sys) :
  w_fault w CreateRun = None ->
  w_fault w MarkFailed = None ->
  exists s',
    TrendHarvester.run_analysis w url s
    = (Ok (TrendHarvesterDB.create_run url (w_now w 1) (db s)).1, s') /\
    forall msg s1,
      TrendHarvester.run_analysis_body w url
        (TrendHarvesterDB.create_run url (w_now w 1) (db s)).1
        (TrendHarvester.new_run w url s).2 = (Raise msg, s1) ->
      exists r,
        TrendHarvesterDB.select_run
          (TrendHarvesterDB.create_run url (w_now w 1) (db s)).1 (db s') = Some r /\
        TrendHarvesterDB.id r = (TrendHarvesterDB.create_run url (w_now w 1) (db s)).1 /\
        TrendHarvesterDB.status r = VStr "failed" /\
        TrendHarvesterDB.notes r = VStr msg.
Proof.
  intros Hcreated Hhandled.
  destruct (run_analysis_trace w url Hcreated Hhandled s)
    as (s' & running & final & Hrun & _).
  exists s'. split; [exact Hrun|].
  intros msg s1 Hbody.
  destruct (new_run_view w url s) as [_ Hv0].
  unfold TrendHarvester.run_analysis, bind at 1 in Hrun.
  unfold TrendHarvester.new_run in Hrun, Hbody.
  rewrite Hcreated in Hrun, Hbody.
  set (run_id := (TrendHarvesterDB.create_run url (w_now w 1) (db s)).1) in *.
  set (d0 := (TrendHarvesterDB.create_run url (w_now w 1) (db s)).2) in *.
  change (TrendHarvesterDB.create_run url (w_now w 1) (db s)) with (run_id, d0)
    in Hrun, Hbody.
  cbv iota beta in Hrun, Hbody. cbn [snd] in Hbody.
  unfold try_catch in Hrun. rewrite Hbody in Hrun.
  unfold bind, TrendHarvester.store in Hrun. rewrite Hhandled in Hrun.
  cbn [commit ret] in Hrun.
  injection Hrun as <-. cbn [db].
  destruct (run_analysis_body_cases w url run_id (mkSys d0 (d0 :: journal s)))
    as (r & s1' & Heq & [(msg' & -> & Hq)|(-> & _)]);
    rewrite Hbody in Heq; [|discriminate].
  injection Heq as _ <-.
  destruct Hq as (_ & _ & _ & Hview). cbn [db] in Hview.
  apply (handler_marks_failed run_id msg (db s1) (VStr "running") VNone).
  rewrite Hview. exact Hv0.
Qed.

Lemma run_analysis_returns_run_id_witness :
  exists s' r,
    TrendHarvester.run_analysis locked_world "https://www.acmeroofing.example/services"
      fresh_store = (Ok 1, s') /\
    TrendHarvesterDB.select_run 1 (db s') = Some r /\
    TrendHarvesterDB.status r = VStr "failed" /\
    TrendHarvesterDB.notes r = VStr "database is locked".
Proof.
  destruct (run_analysis_returns_run_id locked_world
              "https://www.acmeroofing.example/services" fresh_store eq_refl eq_refl)
    as (s' & Hrun & Hfail).
  destruct (Hfail "database is locked"
              (TrendHarvester.run_analysis_body locked_world
                 "https://www.acmeroofing.example/services" 1
                 (TrendHarvester.new_run locked_world
                    "https://www.acmeroofing.example/services" fresh_store).2).2)
    as (r & Hr & _ & Hst & Hnotes).
  { vm_compute. reflexivity. }
  exists s', r. repeat split; assumption.
Defined.

(** C2, as stated, fails: with a store that stays locked the [try]
    block raises when the keywords are saved, the update of the handler
    raises in its turn, and [run_analysis] returns no id. *)
Lemma locked_store_returns_no_id :
  (exists s1,
     TrendHarvester.run_analysis_body store_down_world
       "https://www.acmeroofing.example/services" 1
       (TrendHarvester.new_run store_down_world
          "https://www.acmeroofing.example/services" fresh_store).2
     = (Raise "database is locked", s1)) /\
  (TrendHarvester.run_analysis store_down_world
     "https://www.acmeroofing.example/services" fresh_store).1
  = Raise "database is locked" /\
  ~ (forall (w : World) (url : string) (s : Sys),
       exists run_id s', TrendHarvester.run_analysis w url s = (Ok run_id, s')).
Proof.
  split; [eexists; vm_compute; reflexivity|].
  assert (H : (TrendHarvester.run_analysis store_down_world
                 "https://www.acmeroofing.example/services" fresh_store).1
              = Raise "database is locked") by (vm_compute; reflexivity).
  split; [exact H|].
  intros Hall.
  destruct (Hall store_down_world "https://www.acmeroofing.example/services" fresh_store)
    as (run_id & s' & Hrun).
  rewrite Hrun in H. discriminate H.
Qed.

(* ================================================================== *)
(** * The batches of the search-interest stage *)
(* ================================================================== *)

Section Batches.
Import TrendHarvester.

Lemma range_step_chunks (l : list string) (fuel start : nat) :
  (length l - start <= fuel)%nat ->
  concat (map (fun i => firstn 5 (skipn i l)) (range_step fuel start (length l) 5))
  = skipn start l.
Proof.
  revert start. induction fuel as [|fuel IH]; intros start Hfuel; simpl.
  - symmetry. apply skipn_all2. lia.
  - destruct (start <? length l)%nat eqn:E.
    + apply Nat.ltb_lt in E. simpl. rewrite IH by lia.
      rewrite Nat.add_comm, <- skipn_skipn. apply firstn_skipn.
    + apply Nat.ltb_ge in E. symmetry. apply skipn_all2. exact E.
Qed.

(** The batches cut the keywords into consecutive slices. *)
Lemma batches_concat (l : list string) : concat (map snd (batches l)) = l.
Proof.
  unfold batches. rewrite map_map. cbn [snd].
  apply (range_step_chunks l (length l) 0). lia.
Qed.

(** A batch holds at most five keywords. *)
Lemma batches_sizes (l : list string) :
  Forall (fun b => (length b.2 <= 5)%nat) (batches l).
Proof.
  unfold batches. apply List.Forall_forall. intros b Hb.
  apply in_map_iff in Hb as (i & <- & _). cbn [snd].
  rewrite length_firstn. lia.
Qed.

Lemma range_step_count (fuel start stop : nat) :
  (5 * length (range_step fuel start stop 5) <= stop - start + 4)%nat.
Proof.
  revert start. induction fuel as [|fuel IH]; intros start; simpl; [lia|].
  destruct (start <? stop)%nat eqn:E; simpl; [|lia].
  apply Nat.ltb_lt in E. specialize (IH (start + 5)%nat). lia.
Qed.

Lemma batches_count (l : list string) :
  (5 * length (batches l) <= length l + 4)%nat.
Proof.
  unfold batches. rewrite length_map.
  pose proof (range_step_count (length l) 0 (length l)). lia.
Qed.

End Batches.

(* ================================================================== *)
(** * A run that reaches the enrichment stages *)
(* ================================================================== *)

Section Completion.
Import TrendHarvesterDB TrendHarvester.

Variable w : World.
Variable url : string.

Hypothesis has_keywords : keywords_of w url <> [].
Hypothesis no_fault : forall c, w_fault w c = None.

(** With keywords and a store that does not fail, the run is completed,
    and the two tables of the search-interest stage hold what they held
    plus the rows of each batch. *)
Lemma run_analysis_completes (s : Sys) :
  exists s',
    run_analysis w url s = (Ok (create_run url (w_now w 1) (db s)).1, s') /\
    (exists r, select_run (create_run url (w_now w 1) (db s)).1 (db s') = Some r /\
               status r = VStr "completed") /\
    db s' =
    update_run (create_run url (w_now w 1) (db s)).1
      [("status", VStr "completed"); ("finished_at", VTime (w_now w 2));
       ("notes", VStr ("Analysis completed with "
                       +:+ w_format_2f w
                             (CategoryResolver.resolve_trends_category
                                (category_resolver w)
                                (Text.join " " (map keyword (firstn 10 (keywords_of w url))))).2
                       +:+ " category confidence"))]
      ((if w_pytrends w
        then add_trends
               (flat_map (batch_interest_rows w (create_run url (w_now w 1) (db s)).1
                            (trends_id_of w url))
                         (batches (seed_keywords_of w url)))
               (flat_map (batch_related_rows w (create_run url (w_now w 1) (db s)).1
                            (trends_id_of w url))
                         (batches (seed_keywords_of w url)))
        else fun d => d)
         (update_run (create_run url (w_now w 1) (db s)).1
            [("detected_category_name",
              VStr (CategoryResolver.resolve_trends_category
                      (category_resolver w)
                      (Text.join " " (map keyword (firstn 10 (keywords_of w url))))).1.1);
             ("detected_category_id", VInt (trends_id_of w url));
             ("youtube_category_id",
              VStr (CategoryResolver.resolve_youtube_category
                      (CategoryResolver.resolve_trends_category
                         (category_resolver w)
                         (Text.join " " (map keyword (firstn 10 (keywords_of w url))))).1.1))]
            (save_keywords (create_run url (w_now w 1) (db s)).1 (keywords_of w url)
               (create_run url (w_now w 1) (db s)).2))).
Proof.
  destruct (new_run_view w url s) as [_ Hv0].
  destruct (content_stage_ok w url) as (content & Hc & Hne).
  pose proof has_keywords as Hk.
  unfold seed_keywords_of, trends_id_of, keywords_of in *.
  rewrite Hc in *.
  unfold run_analysis, bind at 1, new_run. rewrite (no_fault CreateRun).
  set (run_id := (create_run url (w_now w 1) (db s)).1) in *.
  set (d0 := (create_run url (w_now w 1) (db s)).2) in *.
  change (create_run url (w_now w 1) (db s)) with (run_id, d0).
  cbv iota beta.
  unfold try_catch, run_analysis_body, bind at 1, lift. rewrite Hc, Hne.
  destruct (KeywordExtractor.extract_keywords _ _ _ content 25) as [|kw kws];
    [contradiction|].
  unfold bind at 1, store at 1. rewrite no_fault.
  set (s1 := (commit (save_keywords run_id (kw :: kws)) (mkSys d0 (d0 :: journal s))).2).
  change (commit (save_keywords run_id (kw :: kws)) (mkSys d0 (d0 :: journal s)))
    with (Ok tt, s1).
  cbv iota beta.
  destruct (CategoryResolver.resolve_trends_category _ _)
    as [[category_name trends_id] confidence].
  cbn [fst snd].
  unfold bind at 1, store at 1. rewrite no_fault.
  match goal with |- context [commit ?f s1] =>
    set (s2 := (commit f s1).2);
    assert (Hv2 : view run_id (db s2) = Some (VStr "running", VNone))
      by (cbn [s2 commit snd db]; rewrite view_patch_category; exact Hv0);
    change (commit f s1) with (Ok tt, s2) end.
  cbv iota beta.
  assert (H3 : exists s3,
    (if w_pytrends w
     then _analyze_trends w run_id (map keyword (firstn 7 (kw :: kws))) trends_id
     else ret tt) s2 = (Ok tt, s3) /\
    db s3 = (if w_pytrends w
             then add_trends
                    (flat_map (batch_interest_rows w run_id trends_id)
                       (batches (map keyword (firstn 7 (kw :: kws)))))
                    (flat_map (batch_related_rows w run_id trends_id)
                       (batches (map keyword (firstn 7 (kw :: kws)))))
             else fun d => d) (db s2) /\
    view run_id (db s3) = Some (VStr "running", VNone)).
  { destruct (analyze_trends_effect w run_id trends_id
                (map keyword (firstn 7 (kw :: kws))) s2) as (s3 & Heq & Hdb & Hq).
    destruct (w_pytrends w).
    - exists s3. split; [exact Heq|]. split; [exact Hdb|].
      destruct Hq as (_ & _ & _ & ->). exact Hv2.
    - exists s2. repeat split. exact Hv2. }
  destruct H3 as (s3 & Heq3 & Hdb3 & Hv3).
  unfold bind at 1. rewrite Heq3. unfold bind at 1.
  assert (Hyt : (if is_set (w_youtube_api_key w)
                 then _analyze_youtube run_id
                        (CategoryResolver.resolve_youtube_category category_name)
                        (firstn 3 (map keyword (firstn 7 (kw :: kws))))
                 else ret tt) s3 = (Ok tt, s3))
    by (destruct (is_set (w_youtube_api_key w)); reflexivity).
  rewrite Hyt. unfold bind at 1.
  assert (Hnews : (if is_set (w_serpapi_key w) || is_set (w_gnews_api_key w)
                   then _analyze_news run_id category_name
                          (firstn 3 (map keyword (firstn 7 (kw :: kws))))
                   else ret tt) s3 = (Ok tt, s3))
    by (destruct (is_set (w_serpapi_key w) || is_set (w_gnews_api_key w)); reflexivity).
  rewrite Hnews. unfold bind, store. rewrite no_fault.
  cbn [commit ret snd].
  eexists. split; [reflexivity|]. cbn [db]. split.
  - apply view_select in Hv3 as (r & Hr & _ & _).
    eexists. split; [apply (select_run_complete _ _ _ _ _ _ Hr) | reflexivity].
  - rewrite Hdb3. reflexivity.
Qed.

End Completion.

(** C8.  The search-interest stage works on the first seven keywords,
    cut into consecutive batches of at most five.  When the run has
    keywords and the store does not fail, whatever pytrends raises: the
    run ends [completed]; the two tables of the stage hold what they
    held plus, for each batch in turn, the rows of that batch alone;
    so the rows of a batch that pytrends answers are stored, whichever
    other batches raised. *)
Theorem batch_failure_isolation (w : World) (url : string) (s : Sys) :
  keywords_of w url <> [] ->
  (forall c, w_fault w c = None) ->
  w_pytrends w = true ->
  let run_id := (TrendHarvesterDB.create_run url (w_now w 1) (db s)).1 in
  let seeds := seed_keywords_of w url in
  let cat := trends_id_of w url in
  ((length seeds <= 7)%nat /\
   concat (map snd (TrendHarvester.batches seeds)) = seeds /\
   Forall (fun b => (length b.2 <= 5)%nat) (TrendHarvester.batches seeds) /\
   (length (TrendHarvester.batches seeds) <= 2)%nat) /\
  exists s',
    TrendHarvester.run_analysis w url s = (Ok run_id, s') /\
    (exists r, TrendHarvesterDB.select_run run_id (db s') = Some r /\
               TrendHarvesterDB.status r = VStr "completed") /\
    TrendHarvesterDB.trends_interest (db s') =
      TrendHarvesterDB.trends_interest (db s) ++
      flat_map (batch_interest_rows w run_id cat) (TrendHarvester.batches seeds) /\
    TrendHarvesterDB.trends_related_queries (db s') =
      TrendHarvesterDB.trends_related_queries (db s) ++
      flat_map (batch_related_rows w run_id cat) (TrendHarvester.batches seeds) /\
    (forall b data row,
       In b (TrendHarvester.batches seeds) ->
       interest_over_time (TrendHarvester.outcome_of w cat b.1 b.2) = Ok data ->
       In row (TrendHarvester.interest_rows run_id b.2 data) ->
       In row (TrendHarvesterDB.trends_interest (db s'))) /\
    (forall b data related row,
       In b (TrendHarvester.batches seeds) ->
       interest_over_time (TrendHarvester.outcome_of w cat b.1 b.2) = Ok data ->
       related_queries (TrendHarvester.outcome_of w cat b.1 b.2) = Ok related ->
       In row (TrendHarvester.related_rows run_id related) ->
       In row (TrendHarvesterDB.trends_related_queries (db s'))).
Proof.
  intros Hk Hf Hpy run_id seeds cat.
  assert (Hlen : (length seeds <= 7)%nat).
  { unfold seeds, seed_keywords_of. rewrite length_map, length_firstn. lia. }
  split.
  { split; [exact Hlen|]. split; [apply batches_concat|].
    split; [apply batches_sizes|].
    pose proof (batches_count seeds). lia. }
  destruct (run_analysis_completes w url Hk Hf s) as (s' & Hrun & Hdone & Hdb).
  rewrite Hpy in Hdb. fold run_id seeds cat in Hrun, Hdone, Hdb.
  exists s'. split; [exact Hrun|]. split; [exact Hdone|].
  assert (Hti : TrendHarvesterDB.trends_interest (db s') =
                TrendHarvesterDB.trends_interest (db s) ++
                flat_map (batch_interest_rows w run_id cat) (TrendHarvester.batches seeds)).
  { rewrite Hdb, update_run_trends_interest.
    cbn [add_trends TrendHarvesterDB.trends_interest].
    rewrite update_run_trends_interest. reflexivity. }
  assert (Hrq : TrendHarvesterDB.trends_related_queries (db s') =
                TrendHarvesterDB.trends_related_queries (db s) ++
                flat_map (batch_related_rows w run_id cat) (TrendHarvester.batches seeds)).
  { rewrite Hdb, update_run_related_queries.
    cbn [add_trends TrendHarvesterDB.trends_related_queries].
    rewrite update_run_related_queries. reflexivity. }
  split; [exact Hti|]. split; [exact Hrq|]. split.
  - intros b data row Hb Hdata Hrow. rewrite Hti. apply in_or_app. right.
    apply in_flat_map. exists b. split; [exact Hb|].
    unfold batch_interest_rows. rewrite Hdata. exact Hrow.
  - intros b data related row Hb Hdata Hrel Hrow. rewrite Hrq.
    apply in_or_app. right. apply in_flat_map. exists b. split; [exact Hb|].
    unfold batch_related_rows. rewrite Hdata, Hrel. exact Hrow.
Qed.

(** The first batch raises, the second is stored, the run is
    completed. *)
Lemma batch_failure_isolation_witness :
  exists s' r,
    TrendHarvester.run_analysis offline_world
      "https://www.acmeroofing.example/services" fresh_store = (Ok 1, s') /\
    TrendHarvesterDB.select_run 1 (db s') = Some r /\
    TrendHarvesterDB.status r = VStr "completed" /\
    interest_over_time
      (TrendHarvester.outcome_of offline_world 5 0
         ["roofing"; "roof"; "services"; "repair"; "professional"])
    = Raise "429 Too Many Requests" /\
    In (TrendHarvesterDB.mkInterest 1 "storm" "2024-05-01" 42)
       (TrendHarvesterDB.trends_interest (db s')).
Proof.
  destruct (batch_failure_isolation offline_world
              "https://www.acmeroofing.example/services" fresh_store)
    as (_ & s' & Hrun & (r & Hr & Hst) & _ & _ & Hrows & _).
  - vm_compute. discriminate.
  - reflexivity.
  - reflexivity.
  - exists s', r. split; [exact Hrun|]. split; [exact Hr|]. split; [exact Hst|].
    split; [reflexivity|].
    apply (Hrows (5%nat, ["storm"; "damage"])
                 [("2024-05-01", [("storm", 42); ("damage", 42)])]).
    + vm_compute. right. left. reflexivity.
    + vm_compute. reflexivity.
    + vm_compute. left. reflexivity.
Defined.

(* ================================================================== *)
(** * CategoryResolver: the answers and the table *)
(* ================================================================== *)

Section ResolverTable.
Import Text CategoryResolver.

(** The loop keeps either its initial values or an entry of the
    category list. *)
Lemma best_overlap_entry (self : t) (text_lower : string) :
  (best_match (best_overlap self text_lower) = None /\
   best_id (best_overlap self text_lower) = 16 /\
   best_score (best_overlap self text_lower) = 0.0%Q) \/
  exists name,
    best_match (best_overlap self text_lower) = Some name /\
    In (name, best_id (best_overlap self text_lower)) (trends_categories self).
Proof.
  unfold best_overlap.
  assert (H : forall cats b,
    (forall c, In c cats -> In c (trends_categories self)) ->
    ((best_match b = None /\ best_id b = 16 /\ best_score b = 0.0%Q) \/
     exists name, best_match b = Some name /\ In (name, best_id b) (trends_categories self)) ->
    let b' := fold_left (overlap_step text_lower) cats b in
    (best_match b' = None /\ best_id b' = 16 /\ best_score b' = 0.0%Q) \/
    exists name, best_match b' = Some name /\ In (name, best_id b') (trends_categories self)).
  { induction cats as [|[name cid] cats IH]; intros b Hsub Hb; simpl; [exact Hb|].
    apply IH; [intros c Hc; apply Hsub; right; exact Hc|].
    unfold overlap_step.
    destruct (0 <? _)%nat; [|exact Hb].
    destruct (fgt _ _); [|exact Hb].
    right. exists name. split; [reflexivity|]. apply Hsub. left. reflexivity. }
  apply H; [auto|]. left. repeat split.
Qed.

(** In the built-in table a name has one entry, and is not empty. *)
Lemma category_mappings_lookup :
  Forall (fun '(name, (trends_id, youtube_id)) =>
            lookup name CATEGORY_MAPPINGS = Some (trends_id, youtube_id) /\
            is_empty name = false)
         CATEGORY_MAPPINGS.
Proof. repeat constructor. Qed.

Lemma static_entry (name e : string) (cid : Z) :
  In (name, cid) (trends_categories (init (Raise e))) ->
  exists youtube_id,
    In (name, (cid, youtube_id)) CATEGORY_MAPPINGS /\
    lookup name CATEGORY_MAPPINGS = Some (cid, youtube_id) /\
    is_empty name = false.
Proof.
  cbn [init trends_categories]. unfold static_categories. intros Hin.
  apply in_map_iff in Hin as ([name' [cid' yt]] & Heq & Hin).
  injection Heq as -> ->. exists yt. split; [exact Hin|].
  pose proof category_mappings_lookup as Hall.
  eapply List.Forall_forall in Hall; [|exact Hin]. exact Hall.
Qed.

End ResolverTable.

(** X1.  With the built-in table, the category name and the Trends id
    that [resolve_trends_category] returns are those of one row of
    [CATEGORY_MAPPINGS], and [resolve_youtube_category] of that name is
    the YouTube id of the same row, never a keyword fallback. *)
Theorem resolved_category_is_table_row (e text : string) :
  exists youtube_id,
    In ((CategoryResolver.resolve_trends_category
           (CategoryResolver.init (Raise e)) text).1.1,
        ((CategoryResolver.resolve_trends_category
            (CategoryResolver.init (Raise e)) text).1.2, youtube_id))
       CategoryResolver.CATEGORY_MAPPINGS /\
    CategoryResolver.resolve_youtube_category
      (CategoryResolver.resolve_trends_category
         (CategoryResolver.init (Raise e)) text).1.1 = youtube_id.
Proof.
  assert (Hrow : forall name cid yt,
            In (name, (cid, yt)) CategoryResolver.CATEGORY_MAPPINGS ->
            CategoryResolver.resolve_youtube_category name = yt).
  { intros name cid yt Hin. unfold CategoryResolver.resolve_youtube_category.
    pose proof category_mappings_lookup as Hall.
    eapply List.Forall_forall in Hall; [|exact Hin]. cbv beta iota in Hall.
    destruct Hall as [-> _]. reflexivity. }
  assert (Hfixed : forall name cid,
            In (name, cid) [("Computers & Electronics", 5); ("Business & Industrial", 12);
                            ("Health", 45); ("Food & Drink", 71); ("News", 16)] ->
            exists yt, In (name, (cid, yt)) CategoryResolver.CATEGORY_MAPPINGS).
  { intros name cid Hin. cbn [In] in Hin.
    destruct Hin as [H|[H|[H|[H|[H|[]]]]]]; injection H as <- <-;
      eexists; cbn; tauto. }
  assert (Hgoal : forall name cid,
            (exists yt, In (name, (cid, yt)) CategoryResolver.CATEGORY_MAPPINGS) ->
            exists youtube_id,
              In (name, (cid, youtube_id)) CategoryResolver.CATEGORY_MAPPINGS /\
              CategoryResolver.resolve_youtube_category name = youtube_id).
  { intros name cid [yt Hin]. exists yt. split; [exact Hin|]. eapply Hrow, Hin. }
  unfold CategoryResolver.resolve_trends_category.
  destruct (Text.is_empty text || _).
  { cbn [fst snd]. apply Hgoal, Hfixed. cbn. tauto. }
  cbv zeta.
  destruct (flt _ _).
  - unfold CategoryResolver.heuristic.
    repeat match goal with
           | |- context [if Text.contains_any ?ws ?t then _ else _] =>
               destruct (Text.contains_any ws t)
           end;
      cbn [fst snd CategoryResolver.best_match CategoryResolver.best_id
           CategoryResolver.or_news Text.is_empty];
      apply Hgoal, Hfixed; cbn; tauto.
  - cbn [fst snd].
    destruct (best_overlap_entry (CategoryResolver.init (Raise e)) (Text.lower text))
      as [(-> & -> & _)|(name & -> & Hin)].
    + cbn [CategoryResolver.or_news]. apply Hgoal, Hfixed. cbn. tauto.
    + apply static_entry in Hin as (yt & Hin & _ & Hne).
      cbn [CategoryResolver.or_news]. rewrite Hne. apply Hgoal. exists yt. exact Hin.
Qed.

Section Confidence.
Import Text CategoryResolver.

Lemma fdiv_le_one (a b : nat) : (0 < b)%nat -> (a <= b)%nat -> (fdiv a b <= 1)%Q.
Proof.
  intros Hb Hab. unfold fdiv. rewrite Qred_correct.
  unfold Qle. cbn [Qnum Qden].
  assert (H : Z.pos (Pos.of_nat b) = Z.of_nat b).
  { rewrite <- positive_nat_Z, Nat2Pos.id; lia. }
  rewrite H. lia.
Qed.

Lemma flt_false_le (a b : float) : flt a b = false -> (b <= a)%Q.
Proof.
  unfold flt, fgt, Qle. intros H. apply Z.ltb_ge in H. exact H.
Qed.

(** A score of the loop is at most one. *)
Lemma best_overlap_le_one (self : t) (text_lower : string) :
  (best_score (best_overlap self text_lower) <= 1)%Q.
Proof.
  unfold best_overlap.
  assert (H : forall cats b, (best_score b <= 1)%Q ->
                (best_score (fold_left (overlap_step text_lower) cats b) <= 1)%Q).
  { induction cats as [|[name cid] cats IH]; intros b Hb; simpl; [exact Hb|].
    apply IH. unfold overlap_step.
    destruct (0 <? _)%nat eqn:Hov; [|exact Hb].
    destruct (fgt _ _); [|exact Hb].
    cbn [best_score]. apply Nat.ltb_lt in Hov.
    assert (Hsub : (size (words_set text_lower ∩ words_set (lower name))
                    <= size (words_set text_lower))%nat).
    { apply subseteq_size, intersection_subseteq_l. }
    apply fdiv_le_one; lia. }
  apply H. discriminate.
Qed.

End Confidence.

(** X2.  For a non-empty text and a non-empty category list, whatever
    the list holds, the confidence that [resolve_trends_category]
    returns lies between 0.3 and 1. *)
Theorem resolve_confidence_range (self : CategoryResolver.t) (text : string) :
  text <> "" ->
  CategoryResolver.trends_categories self <> [] ->
  (0.3 <= (CategoryResolver.resolve_trends_category self text).2)%Q /\
  ((CategoryResolver.resolve_trends_category self text).2 <= 1)%Q.
Proof.
  intros Htext Hcats. unfold CategoryResolver.resolve_trends_category.
  destruct (Text.is_empty text) eqn:He; [apply is_empty_true in He; contradiction|].
  destruct (CategoryResolver.trends_categories self) as [|c cats] eqn:Hc;
    [contradiction|].
  cbn [length Nat.eqb orb]. cbv zeta.
  destruct (flt _ _) eqn:Hlow.
  - unfold CategoryResolver.heuristic.
    repeat match goal with
           | |- context [if Text.contains_any ?ws ?t then _ else _] =>
               destruct (Text.contains_any ws t)
           end;
      cbn [snd CategoryResolver.best_score]; split; discriminate.
  - cbn [snd]. split; [apply flt_false_le, Hlow | apply best_overlap_le_one].
Qed.

Lemma resolve_confidence_range_witness :
  (0.3 <= (CategoryResolver.resolve_trends_category
             (CategoryResolver.init (Raise "NameError")) "real estate agents").2)%Q /\
  ((CategoryResolver.resolve_trends_category
      (CategoryResolver.init (Raise "NameError")) "real estate agents").2 <= 1)%Q.
Proof.
  apply resolve_confidence_range; discriminate.
Defined.

(* ================================================================== *)
(** * KeywordExtractor: what both algorithms guarantee *)
(* ================================================================== *)

Section SliceFacts.
Context {A : Type}.

Lemma slice_to_prefix (k : Z) (xs : list A) : exists n, slice_to k xs = firstn n xs.
Proof. unfold slice_to. destruct (0 <=? k); eexists; reflexivity. Qed.

Lemma slice_to_length (k : Z) (xs : list A) :
  0 <= k -> (length (slice_to k xs) <= Z.to_nat k)%nat.
Proof.
  intros Hk. unfold slice_to.
  destruct (0 <=? k) eqn:E; [|apply Z.leb_gt in E; lia].
  rewrite length_firstn. lia.
Qed.

Lemma slice_to_In (k : Z) (xs : list A) (x : A) : In x (slice_to k xs) -> In x xs.
Proof.
  destruct (slice_to_prefix k xs) as [n ->]. apply firstn_In.
Qed.

Lemma slice_to_sorted (R : A -> A -> Prop) (k : Z) (xs : list A) :
  StronglySorted R xs -> StronglySorted R (slice_to k xs).
Proof.
  destruct (slice_to_prefix k xs) as [n ->]. apply firstn_sorted.
Qed.

Context {B : Type}.
Variable f : A -> list B.
Hypothesis at_most_one : forall x, (length (f x) <= 1)%nat.

Lemma flat_map_length_le (xs : list A) :
  (length (flat_map f xs) <= length xs)%nat.
Proof.
  induction xs as [|x xs IH]; simpl; [lia|].
  rewrite length_app. specialize (at_most_one x). lia.
Qed.

Lemma flat_map_sorted (R : A -> A -> Prop) (R' : B -> B -> Prop) (xs : list A) :
  (forall x x' y y', R x x' -> In y (f x) -> In y' (f x') -> R' y y') ->
  StronglySorted R xs -> StronglySorted R' (flat_map f xs).
Proof.
  intros Hmono. induction 1 as [|x xs Hs IH Hall]; simpl; [constructor|].
  pose proof (at_most_one x) as Hone.
  destruct (f x) as [|y [|y' ys]] eqn:Hfx; simpl in Hone; try lia; simpl; [exact IH|].
  constructor; [exact IH|].
  apply List.Forall_forall. intros z Hz. apply in_flat_map in Hz as (x' & Hx' & Hz).
  eapply List.Forall_forall in Hall; [|exact Hx'].
  eapply Hmono; [exact Hall | rewrite Hfx; left; reflexivity | exact Hz].
Qed.

End SliceFacts.

Section SortByScore.
Context {A : Type}.
Variable key : A -> float.

Lemma fgt_false_le (a b : float) : fgt a b = false -> (a <= b)%Q.
Proof. unfold fgt, Qle. intros H. apply Z.ltb_ge in H. exact H. Qed.

Lemma fgt_true_le (a b : float) : fgt a b = true -> (b <= a)%Q.
Proof. intros H. apply fgt_lt in H. apply Qlt_le_weak, H. Qed.

(** [sorted(..., key=score, reverse=True)] is in descending order. *)
Lemma sorted_by_score_sorted (xs : list A) :
  StronglySorted (fun a b => (key b <= key a)%Q)
                 (sorted_by (fun a b => fgt (key a) (key b)) xs).
Proof.
  induction xs as [|x xs IH]; simpl; [constructor|].
  revert IH. generalize (sorted_by (fun a b => fgt (key a) (key b)) xs) as ys.
  induction ys as [|y ys IHy]; intros Hs; simpl; [repeat constructor|].
  apply StronglySorted_inv in Hs as [Hs Hall].
  destruct (fgt (key y) (key x)) eqn:E.
  - constructor; [apply IHy, Hs|].
    eapply Permutation_Forall; [symmetry; apply insert_by_perm|].
    constructor; [apply fgt_true_le, E | exact Hall].
  - apply fgt_false_le in E.
    constructor; [constructor; assumption|].
    constructor; [exact E|].
    eapply List.Forall_impl; [|exact Hall].
    intros z Hz. simpl in Hz. eapply Qle_trans; eassumption.
Qed.

End SortByScore.

Section ExtractorFacts.
Import KeywordExtractor.

Lemma fdiv_mono (a b m : nat) : (a <= b)%nat -> (fdiv a m <= fdiv b m)%Q.
Proof.
  intros Hab. unfold fdiv. apply Qred_le. unfold Qle. cbn [Qnum Qden].
  apply Z.mul_le_mono_nonneg_r; [apply Pos2Z.is_nonneg | lia].
Qed.

(** The frequency fallback gives its keywords in descending order of
    score. *)
Lemma frequency_sorted_by_score (self : t) (text : string) (max_features : Z) :
  StronglySorted (fun a b => (score b <= score a)%Q)
                 (_extract_with_frequency self text max_features).
Proof.
  unfold _extract_with_frequency. cbv zeta.
  match goal with |- StronglySorted _ (flat_map ?f _) =>
    assert (Hone : forall x, (length (f x) <= 1)%nat)
      by (intros [word freq]; destruct (fgt _ _); simpl; lia);
    apply (flat_map_sorted f Hone (fun a b => (snd b <= snd a)%nat))
  end.
  - intros [w1 f1] [w2 f2] y y' Hle Hy Hy'. simpl in Hle.
    destruct (fgt (fdiv f1 _) _); [|destruct Hy]. destruct Hy as [<-|[]].
    destruct (fgt (fdiv f2 _) _); [|destruct Hy']. destruct Hy' as [<-|[]].
    cbn [score]. apply fdiv_mono, Hle.
  - apply slice_to_sorted, (sorted_by_sorted snd).
Qed.

Lemma tfidf_sorted_by_score
    (tfidf : string -> gset string -> result (list (string * float)))
    (self : t) (text : string) (max_features : Z) :
  StronglySorted (fun a b => (score b <= score a)%Q)
                 (_extract_with_tfidf tfidf self text max_features).
Proof.
  unfold _extract_with_tfidf.
  destruct (tfidf text (all_stopwords self)) as [scores|e];
    [|apply frequency_sorted_by_score].
  match goal with |- StronglySorted _ (flat_map ?f _) =>
    assert (Hone : forall x, (length (f x) <= 1)%nat)
      by (intros [word x]; destruct (fgt _ _); simpl; lia);
    apply (flat_map_sorted f Hone (fun a b => (snd b <= snd a)%Q))
  end.
  - intros [w1 x1] [w2 x2] y y' Hle Hy Hy'. simpl in Hle.
    destruct (fgt x1 _); [|destruct Hy]. destruct Hy as [<-|[]].
    destruct (fgt x2 _); [|destruct Hy']. destruct Hy' as [<-|[]].
    exact Hle.
  - apply slice_to_sorted. apply (sorted_by_score_sorted snd).
Qed.

Lemma frequency_length (self : t) (text : string) (max_features : Z) :
  0 <= max_features ->
  (length (_extract_with_frequency self text max_features) <= Z.to_nat max_features)%nat.
Proof.
  intros Hk. unfold _extract_with_frequency. cbv zeta.
  etransitivity; [apply flat_map_length_le | apply slice_to_length, Hk].
  intros [word freq]. destruct (fgt _ _); simpl; lia.
Qed.

End ExtractorFacts.

(** X3.  [extract_keywords] returns its keywords in descending order of
    score, whichever of the two algorithms produced them and whatever
    the number of terms asked for. *)
Theorem extract_keywords_descending
    (sklearn : bool)
    (tfidf : string -> gset string -> result (list (string * float)))
    (self : KeywordExtractor.t) (text : string) (max_features : Z) :
  StronglySorted (fun a b => (score b <= score a)%Q)
    (KeywordExtractor.extract_keywords sklearn tfidf self text max_features).
Proof.
  unfold KeywordExtractor.extract_keywords.
  destruct (_ || _); [constructor|].
  destruct sklearn; [apply tfidf_sorted_by_score | apply frequency_sorted_by_score].
Qed.

(** X4.  [extract_keywords] never returns more keywords than the
    number of terms asked for, when that number is not negative. *)
Theorem extract_keywords_at_most
    (sklearn : bool)
    (tfidf : string -> gset string -> result (list (string * float)))
    (self : KeywordExtractor.t) (text : string) (max_features : Z) :
  0 <= max_features ->
  (length (KeywordExtractor.extract_keywords sklearn tfidf self text max_features)
   <= Z.to_nat max_features)%nat.
Proof.
  intros Hk. unfold KeywordExtractor.extract_keywords.
  destruct (_ || _); [simpl; lia|].
  destruct sklearn; [|apply frequency_length, Hk].
  unfold KeywordExtractor._extract_with_tfidf.
  destruct (tfidf text _) as [scores|e]; [|apply frequency_length, Hk].
  etransitivity; [apply flat_map_length_le | apply slice_to_length, Hk].
  intros [word x]. destruct (fgt _ _); simpl; lia.
Qed.

Lemma extract_keywords_at_most_witness :
  (length (KeywordExtractor.extract_keywords false (fun _ _ => Raise "unused")
             (KeywordExtractor.init None)
             "Roof repair, gutter cleaning, storm damage and skylight installation." 3)
   <= 3)%nat.
Proof.
  apply (extract_keywords_at_most false (fun _ _ => Raise "unused")
           (KeywordExtractor.init None)
           "Roof repair, gutter cleaning, storm damage and skylight installation." 3).
  lia.
Defined.

Section FrequencyKeywords.
Import KeywordExtractor.

Lemma NoDup_firstn {A : Type} (n : nat) (l : list A) :
  List.NoDup l -> List.NoDup (firstn n l).
Proof.
  intros Hnd. revert n. induction Hnd as [|x l Hni Hnd IH]; intros [|n]; simpl;
    try constructor.
  - intros Hin. apply Hni. eapply firstn_In, Hin.
  - apply IH.
Qed.

Lemma emitted_keys (max_freq : nat) (l : list (string * nat)) :
  List.NoDup (map fst l) ->
  List.NoDup
    (map keyword
       (flat_map (fun '(word, freq) =>
                    let score := fdiv freq max_freq in
                    if fgt score 0.05%Q then [mkExtractedKeyword word score] else [])
                 l)).
Proof.
  induction l as [|[word freq] l IH]; simpl; [constructor|].
  intros Hnd. inversion Hnd as [|? ? Hni Hnd']; subst.
  destruct (fgt _ _); simpl; [|apply IH, Hnd'].
  constructor; [|apply IH, Hnd'].
  intros Hin. apply Hni. apply in_map_iff in Hin as (kw & Hk & Hin).
  apply emit_spec in Hin as (n & Hn & _). rewrite Hk in Hn.
  apply (in_map fst) in Hn. exact Hn.
Qed.

End FrequencyKeywords.

(* ================================================================== *)
(** * The ranking of the frequency fallback *)
(* ================================================================== *)

Section Ranking.
Import KeywordExtractor.

(** The token test of the code and that of the claim agree. *)
Lemma is_token_terms (t : string) : is_token t = Terms.is_token t.
Proof.
  unfold is_token, Terms.is_token. destruct t as [|c rest]; [reflexivity|].
  cbn [Text.forallb_chars Text.len String.length].
  change (String.length rest) with (Text.len rest).
  assert (Hlen : (2 <=? Text.len rest)%nat = (3 <=? S (Text.len rest))%nat) by reflexivity.
  rewrite Hlen. unfold Text.is_alnum at 2.
  destruct (Text.is_alpha c); cbn [orb andb].
  - destruct (3 <=? S (Text.len rest))%nat, (Text.forallb_chars Text.is_alnum rest);
      reflexivity.
  - destruct (3 <=? S (Text.len rest))%nat, (Text.is_digit c),
      (Text.forallb_chars Text.is_alnum rest); reflexivity.
Qed.

(** The words that the code counts are the terms of the text. *)
Lemma words_of_terms (self : t) (text : string) :
  words_of self text = Terms.terms (all_stopwords self) text.
Proof.
  unfold words_of, find_tokens, Terms.terms, Text.runs.
  induction (Text.runs_go Text.is_word "" (Text.lower text)) as [|x xs IH];
    [reflexivity|].
  cbn [List.filter]. rewrite <- is_token_terms.
  destruct (is_token x); cbn [andb List.filter]; rewrite IH; reflexivity.
Qed.

Lemma is_token_length (t : string) : Terms.is_token t = true -> (3 <= Text.len t)%nat.
Proof.
  unfold Terms.is_token. intros H.
  apply andb_true_iff in H as [H _]. apply andb_true_iff in H as [H _].
  apply Nat.leb_le, H.
Qed.

(** The ranking, stated on the words that are counted. *)
Lemma frequency_ranking (self : t) (text : string) (max_features : Z) :
  let words := words_of self text in
  let tf := count_occ string_dec words in
  let result := _extract_with_frequency self text max_features in
  words <> [] ->
  StronglySorted (fun a b => (tf (keyword b) <= tf (keyword a))%nat) result /\
  Forall (fun kw => In (keyword kw) words /\ (0.05 < score kw)%Q) result /\
  (forall top rest,
     result = top :: rest ->
     score top = 1%Q /\ (forall w, (tf w <= tf (keyword top))%nat) /\
     Forall (fun kw => score kw = fdiv (tf (keyword kw)) (tf (keyword top))) result) /\
  (1 <= max_features -> result <> []).
Proof.
  intros words tf result Hne. subst result.
  unfold _extract_with_frequency. fold words. clearbody words.
  set (d := count_words words).
  remember (sorted_by freq_gt d) as sorted eqn:Hsd.
  assert (Hperm : Permutation sorted d) by (subst sorted; apply sorted_by_perm).
  assert (Hentry : forall k n, In (k, n) sorted -> n = tf k /\ (0 < n)%nat).
  { intros k n Hin. apply count_words_entry.
    eapply Permutation_in; [exact Hperm | exact Hin]. }
  assert (Hsorted : StronglySorted (fun a b => (snd b <= snd a)%nat) sorted)
    by (subst sorted; apply (sorted_by_sorted snd)).
  clear Hsd.
  assert (Hall_in : forall w, In w words -> In (w, tf w) sorted).
  { intros w Hw. eapply Permutation_in; [symmetry; exact Hperm|].
    apply count_words_entry. split; [reflexivity|].
    apply (count_occ_In string_dec) in Hw. exact Hw. }
  destruct sorted as [|[k0 f0] tl].
  { destruct words as [|w ws]; [contradiction|].
    destruct (Hall_in w (or_introl eq_refl)). }
  cbv zeta.
  destruct (Hentry k0 f0 (or_introl eq_refl)) as [Hf0 Hpos0].
  assert (Hmax : forall w, (tf w <= f0)%nat).
  { intros w. destruct (tf w) eqn:Ew; [lia|]. rewrite <- Ew.
    assert (Hw : In w words) by (apply (count_occ_In string_dec); fold (tf w); lia).
    apply Hall_in in Hw. destruct Hw as [Hw|Hw]; [injection Hw as _ <-; lia|].
    apply StronglySorted_inv in Hsorted as [_ Hall].
    eapply List.Forall_forall in Hall; [|exact Hw]. exact Hall. }
  assert (Hfreq : forall k n, In (k, n) (slice_to max_features ((k0, f0) :: tl)) ->
                              n = count_occ string_dec words k).
  { intros k n Hin. apply slice_to_In, Hentry in Hin. tauto. }
  assert (Hscores : forall kw,
            In kw (flat_map (fun '(word, freq) =>
                               if fgt (fdiv freq f0) 0.05%Q
                               then [mkExtractedKeyword word (fdiv freq f0)] else [])
                            (slice_to max_features ((k0, f0) :: tl))) ->
            In (keyword kw) words /\ score kw = fdiv (tf (keyword kw)) f0 /\
            (0.05 < score kw)%Q).
  { intros kw Hkw. destruct (emit_spec f0 _ kw Hkw) as (n & Hn & Hs & Hlt).
    apply Hfreq in Hn as Hcount. split.
    - apply (count_occ_In string_dec). rewrite <- Hcount.
      apply slice_to_In, Hentry in Hn. tauto.
    - split; [rewrite Hs, Hcount; reflexivity | exact Hlt]. }
  split.
  { apply (emit_sorted words f0 _ (slice_to_sorted _ _ _ Hsorted) Hfreq). }
  split.
  { apply List.Forall_forall. intros kw Hkw. apply Hscores in Hkw. tauto. }
  split.
  - intros top rest Hres.
    assert (Htop : top = mkExtractedKeyword k0 1%Q).
    { destruct (slice_to_prefix max_features ((k0, f0) :: tl)) as [[|n] Hn];
        rewrite Hn in Hres; [discriminate Hres|].
      cbn [firstn flat_map] in Hres. rewrite (fdiv_same f0 Hpos0) in Hres.
      change (fgt 1%Q 0.05%Q) with true in Hres. cbv iota in Hres. cbn [app] in Hres.
      injection Hres as <- _. reflexivity. }
    subst top. cbn [score keyword].
    split; [reflexivity|]. split; [intros w; rewrite <- Hf0; apply Hmax|].
    rewrite <- Hf0. apply List.Forall_forall. intros kw Hkw.
    apply Hscores in Hkw. tauto.
  - intros Hmf. rewrite slice_to_cons by exact Hmf. cbn [flat_map].
    rewrite (fdiv_same f0 Hpos0). change (fgt 1%Q 0.05%Q) with true. cbv iota.
    discriminate.
Qed.

End Ranking.

(** C6.  Under the frequency fallback, for every text with at least
    one term (a token of at least three characters that is no
    stopword) and for every number of keywords asked for: the result
    is ordered by descending frequency; every keyword returned is a
    term of the text, so a token of at least three characters that is
    no stopword, with a score above 0.05; the first entry, when there
    is one, is a term of the highest frequency with score exactly 1,
    and every score is the frequency divided by that of the first
    entry; and there is a first entry as soon as one keyword is asked
    for. *)
Theorem frequency_fallback_ranking
    (self : KeywordExtractor.t) (text : string) (max_features : Z) :
  let stopwords := KeywordExtractor.all_stopwords self in
  let tf := Terms.frequency stopwords text in
  let result := KeywordExtractor._extract_with_frequency self text max_features in
  Terms.terms stopwords text <> [] ->
  StronglySorted (fun a b => (tf (keyword b) <= tf (keyword a))%nat) result /\
  Forall (fun kw =>
            In (keyword kw) (Terms.terms stopwords text) /\
            Terms.is_token (keyword kw) = true /\
            (3 <= Text.len (keyword kw))%nat /\
            (keyword kw ∉ stopwords) /\
            (0.05 < score kw)%Q) result /\
  (forall top rest,
     result = top :: rest ->
     score top = 1%Q /\
     (forall t, (tf t <= tf (keyword top))%nat) /\
     Forall (fun kw => score kw = fdiv (tf (keyword kw)) (tf (keyword top))) result) /\
  (1 <= max_features -> exists top rest, result = top :: rest).
Proof.
  intros stopwords tf result Hterms. subst result tf. unfold Terms.frequency.
  subst stopwords. rewrite <- (words_of_terms self text) in *.
  destruct (frequency_ranking self text max_features Hterms)
    as (Hsorted & Hall & Htop & Hsome).
  split; [exact Hsorted|]. split.
  { eapply List.Forall_impl; [|exact Hall]. intros kw [Hin Hlow]. cbv beta.
    split; [exact Hin|].
    assert (Hterm : Terms.is_token (keyword kw) = true /\
                    keyword kw ∉ KeywordExtractor.all_stopwords self).
    { rewrite words_of_terms in Hin. unfold Terms.terms in Hin.
      apply filter_In in Hin as [_ Hin]. apply andb_true_iff in Hin as [Htok Hstop].
      split; [exact Htok|]. apply negb_true_iff in Hstop.
      apply (bool_decide_eq_false_1 _), Hstop. }
    destruct Hterm as [Htok Hstop].
    split; [exact Htok|]. split; [apply is_token_length, Htok|].
    split; [exact Hstop | exact Hlow]. }
  split; [exact Htop|].
  intros Hmf. specialize (Hsome Hmf).
  destruct (KeywordExtractor._extract_with_frequency self text max_features)
    as [|top rest]; [contradiction|].
  exists top, rest. reflexivity.
Qed.

(** A text in which a stopword and a word of two letters are more
    frequent than every term: neither is ranked. *)
Lemma frequency_fallback_ranking_witness :
  KeywordExtractor._extract_with_frequency (KeywordExtractor.init None)
    "The roof, the Roof and the ROOF: an ox, an ox, an ox, an ox; a gutter." 25
  = [mkExtractedKeyword "roof" 1%Q; mkExtractedKeyword "gutter" (1 # 3)] /\
  Terms.frequency (KeywordExtractor.all_stopwords (KeywordExtractor.init None))
    "The roof, the Roof and the ROOF: an ox, an ox, an ox, an ox; a gutter." "roof"
  = 3%nat /\
  forall top rest,
    KeywordExtractor._extract_with_frequency (KeywordExtractor.init None)
      "The roof, the Roof and the ROOF: an ox, an ox, an ox, an ox; a gutter." 25
    = top :: rest ->
    score top = 1%Q /\
    forall t,
      (Terms.frequency (KeywordExtractor.all_stopwords (KeywordExtractor.init None))
         "The roof, the Roof and the ROOF: an ox, an ox, an ox, an ox; a gutter." t
       <= Terms.frequency (KeywordExtractor.all_stopwords (KeywordExtractor.init None))
            "The roof, the Roof and the ROOF: an ox, an ox, an ox, an ox; a gutter."
            (keyword top))%nat.
Proof.
  split; [vm_compute; reflexivity|]. split; [vm_compute; reflexivity|].
  intros top rest Hres.
  destruct (frequency_fallback_ranking (KeywordExtractor.init None)
              "The roof, the Roof and the ROOF: an ox, an ox, an ox, an ox; a gutter." 25)
    as (_ & _ & Htop & _).
  - vm_compute. discriminate.
  - destruct (Htop top rest Hres) as (Hscore & Hmax & _). split; assumption.
Defined.

(** X5.  Under the frequency fallback no keyword is returned twice, and
    every keyword returned is a word of the text that the tokenizer
    accepts and the stopword set does not hold, with a score above 0.05
    and at most 1; this for every number of terms asked for. *)
Theorem frequency_keywords_wellformed
    (self : KeywordExtractor.t) (text : string) (max_features : Z) :
  List.NoDup (map keyword (KeywordExtractor._extract_with_frequency self text max_features)) /\
  Forall (fun kw =>
            In (keyword kw) (KeywordExtractor.find_tokens (Text.lower text)) /\
            KeywordExtractor.is_token (keyword kw) = true /\
            (keyword kw ∉ KeywordExtractor.all_stopwords self) /\
            (0.05 < score kw)%Q /\ (score kw <= 1)%Q)
         (KeywordExtractor._extract_with_frequency self text max_features).
Proof.
  unfold KeywordExtractor._extract_with_frequency. cbv zeta.
  set (words := KeywordExtractor.words_of self text).
  set (d := KeywordExtractor.count_words words).
  remember (sorted_by KeywordExtractor.freq_gt d) as sorted eqn:Hsd.
  assert (Hperm : Permutation sorted d) by (subst sorted; apply sorted_by_perm).
  assert (Hsorted : StronglySorted (fun a b => (snd b <= snd a)%nat) sorted)
    by (subst sorted; apply (sorted_by_sorted snd)).
  clear Hsd.
  assert (Hentry : forall k n, In (k, n) sorted ->
                               n = count_occ string_dec words k /\ (0 < n)%nat).
  { intros k n Hin. apply count_words_entry.
    eapply Permutation_in; [exact Hperm | exact Hin]. }
  split.
  - apply emitted_keys.
    destruct (slice_to_prefix max_features sorted) as [n ->].
    rewrite <- firstn_map. apply NoDup_firstn.
    eapply Permutation_NoDup; [symmetry; apply Permutation_map, Hperm|].
    apply count_words_nodup.
  - apply List.Forall_forall. intros kw Hkw.
    apply emit_spec in Hkw as (n & Hn & Hscore & Hlow).
    apply slice_to_In in Hn.
    destruct (Hentry _ _ Hn) as [Hcount Hpos].
    assert (Hword : In (keyword kw) words).
    { apply (count_occ_In string_dec). lia. }
    unfold words, KeywordExtractor.words_of in Hword.
    apply filter_In in Hword as [Htok Hstop].
    split; [exact Htok|].
    split.
    { unfold KeywordExtractor.find_tokens in Htok. apply filter_In in Htok. tauto. }
    split.
    { apply negb_true_iff, bool_decide_eq_false in Hstop. exact Hstop. }
    split; [exact Hlow|].
    rewrite Hscore.
    destruct sorted as [|[k0 f0] tl]; [destruct Hn|].
    destruct (Hentry k0 f0 (or_introl eq_refl)) as [_ Hpos0].
    apply fdiv_le_one; [exact Hpos0|].
    destruct Hn as [Heq|Hn]; [injection Heq as _ <-; lia|].
    apply StronglySorted_inv in Hsorted as [_ Hall].
    eapply List.Forall_forall in Hall; [|exact Hn]. exact Hall.
Qed.

(* ================================================================== *)
(** * KeywordExtractor: ties *)
(* ================================================================== *)

Section OrderFacts.
Context {A : Type}.

Lemma before_in_app (l m : list A) (a b : A) :
  before_in (l ++ m) a b <->
  before_in l a b \/ (In a l /\ In b m) \/ before_in m a b.
Proof.
  induction l as [|x l IH]; simpl.
  - tauto.
  - rewrite IH, in_app_iff. intuition (subst; auto).
Qed.

Lemma before_in_firstn (n : nat) (l : list A) (a b : A) :
  before_in (firstn n l) a b -> before_in l a b.
Proof.
  revert n. induction l as [|x l IH]; intros [|n]; simpl; try tauto.
  intros [[-> Hb]|H]; [left; split; [reflexivity | eapply firstn_In, Hb]|].
  right. eapply IH, H.
Qed.

Lemma before_in_map {B : Type} (f : A -> B) (l : list A) (a b : A) :
  before_in l a b -> before_in (map f l) (f a) (f b).
Proof.
  induction l as [|x l IH]; simpl; [tauto|].
  intros [[-> Hb]|H]; [left; split; [reflexivity | apply in_map, Hb] | right; auto].
Qed.

Variable key : A -> nat.

(** The stable sort keeps the order of the elements of equal key. *)
Lemma insert_by_stable (x : A) (ys : list A) (a b : A) :
  key a = key b ->
  before_in (insert_by (fun u v => (key v <? key u)%nat) x ys) a b ->
  before_in (x :: ys) a b.
Proof.
  intros Hkey. induction ys as [|y ys IH]; simpl; [tauto|].
  destruct (key x <? key y)%nat eqn:E; [|simpl; tauto].
  apply Nat.ltb_lt in E. simpl.
  intros [[-> Hb]|H].
  - eapply Permutation_in in Hb; [|apply insert_by_perm].
    destruct Hb as [<-|Hb]; [lia|]. right. left. split; [reflexivity | exact Hb].
  - apply IH in H. simpl in H. tauto.
Qed.

Lemma sorted_by_stable (xs : list A) (a b : A) :
  key a = key b ->
  before_in (sorted_by (fun u v => (key v <? key u)%nat) xs) a b ->
  before_in xs a b.
Proof.
  intros Hkey. induction xs as [|x xs IH]; simpl; [tauto|].
  intros H. apply (insert_by_stable _ _ _ _ Hkey) in H. simpl in H.
  destruct H as [[-> Hb]|H]; [|right; apply IH, H].
  left. split; [reflexivity|].
  eapply Permutation_in; [apply sorted_by_perm | exact Hb].
Qed.

End OrderFacts.

Section Ties.
Import KeywordExtractor.

Lemma count_words_keys (ws : list string) (k : string) :
  In k (map fst (count_words ws)) <-> In k ws.
Proof.
  split.
  - intros Hin. apply in_map_iff in Hin as ([k' n] & <- & Hin).
    apply count_words_entry in Hin as [-> Hpos].
    apply (count_occ_In string_dec). exact Hpos.
  - intros Hin. apply (count_occ_In string_dec) in Hin.
    apply (in_map fst _ (k, count_occ string_dec ws k)).
    apply count_words_entry. split; [reflexivity | exact Hin].
Qed.

Lemma met_before_app_l (ws more : list string) (a b : string) :
  met_before ws a b -> met_before (ws ++ more) a b.
Proof.
  induction ws as [|x ws IH]; simpl; [tauto|].
  intros [->|[Hne H]]; [left; reflexivity | right; split; auto].
Qed.

Lemma met_before_fresh (ws : list string) (a b : string) :
  In a ws -> ~ In b ws -> met_before (ws ++ [b]) a b.
Proof.
  induction ws as [|x ws IH]; simpl; [tauto|].
  intros Ha Hb. destruct (string_dec x a) as [->|Hne]; [left; reflexivity|].
  right. split; [intros ->; apply Hb; left; reflexivity|].
  apply IH; [destruct Ha; [contradiction | assumption] | tauto].
Qed.

(** The dictionary of frequencies lists the words in the order in which
    they are first met. *)
Lemma count_words_order (ws : list string) (a b : string) :
  before_in (map fst (count_words ws)) a b -> met_before ws a b.
Proof.
  induction ws as [|w ws IH] using rev_ind; [simpl; tauto|].
  rewrite count_words_snoc.
  destruct (bump_keys w (count_words ws)) as [->|[Hni ->]].
  - intros H. apply met_before_app_l, IH, H.
  - intros H. apply before_in_app in H as [H|[[Ha Hb]|H]].
    + apply met_before_app_l, IH, H.
    + destruct Hb as [<-|[]]. apply met_before_fresh.
      * apply count_words_keys, Ha.
      * intros Hw. apply Hni, count_words_keys, Hw.
    + simpl in H. tauto.
Qed.

Lemma emitted_order (max_freq : nat) (l : list (string * nat)) (a b : string) :
  before_in
    (map keyword
       (flat_map (fun '(word, freq) =>
                    let score := fdiv freq max_freq in
                    if fgt score 0.05%Q then [mkExtractedKeyword word score] else [])
                 l)) a b ->
  exists na nb, before_in l (a, na) (b, nb).
Proof.
  induction l as [|[word freq] l IH]; simpl; [tauto|].
  destruct (fgt _ _); simpl.
  - intros [[-> Hb]|H].
    + apply in_map_iff in Hb as (kw & <- & Hkw).
      apply emit_spec in Hkw as (n & Hn & _).
      exists freq, n. left. split; [reflexivity | exact Hn].
    + destruct (IH H) as (na & nb & Hab). exists na, nb. right. exact Hab.
  - intros H. destruct (IH H) as (na & nb & Hab). exists na, nb. right. exact Hab.
Qed.

Lemma before_in_both {A : Type} (l : list A) (a b : A) :
  before_in l a b -> In a l /\ In b l.
Proof.
  induction l as [|x l IH]; simpl; [tauto|].
  intros [[-> Hb]|H]; [tauto|]. apply IH in H. tauto.
Qed.

End Ties.

(** X6.  Under the frequency fallback a tie is broken by the order of
    first occurrence: when a keyword is returned before another of the
    same frequency, it is met first when the words of the text are read
    from the start. *)
Theorem frequency_ties_by_first_occurrence
    (self : KeywordExtractor.t) (text : string) (max_features : Z) (a b : string) :
  before_in
    (map keyword (KeywordExtractor._extract_with_frequency self text max_features)) a b ->
  count_occ string_dec (KeywordExtractor.words_of self text) a
  = count_occ string_dec (KeywordExtractor.words_of self text) b ->
  met_before (KeywordExtractor.words_of self text) a b.
Proof.
  unfold KeywordExtractor._extract_with_frequency. cbv zeta.
  set (words := KeywordExtractor.words_of self text).
  intros Hord Htie.
  apply emitted_order in Hord as (na & nb & Hord).
  destruct (slice_to_prefix max_features
              (sorted_by KeywordExtractor.freq_gt (KeywordExtractor.count_words words)))
    as [n Hn].
  rewrite Hn in Hord. apply before_in_firstn in Hord.
  assert (Hentries : In (a, na) (KeywordExtractor.count_words words) /\
                     In (b, nb) (KeywordExtractor.count_words words)).
  { apply before_in_both in Hord as [Ha Hb].
    split; (eapply Permutation_in; [apply sorted_by_perm|]); eassumption. }
  destruct Hentries as [Ha Hb].
  apply count_words_entry in Ha as [Hna _]. apply count_words_entry in Hb as [Hnb _].
  apply (sorted_by_stable snd) in Hord; [|cbn [snd]; congruence].
  apply (before_in_map fst) in Hord. cbn [fst] in Hord.
  apply count_words_order, Hord.
Qed.

Lemma frequency_ties_by_first_occurrence_witness :
  met_before
    (KeywordExtractor.words_of (KeywordExtractor.init None)
       "Gutter and roof; the roof and the gutter.")
    "gutter" "roof".
Proof.
  apply (frequency_ties_by_first_occurrence (KeywordExtractor.init None)
           "Gutter and roof; the roof and the gutter." 25).
  - vm_compute. left. split; [reflexivity | left; reflexivity].
  - vm_compute. reflexivity.
Defined.

(* ================================================================== *)
(** * TrendHarvesterDB: what [get_run_results] returns *)
(* ================================================================== *)

Section SortGeneral.
Context {A : Type}.
Variable before : A -> A -> bool.
Variable R : A -> A -> Prop.
Hypothesis R_trans : forall x y z, R x y -> R y z -> R x z.
Hypothesis before_R : forall x y, before x y = true -> R x y.
Hypothesis not_before_R : forall x y, before y x = false -> R x y.

(** [ORDER BY]: the rows come out in the order of their keys. *)
Lemma sorted_by_ordered (xs : list A) : StronglySorted R (sorted_by before xs).
Proof.
  induction xs as [|x xs IH]; simpl; [constructor|].
  revert IH. generalize (sorted_by before xs) as ys.
  induction ys as [|y ys IHy]; intros Hs; simpl; [repeat constructor|].
  apply StronglySorted_inv in Hs as [Hs Hall].
  destruct (before y x) eqn:E.
  - constructor; [apply IHy, Hs|].
    eapply Permutation_Forall; [symmetry; apply insert_by_perm|].
    constructor; [apply before_R, E | exact Hall].
  - apply not_before_R in E.
    constructor; [constructor; assumption|].
    constructor; [exact E|].
    eapply List.Forall_impl; [|exact Hall].
    intros z Hz. simpl in Hz. eapply R_trans; eassumption.
Qed.

End SortGeneral.

Section Results.
Import TrendHarvesterDB.

Lemma string_lt_le (s1 s2 : string) : String.ltb s1 s2 = true -> String.le s1 s2.
Proof.
  unfold String.ltb, String.le, String.leb.
  destruct (String.compare s1 s2); simpl; intros H; try discriminate H; exact I.
Qed.

Lemma string_not_lt_le (s1 s2 : string) : String.ltb s2 s1 = false -> String.le s1 s2.
Proof.
  unfold String.ltb, String.le, String.leb. rewrite (String.compare_antisym s2 s1).
  destruct (String.compare s1 s2); simpl; intros H; try discriminate H; exact I.
Qed.

Lemma string_le_trans (s1 s2 s3 : string) :
  String.le s1 s2 -> String.le s2 s3 -> String.le s1 s3.
Proof. intros H1 H2. etransitivity; eassumption. Qed.

(** The rows that a query selects, sorts and limits are rows of the
    table that pass the filter, at most as many as the limit. *)
Lemma query_rows {A : Type} (limit : nat) (before : A -> A -> bool)
    (keep : A -> bool) (table : list A) :
  (length (firstn limit (sorted_by before (List.filter keep table))) <= limit)%nat /\
  Forall (fun row => In row table /\ keep row = true)
         (firstn limit (sorted_by before (List.filter keep table))).
Proof.
  split; [rewrite length_firstn; lia|].
  apply List.Forall_forall. intros row Hrow. apply firstn_In in Hrow.
  eapply Permutation_in in Hrow; [|apply sorted_by_perm].
  apply filter_In in Hrow. exact Hrow.
Qed.

End Results.

(** X7.  What [get_run_results] returns for a run holds rows of that
    run only, each taken from its table: at most 10 keywords in
    descending order of score, all the interest points of the run in
    ascending order of date, at most 10 related queries, all of type
    [rising], in descending order of value, at most 15 videos in
    descending order of views and at most 25 articles from the latest
    to the earliest. *)
Theorem get_run_results_rows
    (run_id : Z) (d : TrendHarvesterDB.DB) (res : TrendHarvesterDB.results) :
  TrendHarvesterDB.get_run_results run_id d = Ok (Some res) ->
  (TrendHarvesterDB.id (TrendHarvesterDB.res_run res) = run_id /\
   In (TrendHarvesterDB.res_run res) (TrendHarvesterDB.runs d)) /\
  ((length (TrendHarvesterDB.res_keywords res) <= 10)%nat /\
   Forall (fun k => In k (TrendHarvesterDB.page_keywords d) /\
                    TrendHarvesterDB.pk_run_id k = run_id)
          (TrendHarvesterDB.res_keywords res) /\
   StronglySorted (fun a b => (TrendHarvesterDB.pk_score b <= TrendHarvesterDB.pk_score a)%Q)
                  (TrendHarvesterDB.res_keywords res)) /\
  (Permutation (TrendHarvesterDB.res_trends_interest res)
               (List.filter (fun t => TrendHarvesterDB.ti_run_id t =? run_id)
                            (TrendHarvesterDB.trends_interest d)) /\
   StronglySorted (fun a b => String.le (TrendHarvesterDB.ti_date a)
                                        (TrendHarvesterDB.ti_date b))
                  (TrendHarvesterDB.res_trends_interest res)) /\
  ((length (TrendHarvesterDB.res_related_queries res) <= 10)%nat /\
   Forall (fun q => In q (TrendHarvesterDB.trends_related_queries d) /\
                    TrendHarvesterDB.rq_run_id q = run_id /\
                    TrendHarvesterDB.rq_type q = "rising")
          (TrendHarvesterDB.res_related_queries res) /\
   StronglySorted (fun a b => TrendHarvesterDB.rq_value b <= TrendHarvesterDB.rq_value a)
                  (TrendHarvesterDB.res_related_queries res)) /\
  ((length (TrendHarvesterDB.res_youtube_videos res) <= 15)%nat /\
   Forall (fun v => In v (TrendHarvesterDB.youtube_videos d) /\
                    TrendHarvesterDB.yt_run_id v = run_id)
          (TrendHarvesterDB.res_youtube_videos res) /\
   StronglySorted (fun a b => TrendHarvesterDB.yt_view_count b
                              <= TrendHarvesterDB.yt_view_count a)
                  (TrendHarvesterDB.res_youtube_videos res)) /\
  ((length (TrendHarvesterDB.res_news_articles res) <= 25)%nat /\
   Forall (fun n => In n (TrendHarvesterDB.news_articles d) /\
                    TrendHarvesterDB.na_run_id n = run_id)
          (TrendHarvesterDB.res_news_articles res) /\
   StronglySorted (fun a b => String.le (TrendHarvesterDB.na_published_at b)
                                        (TrendHarvesterDB.na_published_at a))
                  (TrendHarvesterDB.res_news_articles res)).
Proof.
  intros Hres. apply get_run_results_ok in Hres. revert Hres.
  unfold TrendHarvesterDB.run_results_of.
  destruct (TrendHarvesterDB.select_run run_id d) as [r|] eqn:Hr; [|discriminate].
  cbv zeta. intros [= ->]. cbn [TrendHarvesterDB.res_run TrendHarvesterDB.res_keywords
    TrendHarvesterDB.res_trends_interest TrendHarvesterDB.res_related_queries
    TrendHarvesterDB.res_youtube_videos TrendHarvesterDB.res_news_articles].
  split.
  { split; [eapply select_run_id, Hr|].
    unfold TrendHarvesterDB.select_run in Hr. apply find_some in Hr. tauto. }
  split.
  { match goal with |- context [firstn ?n (sorted_by ?b (List.filter ?k ?t))] =>
      destruct (query_rows n b k t) as [Hlen Hrows] end.
    split; [exact Hlen|]. split.
    - eapply List.Forall_impl; [|exact Hrows]. intros k [Hin Hk]. simpl in Hk.
      split; [exact Hin | apply Z.eqb_eq, Hk].
    - apply firstn_sorted, (sorted_by_score_sorted TrendHarvesterDB.pk_score). }
  split.
  { split; [apply sorted_by_perm|].
    apply sorted_by_ordered.
    - intros x y z. apply string_le_trans.
    - intros x y. apply string_lt_le.
    - intros x y. apply string_not_lt_le. }
  split.
  { match goal with |- context [firstn ?n (sorted_by ?b (List.filter ?k ?t))] =>
      destruct (query_rows n b k t) as [Hlen Hrows] end.
    split; [exact Hlen|]. split.
    - eapply List.Forall_impl; [|exact Hrows]. intros q [Hin Hq]. simpl in Hq.
      apply andb_true_iff in Hq as [Hq1 Hq2].
      split; [exact Hin|]. split; [apply Z.eqb_eq, Hq1 | apply String.eqb_eq, Hq2].
    - apply firstn_sorted, sorted_by_ordered.
      + intros x y z. lia.
      + intros x y H. apply Z.ltb_lt in H. lia.
      + intros x y H. apply Z.ltb_ge in H. lia. }
  split.
  { match goal with |- context [firstn ?n (sorted_by ?b (List.filter ?k ?t))] =>
      destruct (query_rows n b k t) as [Hlen Hrows] end.
    split; [exact Hlen|]. split.
    - eapply List.Forall_impl; [|exact Hrows]. intros v [Hin Hv]. simpl in Hv.
      split; [exact Hin | apply Z.eqb_eq, Hv].
    - apply firstn_sorted, sorted_by_ordered.
      + intros x y z. lia.
      + intros x y H. apply Z.ltb_lt in H. lia.
      + intros x y H. apply Z.ltb_ge in H. lia. }
  match goal with |- context [firstn ?n (sorted_by ?b (List.filter ?k ?t))] =>
    destruct (query_rows n b k t) as [Hlen Hrows] end.
  split; [exact Hlen|]. split.
  - eapply List.Forall_impl; [|exact Hrows]. intros v [Hin Hv]. simpl in Hv.
    split; [exact Hin | apply Z.eqb_eq, Hv].
  - apply firstn_sorted, sorted_by_ordered.
    + intros x y z H1 H2. eapply string_le_trans; eassumption.
    + intros x y. apply string_lt_le.
    + intros x y. apply string_not_lt_le.
Qed.

Lemma get_run_results_rows_witness :
  exists res,
    TrendHarvesterDB.get_run_results 1 offline_store = Ok (Some res) /\
    (length (TrendHarvesterDB.res_keywords res) <= 10)%nat.
Proof.
  destruct (TrendHarvesterDB.get_run_results 1 offline_store) as [[res|]|] eqn:H;
    [|vm_compute in H; discriminate H | vm_compute in H; discriminate H].
  exists res. split; [reflexivity|].
  apply (get_run_results_rows 1 offline_store res H).
Defined.

(* ================================================================== *)
(** * The grouping of the interest points *)
(* ================================================================== *)

Section Grouping.
Import TrendHarvesterDB TrendApi.

Lemma lookup_group_add (k keyword : string) (point : string * Z)
    (grouped : list (string * list (string * Z))) :
  CategoryResolver.lookup k (group_add keyword point grouped) =
  if String.eqb keyword k
  then Some (match CategoryResolver.lookup k grouped with
             | Some points => points
             | None => []
             end ++ [point])
  else CategoryResolver.lookup k grouped.
Proof.
  induction grouped as [|[k' points] grouped IH]; simpl.
  - destruct (String.eqb keyword k); reflexivity.
  - destruct (String.eqb k' keyword) eqn:E1; simpl.
    + apply String.eqb_eq in E1. subst k'.
      destruct (String.eqb keyword k); reflexivity.
    + rewrite IH. destruct (String.eqb k' k) eqn:E2; [|reflexivity].
      apply String.eqb_eq in E2. subst k'.
      rewrite String.eqb_sym, E1. reflexivity.
Qed.

Lemma group_add_keys (keyword : string) (point : string * Z)
    (grouped : list (string * list (string * Z))) :
  List.NoDup (map fst grouped) -> List.NoDup (map fst (group_add keyword point grouped)).
Proof.
  induction grouped as [|[k points] grouped IH]; simpl.
  - intros _. constructor; [intros [] | constructor].
  - intros Hnd. inversion Hnd as [|? ? Hni Hnd']; subst.
    destruct (String.eqb k keyword) eqn:E; simpl; [exact Hnd|].
    constructor; [|apply IH, Hnd'].
    intros Hin. apply Hni. clear -Hin E. apply String.eqb_neq in E.
    induction grouped as [|[k' p'] grouped IHg]; simpl in *.
    + destruct Hin as [H|[]]. congruence.
    + destruct (String.eqb k' keyword); simpl in Hin; [exact Hin|].
      destruct Hin as [H|H]; [left; exact H | right; apply IHg, H].
Qed.

Lemma group_snoc (rows : list trends_interest_row) (row : trends_interest_row) :
  _group_trends_by_keyword (rows ++ [row]) =
  group_add (ti_keyword row) (ti_date row, ti_interest row)
            (_group_trends_by_keyword rows).
Proof. unfold _group_trends_by_keyword. rewrite fold_left_app. reflexivity. Qed.

End Grouping.

(** X8.  [_group_trends_by_keyword] loses no point and mixes none:
    each keyword has one entry, an entry lists the points (date and
    interest) of the rows of its keyword in the order of the rows, and
    a keyword without rows has no entry. *)
Theorem group_trends_by_keyword_points
    (trends_data : list TrendHarvesterDB.trends_interest_row) (k : string) :
  List.NoDup (map fst (TrendApi._group_trends_by_keyword trends_data)) /\
  CategoryResolver.lookup k (TrendApi._group_trends_by_keyword trends_data) =
  match List.filter (fun t => String.eqb (TrendHarvesterDB.ti_keyword t) k) trends_data with
  | [] => None
  | rows => Some (map (fun t => (TrendHarvesterDB.ti_date t,
                                 TrendHarvesterDB.ti_interest t)) rows)
  end.
Proof.
  induction trends_data as [|row rows [IHnd IH]] using rev_ind.
  - split; [constructor | reflexivity].
  - rewrite group_snoc. split; [apply group_add_keys, IHnd|].
    rewrite lookup_group_add, IH, List.filter_app. cbn [List.filter].
    destruct (String.eqb (TrendHarvesterDB.ti_keyword row) k).
    + destruct (List.filter _ rows) as [|r rs]; cbn [app map]; [reflexivity|].
      rewrite map_app. reflexivity.
    + rewrite app_nil_r. reflexivity.
Qed.

(* ================================================================== *)
(** * TrendHarvesterDB: keys and updates *)
(* ================================================================== *)

Section Keys.
Import TrendHarvesterDB.

Lemma fold_max_bound (base m : Z) (ids : list Z) :
  base <= m -> Forall (fun i => i <= m) ids -> fold_right Z.max base ids <= m.
Proof.
  intros Hb. induction 1 as [|i ids Hi _ IH]; simpl; lia.
Qed.

Lemma next_run_id_after_create (url : string) (now : Z) (d : DB) :
  next_run_id (create_run url now d).2 = (create_run url now d).1 + 1.
Proof.
  cbn [create_run fst snd]. unfold next_run_id at 1. cbn [runs runs_seq].
  set (n := next_run_id d).
  assert (Hpos : 0 < n).
  { unfold n, next_run_id.
    pose proof (fold_max_above (Z.max 0 (runs_seq d)) (map id (runs d))) as [H _]. lia. }
  assert (Hle : fold_right Z.max (Z.max 0 n) (map id (runs d ++ [mkRun n (VStr url)
                  VNone VNone VNone (VTime now) VNone (VStr "running") VNone])) <= n).
  { apply fold_max_bound; [lia|]. rewrite map_app. apply Forall_app. split.
    - apply List.Forall_forall. intros i Hi. apply in_map_iff in Hi as (r & <- & Hr).
      pose proof (next_run_id_above d) as Hall.
      eapply List.Forall_forall in Hall; [|exact Hr]. simpl in Hall. unfold n. lia.
    - repeat constructor. simpl. lia. }
  pose proof (fold_max_above (Z.max 0 n)
                (map id (runs d ++ [mkRun n (VStr url) VNone VNone VNone (VTime now)
                                      VNone (VStr "running") VNone]))) as [Hge _].
  lia.
Qed.

End Keys.

(** X9.  [create_run] gives the new run a key that is positive, above
    every key in the table and above the largest key ever given; the
    run can be read back under it as [running], with its URL and start
    time and nothing else set; the other runs read as before; and the
    next run created gets the next key. *)
Theorem create_run_fresh_key (url : string) (now : Z) (d : TrendHarvesterDB.DB) :
  let run_id := (TrendHarvesterDB.create_run url now d).1 in
  let d' := (TrendHarvesterDB.create_run url now d).2 in
  0 < run_id /\ TrendHarvesterDB.runs_seq d < run_id /\
  Forall (fun r => TrendHarvesterDB.id r < run_id) (TrendHarvesterDB.runs d) /\
  TrendHarvesterDB.select_run run_id d = None /\
  TrendHarvesterDB.select_run run_id d'
  = Some (TrendHarvesterDB.mkRun run_id (VStr url) VNone VNone VNone (VTime now)
            VNone (VStr "running") VNone) /\
  (forall other, other <> run_id ->
     TrendHarvesterDB.select_run other d' = TrendHarvesterDB.select_run other d) /\
  (forall url' now', (TrendHarvesterDB.create_run url' now' d').1 = run_id + 1).
Proof.
  cbv zeta.
  assert (Hbase : Z.max 0 (TrendHarvesterDB.runs_seq d)
                  < (TrendHarvesterDB.create_run url now d).1).
  { cbn [TrendHarvesterDB.create_run fst]. unfold TrendHarvesterDB.next_run_id.
    pose proof (fold_max_above (Z.max 0 (TrendHarvesterDB.runs_seq d))
                  (map TrendHarvesterDB.id (TrendHarvesterDB.runs d))) as [H _]. lia. }
  split; [lia|]. split; [lia|].
  split; [apply next_run_id_above|].
  split; [apply select_run_fresh|].
  split; [apply select_run_created|].
  split.
  - intros other Hne.
    cbn [TrendHarvesterDB.create_run fst snd] in *.
    unfold TrendHarvesterDB.select_run. cbn [TrendHarvesterDB.runs].
    rewrite find_app.
    destruct (find _ (TrendHarvesterDB.runs d)); [reflexivity|].
    cbn [find TrendHarvesterDB.id].
    destruct (TrendHarvesterDB.next_run_id d =? other) eqn:E;
      [apply Z.eqb_eq in E; congruence | reflexivity].
  - intros url' now'.
    change (TrendHarvesterDB.create_run url' now' (TrendHarvesterDB.create_run url now d).2).1
      with (TrendHarvesterDB.next_run_id (TrendHarvesterDB.create_run url now d).2).
    apply next_run_id_after_create.
Qed.

Lemma create_run_fresh_key_witness :
  TrendHarvesterDB.select_run 5
    (TrendHarvesterDB.create_run "https://example.com" 0 offline_store).2
  = TrendHarvesterDB.select_run 5 offline_store.
Proof.
  apply (create_run_fresh_key "https://example.com" 0 offline_store).
  vm_compute. discriminate.
Defined.

Section UpdateFields.
Import TrendHarvesterDB.








End UpdateFields.



(* ================================================================== *)
(** * What a run leaves of the store *)
(* ================================================================== *)

Section Steps.
Import TrendHarvesterDB.

Variable R : DB -> DB -> Prop.
Hypothesis R_refl : forall d, R d d.
Hypothesis R_trans : forall d1 d2 d3, R d1 d2 -> R d2 d3 -> R d1 d3.

Lemma steps_ret {A : Type} (a : A) : steps R (ret a).
Proof. intros s. apply R_refl. Qed.

Lemma steps_raise {A : Type} (msg : string) : steps R (@raise A msg).
Proof. intros s. apply R_refl. Qed.

Lemma steps_lift {A : Type} (r : result A) : steps R (lift r).
Proof. intros s. apply R_refl. Qed.

Lemma steps_bind {A B : Type} (m : M A) (k : A -> M B) :
  steps R m -> (forall a, steps R (k a)) -> steps R (bind m k).
Proof.
  intros Hm Hk s. unfold bind. specialize (Hm s).
  destruct (m s) as [[a|msg] s1]; cbn [snd] in *; [|exact Hm].
  eapply R_trans; [exact Hm | apply Hk].
Qed.

Lemma steps_try_catch {A : Type} (body : M A) (handler : string -> M A) :
  steps R body -> (forall msg, steps R (handler msg)) -> steps R (try_catch body handler).
Proof.
  intros Hb Hh s. unfold try_catch. specialize (Hb s).
  destruct (body s) as [[a|msg] s1]; cbn [snd] in *; [exact Hb|].
  eapply R_trans; [exact Hb | apply Hh].
Qed.

Lemma steps_commit (f : DB -> DB) : (forall d, R d (f d)) -> steps R (commit f).
Proof. intros Hf s. apply Hf. Qed.

Lemma steps_for_each {A : Type} (xs : list A) (body : A -> M unit) :
  (forall x, steps R (body x)) -> steps R (for_each xs body).
Proof.
  intros Hb. induction xs as [|x xs IH]; simpl.
  - apply steps_ret.
  - apply steps_bind; [apply Hb | intros _; exact IH].
Qed.

Lemma steps_store (w : World) (c : store_call) (f : DB -> DB) :
  (forall d, R d (f d)) -> steps R (TrendHarvester.store w c f).
Proof.
  intros Hf. unfold TrendHarvester.store. destruct (w_fault w c).
  - apply steps_raise.
  - apply steps_commit, Hf.
Qed.

End Steps.

Section Evolves.
Import TrendHarvesterDB TrendHarvester.

Variable run_id : Z.

Lemma row_kept_refl (r : run) : row_kept run_id r r.
Proof. split; [apply same_fixed_refl | reflexivity]. Qed.

Lemma row_kept_trans (r1 r2 r3 : run) :
  row_kept run_id r1 r2 -> row_kept run_id r2 r3 -> row_kept run_id r1 r3.
Proof.
  intros [Hf1 He1] [Hf2 He2]. split; [eapply same_fixed_trans; eassumption|].
  intros Hne. rewrite <- (He1 Hne). apply He2.
  destruct Hf1 as (-> & _). exact Hne.
Qed.

Lemma rows_kept_refl (rs : list run) : Forall2 (row_kept run_id) rs rs.
Proof. induction rs; constructor; [apply row_kept_refl | assumption]. Qed.

Lemma rows_kept_trans (l1 l2 l3 : list run) :
  Forall2 (row_kept run_id) l1 l2 -> Forall2 (row_kept run_id) l2 l3 ->
  Forall2 (row_kept run_id) l1 l3.
Proof.
  intros H12. revert l3. induction H12 as [|r1 r2 l1 l2 Hr H12 IH]; intros l3 H23.
  - inversion H23. constructor.
  - inversion H23 as [|? r3 ? l3' Hr' H23']; subst.
    constructor; [eapply row_kept_trans; eassumption | apply IH, H23'].
Qed.

Lemma evolves_refl (d : DB) : evolves run_id d d.
Proof.
  split; [apply rows_kept_refl|]. split; [reflexivity|].
  repeat split; try (exists []; rewrite app_nil_r; split; [reflexivity | constructor]).
Qed.

Lemma evolves_trans (d1 d2 d3 : DB) :
  evolves run_id d1 d2 -> evolves run_id d2 d3 -> evolves run_id d1 d3.
Proof.
  intros (Hr1 & Hs1 & (k1 & Hk1 & Fk1) & (i1 & Hi1 & Fi1) & (q1 & Hq1 & Fq1) & Hy1 & Hn1)
         (Hr2 & Hs2 & (k2 & Hk2 & Fk2) & (i2 & Hi2 & Fi2) & (q2 & Hq2 & Fq2) & Hy2 & Hn2).
  split; [eapply rows_kept_trans; eassumption|]. split; [congruence|].
  split; [exists (k1 ++ k2); split;
          [rewrite Hk2, Hk1, app_assoc; reflexivity
          | apply List.Forall_app; split; assumption]|].
  split; [exists (i1 ++ i2); split;
          [rewrite Hi2, Hi1, app_assoc; reflexivity
          | apply List.Forall_app; split; assumption]|].
  split; [exists (q1 ++ q2); split;
          [rewrite Hq2, Hq1, app_assoc; reflexivity
          | apply List.Forall_app; split; assumption]|].
  split; congruence.
Qed.

Lemma evolves_update_run (kwargs : list (string * value)) (d : DB) :
  evolves run_id d (update_run run_id kwargs d).
Proof.
  destruct (update_run_frame run_id kwargs d) as (_ & Hs & Hk & Hi & Hq & Hy & Hn).
  split.
  - rewrite update_run_unfold. pose proof (filter_mutable_all kwargs) as Hall.
    destruct (List.filter _ kwargs) as [|kv fields]; [apply rows_kept_refl|].
    unfold sql_update_runs, with_runs. cbn [runs].
    induction (runs d) as [|r rs IH]; cbn [map]; constructor; [|exact IH].
    destruct (id r =? run_id) eqn:E; [|apply row_kept_refl].
    split; [apply assignments_same_fixed, Hall|].
    apply Z.eqb_eq in E. intros Hne. contradiction.
  - split; [exact Hs|].
    split; [exists []; rewrite app_nil_r; split; [exact Hk | constructor]|].
    split; [exists []; rewrite app_nil_r; split; [exact Hi | constructor]|].
    split; [exists []; rewrite app_nil_r; split; [exact Hq | constructor]|].
    split; assumption.
Qed.

Lemma evolves_save_keywords (keywords : list ExtractedKeyword) (d : DB) :
  evolves run_id d (save_keywords run_id keywords d).
Proof.
  split; [apply rows_kept_refl|]. split; [reflexivity|].
  split.
  { eexists; split; [reflexivity|]. apply List.Forall_forall. intros k Hk.
    apply in_map_iff in Hk as (kw & <- & _). reflexivity. }
  repeat split; try (exists []; rewrite app_nil_r; split; [reflexivity | constructor]).
Qed.

(** The rows of [interest_rows] carry the key of the run and a keyword
    of the batch. *)
Lemma interest_rows_spec (batch : list string)
    (interest_data : list (string * list (string * Z))) :
  Forall (fun t => ti_run_id t = run_id /\ In (ti_keyword t) batch)
         (interest_rows run_id batch interest_data).
Proof.
  apply List.Forall_forall. intros t Ht. unfold interest_rows in Ht.
  apply in_flat_map in Ht as ([date row] & _ & Ht).
  apply in_flat_map in Ht as (kw & Hkw & Ht).
  destruct (CategoryResolver.lookup kw row); [|contradiction].
  destruct Ht as [<-|[]]. split; [reflexivity | exact Hkw].
Qed.

(** The rows of [related_rows] carry the key of the run, the type
    [rising] and a keyword of the answer. *)
Lemma related_rows_spec (related : list (string * option (list (string * Z)))) :
  Forall (fun q => rq_run_id q = run_id /\ rq_type q = "rising" /\
                   In (rq_base_keyword q) (map fst related))
         (related_rows run_id related).
Proof.
  apply List.Forall_forall. intros q Hq. unfold related_rows in Hq.
  apply in_flat_map in Hq as ([kw data] & Hin & Hq).
  destruct data as [rising|]; [|contradiction].
  apply in_map_iff in Hq as ([query v] & <- & _).
  split; [reflexivity|]. split; [reflexivity|].
  cbn [rq_base_keyword]. apply in_map_iff. exists (kw, Some rising). split; [reflexivity | exact Hin].
Qed.

Lemma evolves_insert_interest (batch : list string)
    (interest_data : list (string * list (string * Z))) (d : DB) :
  evolves run_id d (insert_interest (interest_rows run_id batch interest_data) d).
Proof.
  split; [apply rows_kept_refl|]. split; [reflexivity|].
  split; [exists []; rewrite app_nil_r; split; [reflexivity | constructor]|].
  split.
  { eexists; split; [reflexivity|].
    eapply List.Forall_impl; [|apply interest_rows_spec]. intros t [H _]. exact H. }
  repeat split; try (exists []; rewrite app_nil_r; split; [reflexivity | constructor]).
Qed.

Lemma evolves_insert_related
    (related : list (string * option (list (string * Z)))) (d : DB) :
  evolves run_id d (insert_related (related_rows run_id related) d).
Proof.
  split; [apply rows_kept_refl|]. split; [reflexivity|].
  split; [exists []; rewrite app_nil_r; split; [reflexivity | constructor]|].
  split; [exists []; rewrite app_nil_r; split; [reflexivity | constructor]|].
  split.
  { eexists; split; [reflexivity|].
    eapply List.Forall_impl; [|apply related_rows_spec]. intros t [H _]. exact H. }
  split; reflexivity.
Qed.

Lemma analyze_trends_evolves (w : World) (keywords : list string) (category_id : Z) :
  steps (evolves run_id) (_analyze_trends w run_id keywords category_id).
Proof.
  pose proof evolves_refl as Hrefl. pose proof evolves_trans as Htrans.
  unfold _analyze_trends. destruct (negb (w_pytrends w)); [apply steps_ret, Hrefl|].
  apply steps_try_catch; [exact Htrans | | intros; apply steps_ret, Hrefl].
  apply steps_for_each; [exact Hrefl | exact Htrans |]. intros [i batch].
  apply steps_try_catch; [exact Htrans | | intros; apply steps_ret, Hrefl].
  unfold process_batch.
  apply steps_bind; [exact Htrans | apply steps_lift, Hrefl | intros data].
  apply steps_bind; [exact Htrans | |].
  - destruct (frame_empty data); [apply steps_ret, Hrefl|].
    apply steps_commit. intros d. apply evolves_insert_interest.
  - intros _. apply steps_bind; [exact Htrans | apply steps_lift, Hrefl | intros rel].
    apply steps_commit. intros d. apply evolves_insert_related.
Qed.

Lemma run_analysis_body_evolves (w : World) (url : string) :
  steps (evolves run_id) (run_analysis_body w url run_id).
Proof.
  pose proof evolves_refl as Hrefl. pose proof evolves_trans as Htrans.
  unfold run_analysis_body.
  apply steps_bind; [exact Htrans | apply steps_lift, Hrefl | intros content].
  destruct (Text.is_empty content).
  { apply steps_bind; [exact Htrans | | intros; apply steps_ret, Hrefl].
    apply steps_store; [exact Hrefl|]. intros d. apply evolves_update_run. }
  destruct (KeywordExtractor.extract_keywords _ _ _ content 25) as [|kw kws].
  { apply steps_bind; [exact Htrans | | intros; apply steps_ret, Hrefl].
    apply steps_store; [exact Hrefl|]. intros d. apply evolves_update_run. }
  apply steps_bind; [exact Htrans | |].
  { apply steps_store; [exact Hrefl|]. intros d. apply evolves_save_keywords. }
  intros _.
  destruct (CategoryResolver.resolve_trends_category _ _)
    as [[category_name trends_id] confidence].
  apply steps_bind; [exact Htrans | |].
  { apply steps_store; [exact Hrefl|]. intros d. apply evolves_update_run. }
  intros _. apply steps_bind; [exact Htrans | |].
  { destruct (w_pytrends w); [apply analyze_trends_evolves | apply steps_ret, Hrefl]. }
  intros _. apply steps_bind; [exact Htrans | |].
  { destruct (is_set (w_youtube_api_key w)); apply steps_ret, Hrefl. }
  intros _. apply steps_bind; [exact Htrans | |].
  { destruct (is_set (w_serpapi_key w) || is_set (w_gnews_api_key w));
      apply steps_ret, Hrefl. }
  intros _. apply steps_bind; [exact Htrans | | intros; apply steps_ret, Hrefl].
  apply steps_store; [exact Hrefl|]. intros d. apply evolves_update_run.
Qed.

End Evolves.

Section Appends.
Import TrendHarvesterDB TrendHarvester.

Lemma rows_kept_others (run_id : Z) (rs rs' : list run) :
  Forall (fun r => id r <> run_id) rs -> Forall2 (row_kept run_id) rs rs' -> rs' = rs.
Proof.
  intros Hall H. induction H as [|r r' rs rs' [_ Hr] _ IH]; [reflexivity|].
  inversion Hall as [|? ? Hne Hall']; subst.
  rewrite (Hr Hne), (IH Hall'). reflexivity.
Qed.

(** The store after [run_analysis], against the store in which
    [create_run] has put the run. *)
Lemma run_analysis_evolves (w : World) (url : string) (s : Sys) :
  w_fault w CreateRun = None ->
  evolves (create_run url (w_now w 1) (db s)).1
          (create_run url (w_now w 1) (db s)).2
          (db (run_analysis w url s).2).
Proof.
  intros Hcreated. unfold run_analysis, bind at 1, new_run. rewrite Hcreated.
  set (run_id := (create_run url (w_now w 1) (db s)).1) in *.
  set (d0 := (create_run url (w_now w 1) (db s)).2) in *.
  change (create_run url (w_now w 1) (db s)) with (run_id, d0).
  cbv iota beta.
  assert (Hsteps : steps (evolves run_id)
            (try_catch (run_analysis_body w url run_id)
               (fun e => bind (store w MarkFailed
                                 (update_run run_id
                                    [("status", VStr "failed"); ("notes", VStr e)]))
                              (fun _ => ret run_id)))).
  { apply steps_try_catch;
      [apply evolves_trans | apply run_analysis_body_evolves |].
    intros msg. apply steps_bind; [apply evolves_trans | |].
    - apply steps_store; [apply evolves_refl|]. intros d. apply evolves_update_run.
    - intros _. apply steps_ret, evolves_refl. }
  exact (Hsteps (mkSys d0 (d0 :: journal s))).
Qed.

(** When [create_run] raises, the exception leaves [run_analysis] and
    the store is as it was. *)
Lemma run_analysis_not_created (w : World) (url : string) (s : Sys) (msg : string) :
  w_fault w CreateRun = Some msg -> run_analysis w url s = (Raise msg, s).
Proof.
  intros Hfault. unfold run_analysis, bind, new_run. rewrite Hfault. reflexivity.
Qed.

End Appends.

(** After [create_run] the table of runs is the table before and one
    more row, however [run_analysis] ends; the other tables have at
    most been added to. *)
Lemma run_analysis_appends (w : World) (url : string) (s : Sys) :
  w_fault w CreateRun = None ->
  exists r s' row,
    TrendHarvester.run_analysis w url s = (r, s') /\
    run_added url (w_now w 1) row (db s) (db s') /\
    TrendHarvesterDB.id row = TrendHarvesterDB.next_run_id (db s) /\
    (forall run_id, r = Ok run_id -> run_id = TrendHarvesterDB.id row).
Proof.
  intros Hcreated.
  destruct (run_analysis_outcome w url Hcreated s) as (r & s' & running & Hrun & Hcases).
  pose proof (run_analysis_evolves w url s Hcreated) as Hev.
  rewrite Hrun in Hev. cbn [snd] in Hev.
  destruct Hev as (Hrows & Hseq & Hk & Hi & Hq & Hy & Hn).
  cbn [TrendHarvesterDB.create_run fst snd TrendHarvesterDB.runs
       TrendHarvesterDB.runs_seq TrendHarvesterDB.page_keywords
       TrendHarvesterDB.trends_interest TrendHarvesterDB.trends_related_queries
       TrendHarvesterDB.youtube_videos TrendHarvesterDB.news_articles]
    in Hrows, Hseq, Hk, Hi, Hq, Hy, Hn, Hcases.
  apply Forall2_app_inv_l in Hrows as (old & new & Hold & Hnew & Heq).
  apply rows_kept_others in Hold.
  2:{ eapply List.Forall_impl; [|apply next_run_id_above]. intros r0 Hr. simpl in Hr. lia. }
  subst old.
  inversion Hnew as [|r0 row ? tl [Hfixed _] Htl]; subst. inversion Htl; subst.
  destruct Hfixed as (Hid & Hurl & Hst). cbn in Hid, Hurl, Hst.
  exists r, s', row. split; [exact Hrun|].
  split.
  { unfold run_added. rewrite Hid.
    split; [apply select_run_fresh|]. repeat split; assumption. }
  split; [exact Hid|].
  intros run_id Hr. rewrite Hid.
  destruct Hcases as [(Hok & _)|(msg & Hraise & _)]; [|congruence].
  congruence.
Qed.

(** X11.  [run_analysis] only adds to the store.  When [create_run]
    raises, the exception leaves [run_analysis] and the store is as it
    was.  Otherwise, however [run_analysis] ends, the table of runs
    afterwards is the table before followed by one row, that of the
    new run, whose key was the key of no run before, with the URL and
    the start time given at its creation; the rows of the runs that
    were there are untouched.  The tables of keywords, interest points
    and related queries keep their rows and may have more, all of them
    rows of the new run; the tables of videos and articles are not
    written to.  An id that [run_analysis] returns is the key of the
    new run. *)
Theorem run_analysis_only_appends (w : World) (url : string) (s : Sys) :
  match w_fault w CreateRun with
  | Some msg => TrendHarvester.run_analysis w url s = (Raise msg, s)
  | None =>
      exists r s' row,
        TrendHarvester.run_analysis w url s = (r, s') /\
        run_added url (w_now w 1) row (db s) (db s') /\
        (forall run_id, r = Ok run_id -> run_id = TrendHarvesterDB.id row)
  end.
Proof.
  destruct (w_fault w CreateRun) as [msg|] eqn:Hcreated.
  - apply run_analysis_not_created, Hcreated.
  - destruct (run_analysis_appends w url s Hcreated) as (r & s' & row & Hrun & Hadd & _ & Hid).
    exists r, s', row. split; [exact Hrun|]. split; [exact Hadd | exact Hid].
Qed.

(* ================================================================== *)
(** * The category of best overlap *)
(* ================================================================== *)

Section BestOverlap.
Import Text CategoryResolver.

Variable text_lower : string.

Lemma overlap_step_score (b : best) (name : string) (cid : Z) :
  (0 <= best_score b)%Q ->
  overlap_step text_lower b (name, cid) =
  if fgt (overlap_score text_lower name) (best_score b)
  then mkBest (Some name) (overlap_score text_lower name) cid
  else b.
Proof.
  intros Hb. unfold overlap_step, overlap_score. cbv zeta.
  destruct (0 <? size (words_set text_lower ∩ words_set (lower name)))%nat; [reflexivity|].
  destruct (fgt 0%Q (best_score b)) eqn:E; [|reflexivity].
  apply fgt_lt in E. exfalso. eapply Qlt_not_le; eassumption.
Qed.

Lemma overlap_score_empty_name : overlap_score text_lower "" = 0%Q.
Proof.
  unfold overlap_score. cbv zeta.
  assert (H : size (words_set text_lower ∩ words_set (lower "")) = 0%nat).
  { pose proof (subseteq_size (words_set text_lower ∩ words_set (lower ""))
                              (words_set (lower ""))
                              (intersection_subseteq_r _ _)) as Hle.
    change (words_set (lower "")) with (∅ : gset string) in Hle at 2.
    rewrite size_empty in Hle. lia. }
  rewrite H. reflexivity.
Qed.

Lemma best_of_fold (cats seen : list (string * Z)) (b : best) :
  best_of text_lower seen b ->
  best_of text_lower (seen ++ cats) (fold_left (overlap_step text_lower) cats b).
Proof.
  revert seen b. induction cats as [|[name cid] cats IH]; intros seen b Hb.
  - rewrite app_nil_r. exact Hb.
  - cbn [fold_left].
    replace (seen ++ (name, cid) :: cats) with ((seen ++ [(name, cid)]) ++ cats)
      by (rewrite <- app_assoc; reflexivity).
    apply IH. destruct Hb as (Hpos & Hmax & Hfrom).
    rewrite overlap_step_score by exact Hpos.
    destruct (fgt (overlap_score text_lower name) (best_score b)) eqn:E.
    + apply fgt_lt in E. cbn [best_score best_match best_id].
      split; [apply Qlt_le_weak; eapply Qle_lt_trans; eassumption|].
      split.
      * intros c Hc. apply in_app_or in Hc as [Hc|[<-|[]]].
        -- eapply Qle_trans; [apply Hmax, Hc | apply Qlt_le_weak, E].
        -- apply Qle_refl.
      * right. exists name. split; [reflexivity|].
        split; [apply in_or_app; right; left; reflexivity|].
        split; [reflexivity|]. eapply Qle_lt_trans; eassumption.
    + apply fgt_false_le in E.
      split; [exact Hpos|]. split.
      * intros c Hc. apply in_app_or in Hc as [Hc|[<-|[]]]; [apply Hmax, Hc | exact E].
      * destruct Hfrom as [Hnone|(n & Hn & Hin & Hs & Hp)]; [left; exact Hnone|].
        right. exists n. split; [exact Hn|].
        split; [apply in_or_app; left; exact Hin|]. split; assumption.
Qed.

Lemma best_overlap_best (self : t) :
  best_of text_lower (trends_categories self) (best_overlap self text_lower).
Proof.
  unfold best_overlap.
  apply (best_of_fold (trends_categories self) [] (mkBest None 0.0%Q 16)).
  split; [unfold Qle; cbn; lia|]. split; [intros c []|].
  left. split; reflexivity.
Qed.

End BestOverlap.

(** X21.  The choice of [resolve_trends_category], for a non-empty text
    and a non-empty category list.  When some category has a score of
    0.3 or more, the result is a category of the list with the highest
    score of all, and the confidence is that score.  When every
    category scores below 0.3, the result is that of the keyword
    heuristics. *)
Theorem resolve_picks_best_overlap (self : CategoryResolver.t) (text : string) :
  text <> "" ->
  CategoryResolver.trends_categories self <> [] ->
  ((exists c, In c (CategoryResolver.trends_categories self) /\
              (0.3 <= overlap_score (Text.lower text) c.1)%Q) ->
   exists name id,
     In (name, id) (CategoryResolver.trends_categories self) /\
     CategoryResolver.resolve_trends_category self text
     = (name, id, overlap_score (Text.lower text) name) /\
     forall c, In c (CategoryResolver.trends_categories self) ->
               (overlap_score (Text.lower text) c.1
                <= overlap_score (Text.lower text) name)%Q) /\
  ((forall c, In c (CategoryResolver.trends_categories self) ->
              (overlap_score (Text.lower text) c.1 < 0.3)%Q) ->
   CategoryResolver.resolve_trends_category self text
   = (CategoryResolver.or_news
        (CategoryResolver.best_match (CategoryResolver.heuristic (Text.lower text))),
      CategoryResolver.best_id (CategoryResolver.heuristic (Text.lower text)),
      CategoryResolver.best_score (CategoryResolver.heuristic (Text.lower text)))).
Proof.
  intros Htext Hcats.
  unfold CategoryResolver.resolve_trends_category.
  assert (He : Text.is_empty text = false).
  { destruct (Text.is_empty text) eqn:E; [|reflexivity].
    apply is_empty_true in E. contradiction. }
  assert (Hl : (length (CategoryResolver.trends_categories self) =? 0)%nat = false).
  { apply Nat.eqb_neq. destruct (CategoryResolver.trends_categories self);
      [contradiction | discriminate]. }
  rewrite He, Hl. cbn [orb]. cbv zeta.
  destruct (best_overlap_best (Text.lower text) self) as (Hpos & Hmax & Hfrom).
  set (b := CategoryResolver.best_overlap self (Text.lower text)) in *.
  split.
  - intros (c & Hc & Hscore).
    assert (Hbig : (0.3 <= CategoryResolver.best_score b)%Q)
      by (eapply Qle_trans; [exact Hscore | apply Hmax, Hc]).
    assert (Hflt : flt (CategoryResolver.best_score b) 0.3%Q = false).
    { destruct (flt (CategoryResolver.best_score b) 0.3%Q) eqn:E; [|reflexivity].
      apply fgt_lt in E. exfalso. eapply Qlt_not_le; eassumption. }
    rewrite Hflt.
    destruct Hfrom as [[_ Hzero]|(name & Hname & Hin & Hs & Hp)].
    { rewrite Hzero in Hbig. exfalso. revert Hbig. unfold Qle. cbn. lia. }
    exists name, (CategoryResolver.best_id b).
    split; [exact Hin|]. split.
    + rewrite Hname, Hs. cbn [CategoryResolver.or_news].
      destruct (Text.is_empty name) eqn:En; [|reflexivity].
      apply is_empty_true in En. subst name.
      rewrite Hs, overlap_score_empty_name in Hp. exfalso. revert Hp. apply Qlt_irrefl.
    + intros c' Hc'. rewrite <- Hs. apply Hmax, Hc'.
  - intros Hlow.
    assert (Hflt : flt (CategoryResolver.best_score b) 0.3%Q = true).
    { apply fgt_lt.
      destruct Hfrom as [[_ Hzero]|(name & _ & Hin & -> & _)];
        [rewrite Hzero; reflexivity|].
      apply (Hlow _ Hin). }
    rewrite Hflt. reflexivity.
Qed.

Lemma resolve_picks_best_overlap_witness :
  exists name id,
    In (name, id) CategoryResolver.static_categories /\
    CategoryResolver.resolve_trends_category
      (CategoryResolver.init (Raise "offline")) "Sports"
    = (name, id, overlap_score (Text.lower "Sports") name) /\
    forall c, In c CategoryResolver.static_categories ->
              (overlap_score (Text.lower "Sports") c.1
               <= overlap_score (Text.lower "Sports") name)%Q.
Proof.
  apply (resolve_picks_best_overlap (CategoryResolver.init (Raise "offline")) "Sports").
  - discriminate.
  - discriminate.
  - exists ("Sports", 20). split.
    + vm_compute. repeat (first [left; reflexivity | right]).
    + vm_compute. discriminate.
Defined.

(* ================================================================== *)
(** * The text of a page *)
(* ================================================================== *)

Section Spacing.
Import Text.

Lemma collapse_single_spaced (in_ws : bool) (s : string) :
  single_spaced in_ws (collapse_ws_go in_ws s) = true.
Proof.
  revert in_ws. induction s as [|c s IH]; intros in_ws; cbn [collapse_ws_go]; [reflexivity|].
  destruct (isspace c) eqn:E.
  - destruct in_ws; [apply IH|]. cbn [single_spaced].
    change (isspace " ") with true. cbv iota. rewrite IH. reflexivity.
  - cbn [single_spaced]. rewrite E. apply IH.
Qed.

Lemma lstrip_single_spaced (b : bool) (s : string) :
  single_spaced b s = true -> single_spaced true (lstrip s) = true.
Proof.
  revert b. induction s as [|c s IH]; intros b; cbn [lstrip single_spaced]; [reflexivity|].
  destruct (isspace c) eqn:E.
  - intros H. apply andb_true_iff in H as [_ H]. apply (IH true), H.
  - intros H. cbn [single_spaced]. rewrite E. exact H.
Qed.

Lemma rstrip_single_spaced (b : bool) (s : string) :
  single_spaced b s = true -> single_spaced b (rstrip s) = true.
Proof.
  revert b. induction s as [|c s IH]; intros b; cbn [rstrip single_spaced]; [reflexivity|].
  destruct (isspace c) eqn:E.
  - intros H. apply andb_true_iff in H as [Hc H]. apply IH in H.
    destruct (rstrip s) as [|c' t]; [reflexivity|].
    cbn [single_spaced]. rewrite E. fold single_spaced.
    change (single_spaced true (String c' t) = true) in H.
    cbn [single_spaced] in H. rewrite Hc. exact H.
  - intros H. apply IH in H.
    destruct (rstrip s) as [|c' t]; cbn [single_spaced]; rewrite E; [reflexivity|].
    exact H.
Qed.

Lemma take_single_spaced (n : nat) (b : bool) (s : string) :
  single_spaced b s = true -> single_spaced b (take n s) = true.
Proof.
  revert b s. induction n as [|n IH]; intros b [|c s]; cbn [take single_spaced];
    try reflexivity.
  destruct (isspace c).
  - intros H. apply andb_true_iff in H as [Hc H]. rewrite Hc. apply IH, H.
  - apply IH.
Qed.

Lemma single_spaced_chars (b : bool) (s : string) :
  single_spaced b s = true ->
  forallb_chars (fun c => negb (isspace c) || Ascii.eqb c " ") s = true.
Proof.
  revert b. induction s as [|c s IH]; intros b; cbn [single_spaced forallb_chars];
    [reflexivity|].
  destruct (isspace c).
  - intros H. apply andb_true_iff in H as [Hc H]. apply andb_true_iff in Hc as [Hc _].
    rewrite Hc, (IH true H). reflexivity.
  - intros H. rewrite (IH false H). reflexivity.
Qed.

Lemma single_spaced_no_double (b : bool) (s : string) :
  single_spaced b s = true -> contains "  " s = false.
Proof.
  revert b. induction s as [|c s IH]; intros b H; [reflexivity|].
  cbn [contains]. apply orb_false_iff. split.
  - cbn [single_spaced] in H. cbn [startswith].
    destruct (ascii_dec " " c) as [<-|]; [|reflexivity].
    change (isspace " ") with true in H. cbv iota in H.
    apply andb_true_iff in H as [_ H].
    destruct s as [|c' s]; [reflexivity|].
    cbn [startswith]. destruct (ascii_dec " " c') as [<-|]; [|reflexivity].
    cbn [single_spaced] in H. change (isspace " ") with true in H. cbv iota in H.
    rewrite andb_false_r in H. discriminate H.
  - cbn [single_spaced] in H. destruct (isspace c).
    + apply andb_true_iff in H as [_ H]. apply (IH true), H.
    + apply (IH false), H.
Qed.

Lemma single_spaced_no_lead (s : string) :
  single_spaced true s = true -> match s with
                                 | String c _ => isspace c = false
                                 | EmptyString => True
                                 end.
Proof.
  destruct s as [|c s]; [trivial|]. cbn [single_spaced].
  destruct (isspace c); [|reflexivity].
  rewrite andb_false_r. cbn [andb]. discriminate.
Qed.

End Spacing.

(** X16.  The text that [extract_content] returns is normalised: its
    only space characters are blanks, it has no two blanks in a row,
    and it does not begin with a space character. *)
Theorem extract_content_single_spaced
    (fetch : string -> result string)
    (parse : string -> result ContentExtractor.Soup) (url : string) :
  exists text,
    ContentExtractor.extract_content fetch parse url = Ok text /\
    Text.forallb_chars (fun c => negb (Text.isspace c) || Ascii.eqb c " ") text = true /\
    Text.contains "  " text = false /\
    match text with
    | String c _ => Text.isspace c = false
    | EmptyString => True
    end.
Proof.
  assert (H : exists text,
             ContentExtractor.extract_content fetch parse url = Ok text /\
             single_spaced true text = true).
  { unfold ContentExtractor.extract_content, try_except,
      ContentExtractor.extract_content_body.
    destruct (fetch url) as [response_text|]; [|exists ""; split; reflexivity].
    destruct (parse response_text) as [soup|]; [|exists ""; split; reflexivity].
    eexists. split; [reflexivity|].
    apply take_single_spaced. unfold Text.strip.
    apply rstrip_single_spaced, (lstrip_single_spaced false).
    apply collapse_single_spaced. }
  destruct H as (text & Heq & Hs). exists text. split; [exact Heq|].
  split; [eapply single_spaced_chars, Hs|].
  split; [eapply single_spaced_no_double, Hs | apply single_spaced_no_lead, Hs].
Qed.

(* ================================================================== *)
(** * The text made from the URL *)
(* ================================================================== *)

Section FallbackText.
Import Text.

Lemma str_app_cons (x : ascii) (a b : string) : String x a +:+ b = String x (a +:+ b).
Proof. reflexivity. Qed.

Lemma str_app_assoc (a b c : string) : (a +:+ b) +:+ c = a +:+ (b +:+ c).
Proof.
  induction a as [|x a IH]; [reflexivity|]. rewrite !str_app_cons. f_equal. exact IH.
Qed.

Lemma str_app_nil_r (a : string) : a +:+ "" = a.
Proof. induction a as [|x a IH]; [reflexivity|]. rewrite str_app_cons. f_equal. exact IH. Qed.

Lemma len_app (a b : string) : len (a +:+ b) = (len a + len b)%nat.
Proof.
  unfold len. induction a as [|x a IH]; [reflexivity|].
  rewrite str_app_cons. cbn [String.length plus]. f_equal. exact IH.
Qed.

Lemma lower_app (a b : string) : lower (a +:+ b) = lower a +:+ lower b.
Proof.
  unfold lower. induction a as [|x a IH]; [reflexivity|].
  rewrite str_app_cons. cbn [map_chars]. rewrite str_app_cons. f_equal. exact IH.
Qed.

(** A run of [p]-characters that ends at a character outside [p] is
    given whole, with what was read before it. *)
Lemma runs_go_run (p : ascii -> bool) (acc w : string) (stop : ascii) (rest : string) :
  forallb_chars p w = true -> p stop = false -> acc +:+ w <> "" ->
  runs_go p acc (w +:+ String stop rest) = (acc +:+ w) :: runs_go p "" rest.
Proof.
  revert acc. induction w as [|c w IH]; intros acc Hw Hstop Hne.
  - change ("" +:+ String stop rest) with (String stop rest).
    cbn [runs_go]. rewrite Hstop. rewrite str_app_nil_r in *.
    destruct acc; [contradiction|]. reflexivity.
  - cbn [forallb_chars] in Hw. apply andb_true_iff in Hw as [Hc Hw].
    rewrite str_app_cons. cbn [runs_go]. rewrite Hc.
    rewrite (IH (acc +:+ String c "") Hw Hstop).
    + rewrite str_app_assoc. reflexivity.
    + rewrite str_app_assoc. exact Hne.
Qed.

(** A word that stands between two characters outside [p] is one of
    the runs. *)
Lemma runs_go_word (p : ascii -> bool) (acc a w : string) (start stop : ascii)
    (rest : string) :
  forallb_chars p w = true -> w <> "" -> p start = false -> p stop = false ->
  In w (runs_go p acc (a +:+ String start (w +:+ String stop rest))).
Proof.
  intros Hw Hne Hstart Hstop. revert acc.
  induction a as [|c a IH]; intros acc.
  - change ("" +:+ String start (w +:+ String stop rest))
      with (String start (w +:+ String stop rest)).
    cbn [runs_go]. rewrite Hstart. apply in_or_app. right.
    rewrite (runs_go_run p "" w stop rest Hw Hstop); [left; reflexivity | exact Hne].
  - rewrite str_app_cons. cbn [runs_go]. destruct (p c); [apply IH|].
    apply in_or_app. right. apply IH.
Qed.

(** Stripping on the left keeps what follows the first character that
    is no space. *)
Lemma lstrip_keeps (a : string) (c : ascii) (y : string) :
  isspace c = false ->
  exists t, lstrip (a +:+ String " " (String c y)) = t +:+ String c y.
Proof.
  intros Hc. induction a as [|x a IH].
  - exists "". change ("" +:+ String " " (String c y)) with (String " " (String c y)).
    cbn [lstrip]. change (isspace " ") with true. cbv iota.
    rewrite Hc. reflexivity.
  - rewrite str_app_cons. cbn [lstrip]. destruct (isspace x); [exact IH|].
    exists (String x a +:+ " "). rewrite str_app_assoc. reflexivity.
Qed.

(** Stripping on the right keeps a text whose last character is no
    space. *)
Lemma rstrip_keeps (s : string) (c : ascii) :
  isspace c = false -> rstrip (s +:+ String c "") = s +:+ String c "".
Proof.
  intros Hc. induction s as [|x s IH].
  - change ("" +:+ String c "") with (String c ""). cbn [rstrip]. rewrite Hc. reflexivity.
  - rewrite str_app_cons. cbn [rstrip]. rewrite IH.
    destruct s; reflexivity.
Qed.

Lemma join_cons (sep p q : string) (rest : list string) :
  join sep (p :: q :: rest) = p +:+ sep +:+ join sep (q :: rest).
Proof. reflexivity. Qed.

Lemma len_join_app (sep : string) (xs ys : list string) :
  (len (join sep xs) <= len (join sep (xs ++ ys)))%nat.
Proof.
  induction xs as [|p xs IH]; [cbn; lia|].
  destruct xs as [|q xs].
  - destruct ys as [|y ys]; [cbn [app]; lia|].
    cbn [app]. rewrite join_cons, len_app. cbn [join]. lia.
  - change ((p :: q :: xs) ++ ys) with (p :: q :: (xs ++ ys)).
    rewrite !join_cons, !len_app.
    change (q :: xs ++ ys) with ((q :: xs) ++ ys). lia.
Qed.

Lemma detect_industry_in (table : list (string * list string)) (full_text : string)
    (e : string * list string) :
  TrendHarvester.detect_industry table full_text = Some e -> In e table.
Proof.
  induction table as [|[industry keywords] table IH]; cbn [TrendHarvester.detect_industry];
    [discriminate|].
  destruct (existsb _ keywords).
  - intros [= <-]. left. reflexivity.
  - intros H. right. apply IH, H.
Qed.

(** The text of the [try] block: the business name, [Professional
    Services], and at least 26 characters of phrases. *)
Lemma analyze_url_body_shape (w : World) (url content : string) :
  TrendHarvester.analyze_url_body w url = Ok content ->
  exists name phrases,
    content = join ". " ((name +:+ " Professional Services") :: phrases) +:+ "." /\
    (26 <= len (join ". " phrases))%nat.
Proof.
  unfold TrendHarvester.analyze_url_body.
  destruct (w_urlparse w (lower url)) as [[netloc parsed_path]|]; [|discriminate].
  cbv zeta. intros H. apply Ok_inj in H. subst content.
  match goal with
  | |- context [title ?b +:+ " Professional Services"] => set (name := title b)
  end.
  assert (Hbase : exists base,
            match TrendHarvester.detect_industry TrendHarvester.industry_keywords
                    (lower (replace "www." "" netloc +:+ " " +:+ w_unquote w parsed_path)) with
            | Some (industry, keywords) =>
                [name +:+ " Professional Services"] ++ keywords
                  ++ TrendHarvester.industry_extras industry
            | None => [name +:+ " Professional Services"] ++ TrendHarvester.generic_keywords
            end = (name +:+ " Professional Services") :: base /\
            (26 <= len (join ". " base))%nat).
  { destruct (TrendHarvester.detect_industry _ _) as [[industry keywords]|] eqn:Hd.
    - exists (keywords ++ TrendHarvester.industry_extras industry).
      split; [reflexivity|].
      etransitivity; [|apply len_join_app].
      apply detect_industry_in in Hd.
      assert (Hall : Forall (fun e => (26 <= len (join ". " e.2))%nat)
                            TrendHarvester.industry_keywords)
        by (repeat constructor; vm_compute; lia).
      eapply List.Forall_forall in Hall; [|exact Hd]. exact Hall.
    - exists TrendHarvester.generic_keywords. split; [reflexivity|].
      vm_compute. lia. }
  destruct Hbase as (base & -> & Hlen).
  exists name.
  destruct (contains "contact" (w_unquote w parsed_path));
    destruct (contains "about" (w_unquote w parsed_path));
    destruct (contains "services" (w_unquote w parsed_path));
    cbn [app]; eexists; (split; [reflexivity|]);
    repeat (first [exact Hlen | etransitivity; [|apply len_join_app]]).
Qed.

Lemma professional_is_word :
  forallb_chars is_word "professional" = true.
Proof. reflexivity. Qed.

(** The text made from the URL has at least 50 characters once
    stripped, and [professional] is one of its tokens. *)
Lemma fallback_text_facts (w : World) (url : string) :
  exists content,
    TrendHarvester._analyze_url_for_business_intelligence w url = Ok content /\
    (50 <= len (strip content))%nat /\
    In "professional" (KeywordExtractor.find_tokens (lower content)).
Proof.
  unfold TrendHarvester._analyze_url_for_business_intelligence, try_except.
  destruct (TrendHarvester.analyze_url_body w url) as [content|e] eqn:Hb.
  - exists content. split; [reflexivity|].
    destruct (analyze_url_body_shape w url content Hb) as (name & phrases & -> & Hlen).
    destruct phrases as [|q phrases]; [cbn in Hlen; lia|].
    rewrite join_cons. set (J := join ". " (q :: phrases)) in *.
    assert (Heq : ((name +:+ " Professional Services") +:+ ". " +:+ J) +:+ "."
                  = name +:+ String " " (String "P" ("rofessional Services. " +:+ J +:+ "."))).
    { rewrite !str_app_assoc. reflexivity. }
    split.
    + rewrite Heq. unfold strip.
      destruct (lstrip_keeps name "P" ("rofessional Services. " +:+ J +:+ ".") eq_refl)
        as [t ->].
      change (String "P" ("rofessional Services. " +:+ J +:+ "."))
        with ("Professional Services. " +:+ (J +:+ ".")).
      rewrite <- !str_app_assoc, rstrip_keeps by reflexivity.
      rewrite !len_app. change (len "Professional Services. ") with 23%nat.
      change (len ".") with 1%nat. lia.
    + assert (Hlow : lower (((name +:+ " Professional Services") +:+ ". " +:+ J) +:+ ".")
                     = lower name +:+ String " " ("professional" +:+
                         String " " ("services. " +:+ lower (J +:+ ".")))).
      { rewrite !str_app_assoc, lower_app.
        change (" Professional Services" +:+ ". " +:+ J +:+ ".")
          with (" Professional Services. " +:+ (J +:+ ".")).
        rewrite lower_app. reflexivity. }
      rewrite Hlow. unfold KeywordExtractor.find_tokens, runs.
      apply filter_In. split; [|reflexivity].
      apply runs_go_word; try reflexivity. discriminate.
  - exists TrendHarvester.generic_paragraph. split; [reflexivity|].
    split; [vm_compute; lia|]. vm_compute. left. reflexivity.
Qed.

End FallbackText.

Section FrequencyNonEmpty.
Import KeywordExtractor.

(** With a counted word and a positive number of terms, the frequency
    fallback returns a keyword, and its first keyword has score 1. *)
Lemma frequency_has_top (self : t) (text : string) (max_features : Z) :
  words_of self text <> [] -> 1 <= max_features ->
  exists top rest,
    _extract_with_frequency self text max_features = top :: rest /\ score top = 1%Q.
Proof.
  intros Hne Hmf. unfold _extract_with_frequency.
  set (words := words_of self text) in *. clearbody words.
  remember (sorted_by freq_gt (count_words words)) as sorted eqn:Hs.
  assert (Hperm : Permutation sorted (count_words words))
    by (subst sorted; apply sorted_by_perm).
  destruct sorted as [|[k0 f0] tl].
  { destruct words as [|x ws]; [contradiction|].
    assert (Hin : In (x, count_occ string_dec (x :: ws) x) (count_words (x :: ws))).
    { apply count_words_entry. split; [reflexivity|].
      apply (count_occ_In string_dec). left. reflexivity. }
    eapply Permutation_in in Hin; [|symmetry; exact Hperm]. destruct Hin. }
  assert (Hpos : (0 < f0)%nat).
  { assert (Hin : In (k0, f0) (count_words words))
      by (eapply Permutation_in; [exact Hperm | left; reflexivity]).
    apply count_words_entry in Hin. tauto. }
  rewrite slice_to_cons by exact Hmf. cbn [flat_map]. cbv zeta.
  rewrite (fdiv_same f0 Hpos). change (fgt 1%Q 0.05%Q) with true. cbv iota.
  eexists _, _. split; reflexivity.
Qed.

End FrequencyNonEmpty.

(** X17.  The text that [_analyze_url_for_business_intelligence] makes
    from a URL is always enough for the keyword extractor: it has at
    least 50 characters once stripped, and, when scikit-learn is
    missing and [professional] is no stopword, [extract_keywords]
    finds at least one keyword in it, the first one with score 1. *)
Theorem fallback_text_yields_keywords
    (w : World) (url : string) (self : KeywordExtractor.t)
    (tfidf : string -> gset string -> result (list (string * float)))
    (max_features : Z) :
  "professional" ∉ KeywordExtractor.all_stopwords self ->
  1 <= max_features ->
  exists content top rest,
    TrendHarvester._analyze_url_for_business_intelligence w url = Ok content /\
    (50 <= Text.len (Text.strip content))%nat /\
    KeywordExtractor.extract_keywords false tfidf self content max_features = top :: rest /\
    score top = 1%Q.
Proof.
  intros Hstop Hmf.
  destruct (fallback_text_facts w url) as (content & Heq & Hlen & Htok).
  assert (Hwords : KeywordExtractor.words_of self content <> []).
  { intros Hnil.
    assert (Hin : In "professional" (KeywordExtractor.words_of self content)).
    { unfold KeywordExtractor.words_of. apply filter_In. split; [exact Htok|].
      rewrite bool_decide_eq_false_2 by exact Hstop. reflexivity. }
    rewrite Hnil in Hin. destruct Hin. }
  destruct (frequency_has_top self content max_features Hwords Hmf) as (top & rest & Hk & Hs).
  exists content, top, rest. split; [exact Heq|]. split; [exact Hlen|].
  split; [|exact Hs].
  unfold KeywordExtractor.extract_keywords.
  assert (H0 : (Text.len content =? 0)%nat = false).
  { apply Nat.eqb_neq. pose proof (len_strip_le content). lia. }
  assert (H50 : (Text.len (Text.strip content) <? 50)%nat = false)
    by (apply Nat.ltb_ge; exact Hlen).
  rewrite H0, H50. exact Hk.
Qed.

Lemma fallback_text_yields_keywords_witness :
  exists content top rest,
    TrendHarvester._analyze_url_for_business_intelligence offline_world
      "https://www.acmeroofing.example/services" = Ok content /\
    (50 <= Text.len (Text.strip content))%nat /\
    KeywordExtractor.extract_keywords false (fun _ _ => Raise "unused")
      (KeywordExtractor.init None) content 25 = top :: rest /\
    score top = 1%Q.
Proof.
  apply (fallback_text_yields_keywords offline_world
           "https://www.acmeroofing.example/services"
           (KeywordExtractor.init None) (fun _ _ => Raise "unused") 25).
  - apply (bool_decide_eq_false_1 _). vm_compute. reflexivity.
  - lia.
Defined.

(* ================================================================== *)
(** * A page that cannot be read *)
(* ================================================================== *)

Section Unreadable.
Import TrendHarvesterDB TrendHarvester.

Variable w : World.
Variable url : string.

Hypothesis unreadable :
  forall text, ContentExtractor.extract_content (w_fetch w) (w_parse w) url = Ok text ->
               (Text.len (Text.strip text) < 50)%nat.
Hypothesis no_sklearn : w_sklearn w = false.
Hypothesis not_stopword :
  "professional" ∉ KeywordExtractor.all_stopwords (keyword_extractor w).

Lemma unreadable_keywords :
  exists top rest, keywords_of w url = top :: rest /\ score top = 1%Q.
Proof.
  destruct (fallback_text_facts w url) as (content & Heq & Hlen & Htok).
  unfold keywords_of, content_stage.
  destruct (extract_content_ok (w_fetch w) (w_parse w) url) as [text Htext].
  rewrite Htext. apply unreadable in Htext. apply Nat.ltb_lt in Htext.
  rewrite Htext, orb_true_r, Heq, no_sklearn.
  assert (Hwords : KeywordExtractor.words_of (keyword_extractor w) content <> []).
  { intros Hnil.
    assert (Hin : In "professional" (KeywordExtractor.words_of (keyword_extractor w) content)).
    { unfold KeywordExtractor.words_of. apply filter_In. split; [exact Htok|].
      rewrite bool_decide_eq_false_2 by exact not_stopword. reflexivity. }
    rewrite Hnil in Hin. destruct Hin. }
  destruct (frequency_has_top (keyword_extractor w) content 25 Hwords ltac:(lia))
    as (top & rest & Hk & Hs).
  exists top, rest. split; [|exact Hs].
  unfold KeywordExtractor.extract_keywords.
  assert (H0 : (Text.len content =? 0)%nat = false).
  { apply Nat.eqb_neq. pose proof (len_strip_le content). lia. }
  assert (H50 : (Text.len (Text.strip content) <? 50)%nat = false)
    by (apply Nat.ltb_ge; exact Hlen).
  rewrite H0, H50. exact Hk.
Qed.

End Unreadable.

(** X18.  A page that cannot be read does not make the run fail.  When
    [extract_content] gives fewer than 50 characters (the empty text of
    a failed fetch, for one), scikit-learn is missing, [professional]
    is no stopword and the store raises nothing, [run_analysis] ends
    with the run [completed], its finish time set, and keywords saved
    for it, one of them with score 1. *)
Theorem unreadable_page_run_completes (w : World) (url : string) (s : Sys) :
  (forall text, ContentExtractor.extract_content (w_fetch w) (w_parse w) url = Ok text ->
                (Text.len (Text.strip text) < 50)%nat) ->
  w_sklearn w = false ->
  "professional" ∉ KeywordExtractor.all_stopwords (TrendHarvester.keyword_extractor w) ->
  (forall c, w_fault w c = None) ->
  exists run_id s' r k,
    TrendHarvester.run_analysis w url s = (Ok run_id, s') /\
    TrendHarvesterDB.select_run run_id (db s') = Some r /\
    TrendHarvesterDB.status r = VStr "completed" /\
    TrendHarvesterDB.finished_at r = VTime (w_now w 2) /\
    In k (TrendHarvesterDB.page_keywords (db s')) /\
    TrendHarvesterDB.pk_run_id k = run_id /\
    TrendHarvesterDB.pk_score k = 1%Q.
Proof.
  intros Hpage Hsk Hstop Hfault.
  destruct (unreadable_keywords w url Hpage Hsk Hstop) as (top & rest & Hk & Hscore).
  assert (Hne : keywords_of w url <> []) by (rewrite Hk; discriminate).
  destruct (run_analysis_completes w url Hne Hfault s) as (s' & Hrun & (r & Hr & Hst) & Hdb).
  destruct (run_analysis_trace w url (Hfault CreateRun) (Hfault MarkFailed) s)
    as (s2 & running & final & Hrun2 & Hfinal & _ & _ & Hview).
  rewrite Hrun in Hrun2. injection Hrun2 as <-. subst final.
  exists (TrendHarvesterDB.create_run url (w_now w 1) (db s)).1, s', r,
         (TrendHarvesterDB.mkPageKeyword
            (TrendHarvesterDB.create_run url (w_now w 1) (db s)).1 (keyword top) (score top)).
  split; [exact Hrun|]. split; [exact Hr|]. split; [exact Hst|]. split.
  { destruct Hview as [Hv|Hv]; apply view_select in Hv as (r' & Hr' & Hst' & Hfin');
      rewrite Hr in Hr'; injection Hr' as <-; [exact Hfin'|].
    rewrite Hst in Hst'. discriminate Hst'. }
  split; [|split; [reflexivity | exact Hscore]].
  rewrite Hdb.
  match goal with
  | |- In _ (TrendHarvesterDB.page_keywords (TrendHarvesterDB.update_run ?i ?kw ?d)) =>
      destruct (update_run_frame i kw d) as (_ & _ & -> & _)
  end.
  assert (Htrends : forall (f : TrendHarvesterDB.DB -> TrendHarvesterDB.DB) d,
            (f = (fun d => d) \/ exists i q, f = add_trends i q) ->
            TrendHarvesterDB.page_keywords (f d) = TrendHarvesterDB.page_keywords d).
  { intros f d [->|(i & q & ->)]; reflexivity. }
  rewrite Htrends.
  2:{ destruct (w_pytrends w); [right; eexists _, _; reflexivity | left; reflexivity]. }
  match goal with
  | |- In _ (TrendHarvesterDB.page_keywords (TrendHarvesterDB.update_run ?i ?kw ?d)) =>
      destruct (update_run_frame i kw d) as (_ & _ & -> & _)
  end.
  rewrite Hk. cbn [TrendHarvesterDB.save_keywords TrendHarvesterDB.page_keywords map].
  apply in_or_app. right. left. reflexivity.
Qed.

Lemma unreadable_page_run_completes_witness :
  exists run_id s' r k,
    TrendHarvester.run_analysis offline_world "https://www.acmeroofing.example/services"
      fresh_store = (Ok run_id, s') /\
    TrendHarvesterDB.select_run run_id (db s') = Some r /\
    TrendHarvesterDB.status r = VStr "completed" /\
    TrendHarvesterDB.finished_at r = VTime (w_now offline_world 2) /\
    In k (TrendHarvesterDB.page_keywords (db s')) /\
    TrendHarvesterDB.pk_run_id k = run_id /\
    TrendHarvesterDB.pk_score k = 1%Q.
Proof.
  apply (unreadable_page_run_completes offline_world
           "https://www.acmeroofing.example/services" fresh_store).
  - intros text H. vm_compute in H. injection H as <-. vm_compute. lia.
  - reflexivity.
  - apply (bool_decide_eq_false_1 _). vm_compute. reflexivity.
  - intros c. reflexivity.
Defined.

(* ================================================================== *)
(** * The stopwords of the instance *)
(* ================================================================== *)

Section Stopwords.
Import KeywordExtractor.

(** A keyword of the frequency fallback is one of the counted words. *)
Lemma frequency_keyword_counted (self : t) (text : string) (max_features : Z)
    (kw : ExtractedKeyword) :
  In kw (_extract_with_frequency self text max_features) ->
  In (keyword kw) (words_of self text).
Proof.
  unfold _extract_with_frequency. cbv zeta. intros Hkw.
  apply emit_spec in Hkw as (n & Hn & _ & _).
  apply slice_to_In in Hn.
  eapply Permutation_in in Hn; [|apply sorted_by_perm].
  apply count_words_entry in Hn as [-> Hpos].
  apply (count_occ_In string_dec). exact Hpos.
Qed.

Lemma counted_not_stopword (self : t) (text word : string) :
  In word (words_of self text) -> word ∉ all_stopwords self.
Proof.
  unfold words_of. intros H. apply filter_In in H as [_ H].
  apply negb_true_iff in H. apply (bool_decide_eq_false_1 _), H.
Qed.

End Stopwords.

(** X19.  The stopwords of the instance that [__init__] builds, under
    the frequency fallback: a custom stopword ([http], [www], [com],
    ...) is never a keyword, whether NLTK is installed or not; without
    NLTK no word of the built-in English list is a keyword, and with
    NLTK no word of the list it gives. *)
Theorem init_stopwords_never_keywords
    (nltk : option (result (list string))) (text : string) (max_features : Z) :
  Forall (fun kw =>
            ~ In (keyword kw) KeywordExtractor.custom_stopwords /\
            (nltk = None -> ~ In (keyword kw) KeywordExtractor.basic_english_stopwords) /\
            (forall ws, nltk = Some (Ok ws) -> ~ In (keyword kw) ws))
         (KeywordExtractor._extract_with_frequency
            (KeywordExtractor.init nltk) text max_features).
Proof.
  apply List.Forall_forall. intros kw Hkw.
  apply frequency_keyword_counted, counted_not_stopword in Hkw.
  unfold KeywordExtractor.init in Hkw. cbn [KeywordExtractor.all_stopwords] in Hkw.
  apply not_elem_of_union in Hkw as [Henglish Hcustom].
  split.
  { intros Hin. apply Hcustom, elem_of_list_to_set, list_elem_of_In, Hin. }
  split.
  - intros -> Hin. apply Henglish, elem_of_list_to_set, list_elem_of_In, Hin.
  - intros ws -> Hin. apply Henglish, elem_of_list_to_set, list_elem_of_In, Hin.
Qed.

Lemma init_stopwords_never_keywords_witness :
  Forall (fun kw => ~ In (keyword kw) KeywordExtractor.basic_english_stopwords)
         (KeywordExtractor._extract_with_frequency (KeywordExtractor.init None)
            "the roof and the gutter of the house" 25).
Proof.
  eapply List.Forall_impl;
    [|apply (init_stopwords_never_keywords None "the roof and the gutter of the house" 25)].
  intros kw (_ & H & _). apply H. reflexivity.
Defined.

(* ================================================================== *)
(** * The rows of the search-interest stage *)
(* ================================================================== *)

(** X14.  [_analyze_trends] returns without raising and only adds rows
    to the tables of interest points and of related queries.  Every
    interest point it adds carries the key of the run and one of the
    keywords it was given; every related query it adds carries the key
    of the run and the type [rising]. *)
Theorem analyze_trends_rows
    (w : World) (run_id : Z) (keywords : list string) (category_id : Z) (s : Sys) :
  exists s' interest related,
    TrendHarvester._analyze_trends w run_id keywords category_id s = (Ok tt, s') /\
    db s' = add_trends interest related (db s) /\
    Forall (fun t => TrendHarvesterDB.ti_run_id t = run_id /\
                     In (TrendHarvesterDB.ti_keyword t) keywords) interest /\
    Forall (fun q => TrendHarvesterDB.rq_run_id q = run_id /\
                     TrendHarvesterDB.rq_type q = "rising") related.
Proof.
  destruct (analyze_trends_effect w run_id category_id keywords s) as (s' & Hrun & Hdb & _).
  destruct (w_pytrends w).
  - eexists s', _, _. split; [exact Hrun|]. split; [exact Hdb|]. split.
    + apply List.Forall_forall. intros t Ht.
      apply in_flat_map in Ht as (b & Hb & Ht). unfold batch_interest_rows in Ht.
      destruct (interest_over_time _) as [data|]; [|contradiction].
      pose proof (interest_rows_spec run_id b.2 data) as Hspec.
      eapply List.Forall_forall in Hspec as [Hid Hkw]; [|exact Ht].
      split; [exact Hid|]. rewrite <- (batches_concat keywords).
      apply in_concat. exists b.2. split; [apply in_map, Hb | exact Hkw].
    + apply List.Forall_forall. intros q Hq.
      apply in_flat_map in Hq as (b & Hb & Hq). unfold batch_related_rows in Hq.
      destruct (interest_over_time _) as [data|]; [|contradiction].
      destruct (related_queries _) as [related|]; [|contradiction].
      pose proof (related_rows_spec run_id related) as Hspec.
      eapply List.Forall_forall in Hspec as (Hid & Hty & _); [|exact Hq].
      split; assumption.
  - exists s', [], []. split; [exact Hrun|].
    split; [rewrite add_trends_nil; exact Hdb|]. split; constructor.
Qed.

(* ================================================================== *)
(** * A run and the runs before it *)
(* ================================================================== *)

Section OtherRuns.
Import TrendHarvesterDB.

Lemma filter_app_none {B : Type} (p : B -> bool) (xs ys : list B) :
  Forall (fun y => p y = false) ys -> List.filter p (xs ++ ys) = List.filter p xs.
Proof.
  intros H. rewrite List.filter_app.
  replace (List.filter p ys) with (@nil B); [apply app_nil_r|].
  induction H as [|y ys Hy _ IH]; [reflexivity|]. cbn [List.filter]. rewrite Hy. exact IH.
Qed.

(** What the queries give for a run does not change when a row of
    another run is added to [runs] and rows of that other run are added
    to the tables. *)
Lemma queries_ignore_other_run (other : Z) (d d' : DB) (r : run) (row : run)
    (ks : list page_keyword) (ts : list trends_interest_row) (qs : list related_query) :
  select_run other d = Some r ->
  runs d' = runs d ++ [row] ->
  page_keywords d' = page_keywords d ++ ks ->
  Forall (fun k => pk_run_id k <> other) ks ->
  trends_interest d' = trends_interest d ++ ts ->
  Forall (fun t => ti_run_id t <> other) ts ->
  trends_related_queries d' = trends_related_queries d ++ qs ->
  Forall (fun q => rq_run_id q <> other) qs ->
  youtube_videos d' = youtube_videos d ->
  news_articles d' = news_articles d ->
  select_run other d' = Some r /\ get_run_results other d' = get_run_results other d.
Proof.
  intros Hsel Hruns Hk Fk Ht Ft Hq Fq Hy Hn.
  assert (Hsel' : select_run other d' = Some r).
  { unfold select_run in *. rewrite Hruns, find_app, Hsel. reflexivity. }
  split; [exact Hsel'|].
  assert (Hquery : run_results_of other d' = run_results_of other d).
  { unfold run_results_of. rewrite Hsel', Hsel, Hk, Ht, Hq, Hy, Hn.
    rewrite !filter_app_none; [reflexivity | | |].
    - eapply List.Forall_impl; [|exact Fq]. intros q Hne. cbv beta.
      apply Z.eqb_neq in Hne. rewrite Hne. reflexivity.
    - eapply List.Forall_impl; [|exact Ft]. intros t Hne. apply Z.eqb_neq, Hne.
    - eapply List.Forall_impl; [|exact Fk]. intros k Hne. apply Z.eqb_neq, Hne. }
  unfold get_run_results, sqlite_int.
  destruct ((- 2 ^ 63 <=? other) && (other <? 2 ^ 63)); [|reflexivity].
  rewrite Hquery. reflexivity.
Qed.

End OtherRuns.

(** X15.  A run of [run_analysis] leaves the runs before it as they
    were to every reader: for the key of a run that the store already
    holds, [get_run_results], the results route and the status route
    answer after [run_analysis] what they answered before it. *)
Theorem run_analysis_leaves_other_runs
    (w : World) (url : string) (s : Sys) (other : Z) :
  TrendHarvesterDB.select_run other (db s) <> None ->
  TrendHarvesterDB.get_run_results other (db (TrendHarvester.run_analysis w url s).2)
  = TrendHarvesterDB.get_run_results other (db s) /\
  TrendApi.get_run_results other (db (TrendHarvester.run_analysis w url s).2)
  = TrendApi.get_run_results other (db s) /\
  TrendApiRoutes.get_run_status other (db (TrendHarvester.run_analysis w url s).2)
  = TrendApiRoutes.get_run_status other (db s).
Proof.
  intros Hsome.
  destruct (TrendHarvesterDB.select_run other (db s)) as [r|] eqn:Hsel; [clear Hsome|congruence].
  destruct (w_fault w CreateRun) as [msg|] eqn:Hcreated.
  { rewrite (run_analysis_not_created w url s msg Hcreated). cbn [snd].
    repeat split. }
  destruct (run_analysis_appends w url s Hcreated)
    as (res & s' & row & Hrun & (Hfresh & Hruns & _ & _ & _ &
        (ks & Hk & Fk) & (ts & Ht & Ft) & (qs & Hq & Fq) & Hy & Hn) & _ & _).
  rewrite Hrun. cbn [snd].
  assert (Hne : TrendHarvesterDB.id row <> other) by (intros Heq; congruence).
  destruct (queries_ignore_other_run other (db s) (db s') r row ks ts qs)
    as [Hsel' Hres]; try assumption.
  - eapply List.Forall_impl; [|exact Fk]. cbv beta. intros k ->. exact Hne.
  - eapply List.Forall_impl; [|exact Ft]. cbv beta. intros t ->. exact Hne.
  - eapply List.Forall_impl; [|exact Fq]. cbv beta. intros q ->. exact Hne.
  - split; [exact Hres|]. split.
    + unfold TrendApi.get_run_results, TrendHarvester.get_results. rewrite Hres. reflexivity.
    + unfold TrendApiRoutes.get_run_status, TrendHarvester.get_run_status,
        TrendHarvesterDB.sqlite_int.
      destruct ((- 2 ^ 63 <=? other) && (other <? 2 ^ 63)); [|reflexivity].
      rewrite Hsel', Hsel. reflexivity.
Qed.

Lemma run_analysis_leaves_other_runs_witness :
  TrendHarvesterDB.select_run 1 offline_store <> None /\
  TrendApi.get_run_results 1
    (db (TrendHarvester.run_analysis locked_world "https://shop.example/garden"
           (mkSys offline_store [])).2)
  = TrendApi.get_run_results 1 offline_store.
Proof.
  assert (H : TrendHarvesterDB.select_run 1 offline_store <> None)
    by (vm_compute; discriminate).
  split; [exact H|].
  exact (proj1 (proj2 (run_analysis_leaves_other_runs locked_world
                         "https://shop.example/garden" (mkSys offline_store []) 1 H))).
Defined.

(* ================================================================== *)
(** * The routes *)
(* ================================================================== *)

(** What the store holds of the run whose id [run_analysis] has
    returned. *)
Lemma run_analysis_returned (w : World) (url : string) (s s' : Sys) (run_id : Z) :
  TrendHarvester.run_analysis w url s = (Ok run_id, s') ->
  0 < run_id /\
  exists row,
    run_added url (w_now w 1) row (db s) (db s') /\
    TrendHarvesterDB.id row = run_id /\
    TrendHarvesterDB.select_run run_id (db s') = Some row /\
    ((TrendHarvesterDB.status row = VStr "completed" /\
      TrendHarvesterDB.finished_at row = VTime (w_now w 2)) \/
     TrendHarvesterDB.status row = VStr "failed").
Proof.
  intros Hrun.
  destruct (w_fault w CreateRun) as [msg|] eqn:Hcreated.
  { rewrite (run_analysis_not_created w url s msg Hcreated) in Hrun. discriminate Hrun. }
  destruct (run_analysis_appends w url s Hcreated)
    as (r & s2 & row & Hrun2 & Hadd & Hid & Hret).
  destruct (run_analysis_outcome w url Hcreated s) as (r3 & s3 & running & Hrun3 & Hcases).
  rewrite Hrun in Hrun2, Hrun3.
  injection Hrun2 as <- <-. injection Hrun3 as <- <-.
  specialize (Hret run_id eq_refl). subst run_id.
  split.
  { rewrite Hid. unfold TrendHarvesterDB.next_run_id.
    pose proof (fold_max_above (Z.max 0 (TrendHarvesterDB.runs_seq (db s)))
                  (map TrendHarvesterDB.id (TrendHarvesterDB.runs (db s)))) as [Hbase _].
    lia. }
  exists row. split; [exact Hadd|]. split; [reflexivity|].
  assert (Hsel : TrendHarvesterDB.select_run (TrendHarvesterDB.id row) (db s') = Some row).
  { destruct Hadd as (Hfresh & Hruns & _).
    unfold TrendHarvesterDB.select_run in *. rewrite Hruns, find_app_none by exact Hfresh.
    cbn [find]. rewrite Z.eqb_refl. reflexivity. }
  split; [exact Hsel|].
  destruct Hcases as [(_ & _ & _ & Hfin)|(msg & Hraise & _)]; [|discriminate Hraise].
  change (TrendHarvesterDB.create_run url (w_now w 1) (db s)).1
    with (TrendHarvesterDB.next_run_id (db s)) in Hfin.
  rewrite <- Hid in Hfin.
  destruct Hfin as [Hv|Hv]; apply view_select in Hv as (r0 & Hr0 & Hst & Hfin);
    rewrite Hsel in Hr0; injection Hr0 as <-; [left; split; assumption | right; exact Hst].
Qed.

(** X12.  The status route.  For an id that [run_analysis] has
    returned, and that is below 2^63, the route answers with
    [completed] or [failed], never with [running], [pending] or
    not-found.  For an id of 64 bits that no run has it answers 404;
    for an id beyond 64 bits the lookup raises and it answers 500. *)
Theorem status_after_run_analysis (w : World) (url : string) (s : Sys) :
  (forall run_id s',
     TrendHarvester.run_analysis w url s = (Ok run_id, s') ->
     run_id < 2 ^ 63 ->
     exists notes,
       TrendApiRoutes.get_run_status run_id (db s')
       = TrendApiRoutes.StatusOf (VStr "completed") notes \/
       TrendApiRoutes.get_run_status run_id (db s')
       = TrendApiRoutes.StatusOf (VStr "failed") notes) /\
  (forall other d,
     - 2 ^ 63 <= other < 2 ^ 63 ->
     TrendHarvesterDB.select_run other d = None ->
     TrendApiRoutes.get_run_status other d = TrendApiRoutes.Failure "Run not found" 404) /\
  (forall other d,
     ~ (- 2 ^ 63 <= other < 2 ^ 63) ->
     TrendApiRoutes.get_run_status other d
     = TrendApiRoutes.Failure "Python int too large to convert to SQLite INTEGER" 500).
Proof.
  split; [|split].
  - intros run_id s' Hrun Hsmall.
    destruct (run_analysis_returned w url s s' run_id Hrun)
      as (Hpos & row & _ & _ & Hsel & Hstatus).
    exists (TrendHarvesterDB.notes row).
    unfold TrendApiRoutes.get_run_status, TrendHarvester.get_run_status.
    rewrite sqlite_int_ok by lia. rewrite Hsel.
    destruct Hstatus as [[Hst _]|Hst]; rewrite Hst; [left | right]; reflexivity.
  - intros other d Hrange Hnone.
    unfold TrendApiRoutes.get_run_status, TrendHarvester.get_run_status.
    rewrite (sqlite_int_ok other Hrange), Hnone. reflexivity.
  - intros other d Hout.
    unfold TrendApiRoutes.get_run_status, TrendHarvester.get_run_status.
    rewrite (sqlite_int_overflow other Hout). reflexivity.
Qed.

Lemma status_after_run_analysis_witness :
  (exists notes,
     TrendApiRoutes.get_run_status 1
       (db (TrendHarvester.run_analysis locked_world
              "https://www.acmeroofing.example/services" fresh_store).2)
     = TrendApiRoutes.StatusOf (VStr "completed") notes \/
     TrendApiRoutes.get_run_status 1
       (db (TrendHarvester.run_analysis locked_world
              "https://www.acmeroofing.example/services" fresh_store).2)
     = TrendApiRoutes.StatusOf (VStr "failed") notes) /\
  TrendApiRoutes.get_run_status 7 TrendHarvesterDB.empty_db
  = TrendApiRoutes.Failure "Run not found" 404 /\
  TrendApiRoutes.get_run_status (2 ^ 63) TrendHarvesterDB.empty_db
  = TrendApiRoutes.Failure "Python int too large to convert to SQLite INTEGER" 500.
Proof.
  destruct (status_after_run_analysis locked_world
              "https://www.acmeroofing.example/services" fresh_store)
    as (Hreturned & Habsent & Hhuge).
  split; [|split].
  - apply (Hreturned 1
             (TrendHarvester.run_analysis locked_world
                "https://www.acmeroofing.example/services" fresh_store).2).
    + vm_compute. reflexivity.
    + lia.
  - apply Habsent; [lia | reflexivity].
  - apply Hhuge. lia.
Defined.

(** X20.  The results route after [run_analysis]: for an id that
    [run_analysis] has returned, and that is below 2^63, the route
    answers with a payload, never with 404.  The payload shows that
    id, the URL and the start time of the run, and a status that is
    [completed], with the finish time, or [failed]; it lists at most
    ten keywords, all of them saved for this run. *)
Theorem results_after_run_analysis
    (w : World) (url : string) (s s' : Sys) (run_id : Z) :
  TrendHarvester.run_analysis w url s = (Ok run_id, s') ->
  run_id < 2 ^ 63 ->
  exists body st fin,
    TrendApi.get_run_results run_id (db s') = TrendApi.Json body /\
    TrendApi.run_info body = (run_id, VStr url, st, VTime (w_now w 1), fin) /\
    ((st = VStr "completed" /\ fin = VTime (w_now w 2)) \/ st = VStr "failed") /\
    (length (TrendApi.keywords body) <= 10)%nat /\
    Forall (fun k => In k (TrendHarvesterDB.page_keywords (db s')) /\
                     TrendHarvesterDB.pk_run_id k = run_id)
           (TrendApi.keywords body).
Proof.
  intros Hrun Hsmall.
  destruct (run_analysis_returned w url s s' run_id Hrun)
    as (Hpos & row & (_ & _ & Hurl & Hstart & _) & Hid & Hsel & Hstatus).
  eexists _, (TrendHarvesterDB.status row), (TrendHarvesterDB.finished_at row).
  unfold TrendApi.get_run_results, TrendHarvester.get_results,
    TrendHarvesterDB.get_run_results.
  rewrite sqlite_int_ok by lia. unfold TrendHarvesterDB.run_results_of.
  rewrite Hsel. cbv zeta.
  split; [reflexivity|].
  cbn [TrendApi.run_info TrendApi.keywords TrendHarvesterDB.res_run
       TrendHarvesterDB.res_keywords].
  split; [rewrite Hid, Hurl, Hstart; reflexivity|].
  split; [exact Hstatus|].
  split.
  { rewrite length_firstn. lia. }
  apply List.Forall_forall. intros k Hk.
  apply firstn_In, firstn_In in Hk.
  eapply Permutation_in in Hk; [|apply sorted_by_perm].
  apply filter_In in Hk as [Hin Heq]. apply Z.eqb_eq in Heq. split; assumption.
Qed.

Lemma results_after_run_analysis_witness :
  exists body st fin,
    TrendApi.get_run_results 1
      (db (TrendHarvester.run_analysis offline_world
             "https://www.acmeroofing.example/services" fresh_store).2)
    = TrendApi.Json body /\
    TrendApi.run_info body
    = (1, VStr "https://www.acmeroofing.example/services", st, VTime 1, fin) /\
    ((st = VStr "completed" /\ fin = VTime 2) \/ st = VStr "failed").
Proof.
  destruct (results_after_run_analysis offline_world
              "https://www.acmeroofing.example/services" fresh_store
              (TrendHarvester.run_analysis offline_world
                 "https://www.acmeroofing.example/services" fresh_store).2 1)
    as (body & st & fin & Hbody & Hinfo & Hstatus & _).
  - vm_compute. reflexivity.
  - lia.
  - exists body, st, fin. repeat split; assumption.
Defined.

(** X22.  The slices of the results route drop nothing: the queries of
    [get_run_results] already limit their rows, so the payload lists
    every keyword, related query, video and article that
    [get_results] returned, in the same order, and groups every
    interest point. *)
Theorem results_route_keeps_rows
    (run_id : Z) (d : TrendHarvesterDB.DB) (res : TrendHarvesterDB.results) :
  TrendHarvester.get_results run_id d = Ok (Some res) ->
  exists body,
    TrendApi.get_run_results run_id d = TrendApi.Json body /\
    TrendApi.keywords body = TrendHarvesterDB.res_keywords res /\
    TrendApi.rising_queries body = TrendHarvesterDB.res_related_queries res /\
    TrendApi.youtube_videos_out body = TrendHarvesterDB.res_youtube_videos res /\
    TrendApi.news_articles_out body = TrendHarvesterDB.res_news_articles res /\
    TrendApi.trends_interest_by_keyword body
    = TrendApi._group_trends_by_keyword (TrendHarvesterDB.res_trends_interest res).
Proof.
  intros Hres. unfold TrendApi.get_run_results. rewrite Hres.
  eexists. split; [reflexivity|].
  cbn [TrendApi.keywords TrendApi.rising_queries TrendApi.youtube_videos_out
       TrendApi.news_articles_out TrendApi.trends_interest_by_keyword].
  unfold TrendHarvester.get_results in Hres. apply get_run_results_ok in Hres.
  unfold TrendHarvesterDB.run_results_of in Hres.
  destruct (TrendHarvesterDB.select_run run_id d) as [r|]; [|discriminate].
  cbv zeta in Hres. injection Hres as ->.
  cbn [TrendHarvesterDB.res_keywords TrendHarvesterDB.res_related_queries
       TrendHarvesterDB.res_youtube_videos TrendHarvesterDB.res_news_articles
       TrendHarvesterDB.res_trends_interest].
  repeat split; apply firstn_all2; rewrite length_firstn; lia.
Qed.

Lemma results_route_keeps_rows_witness :
  exists res body,
    TrendHarvester.get_results 1 offline_store = Ok (Some res) /\
    TrendApi.get_run_results 1 offline_store = TrendApi.Json body /\
    TrendApi.keywords body = TrendHarvesterDB.res_keywords res.
Proof.
  destruct (TrendHarvester.get_results 1 offline_store) as [[res|]|] eqn:Hres;
    [|vm_compute in Hres; discriminate Hres | vm_compute in Hres; discriminate Hres].
  destruct (results_route_keeps_rows 1 offline_store res Hres) as (body & Hbody & Hk & _).
  exists res, body. repeat split; assumption.
Defined.

Section AnalyzeRoute.
Import Text TrendApiRoutes.

Lemma has_scheme_normalized (url : string) :
  has_scheme (if has_scheme url then url else "https://" +:+ url) = true.
Proof.
  destruct (has_scheme url) eqn:E; [exact E|]. reflexivity.
Qed.

End AnalyzeRoute.

(** X13.  The analyze route never raises, and answers as follows.
    When [get_json] raises (a body that is missing or is no JSON), the
    answer is 500 with the text of the exception.  A body that is
    falsy, or an object without a [url] entry, or with a [url] that is
    blank once stripped, is answered 400; a [url] that is not a string
    is answered 500; a body that is not an object is answered 400 or
    500.  In all these cases the store is left as it is.  Otherwise
    [run_analysis] is run on the stripped string, with [https://] put
    before it unless it starts with [http://] or [https://]; the route
    answers with the id that [run_analysis] returns when it returns
    one within the time the route waits, and with 500 when not; an id
    it answers with is the key of a run that was added to the store
    with that URL. *)
Theorem analyze_url_route
    (w : World) (describe : py_error -> string) (body : result json)
    (in_time : bool) (s : Sys) :
  match body with
  | Raise e =>
      TrendApiRoutes.analyze_url w describe body in_time s
      = (Ok (TrendApiRoutes.Failure e 500), s)
  | Ok data =>
      if falsy data then
        TrendApiRoutes.analyze_url w describe body in_time s
        = (Ok (TrendApiRoutes.Failure "URL is required" 400), s)
      else
        match data with
        | JDict fields =>
            match CategoryResolver.lookup "url" fields with
            | None =>
                TrendApiRoutes.analyze_url w describe body in_time s
                = (Ok (TrendApiRoutes.Failure "URL is required" 400), s)
            | Some (JStr raw) =>
                if Text.is_empty (Text.strip raw) then
                  TrendApiRoutes.analyze_url w describe body in_time s
                  = (Ok (TrendApiRoutes.Failure "Valid URL is required" 400), s)
                else
                  let url :=
                    if TrendApiRoutes.has_scheme (Text.strip raw) then Text.strip raw
                    else "https://" +:+ Text.strip raw in
                  TrendApiRoutes.has_scheme url = true /\
                  exists r s',
                    TrendHarvester.run_analysis w url s = (r, s') /\
                    TrendApiRoutes.analyze_url w describe body in_time s
                    = (Ok (match r with
                           | Ok run_id =>
                               if in_time then TrendApiRoutes.Started run_id
                               else TrendApiRoutes.Failure "Failed to start analysis" 500
                           | Raise _ =>
                               TrendApiRoutes.Failure "Failed to start analysis" 500
                           end), s') /\
                    forall run_id,
                      r = Ok run_id ->
                      exists row,
                        TrendHarvesterDB.runs (db s')
                        = TrendHarvesterDB.runs (db s) ++ [row] /\
                        TrendHarvesterDB.id row = run_id /\
                        TrendHarvesterDB.url row = VStr url
            | Some j =>
                TrendApiRoutes.analyze_url w describe body in_time s
                = (Ok (TrendApiRoutes.Failure
                         (describe (NoAttribute (type_name j) "strip")) 500), s)
            end
        | _ =>
            exists message status,
              (status = 400 \/ status = 500) /\
              TrendApiRoutes.analyze_url w describe body in_time s
              = (Ok (TrendApiRoutes.Failure message status), s)
        end
  end.
Proof.
  unfold TrendApiRoutes.analyze_url.
  destruct body as [data|e]; [|reflexivity].
  destruct (falsy data) eqn:Hfalsy; [reflexivity|].
  destruct data as [|b|n|x|str|items|fields]; cbn [TrendApiRoutes.url_entry type_name].
  - eexists _, 500. split; [right; reflexivity | reflexivity].
  - eexists _, 500. split; [right; reflexivity | reflexivity].
  - eexists _, 500. split; [right; reflexivity | reflexivity].
  - eexists _, 500. split; [right; reflexivity | reflexivity].
  - destruct (Text.contains "url" str).
    + eexists _, 500. split; [right; reflexivity | reflexivity].
    + eexists _, 400. split; [left; reflexivity | reflexivity].
  - destruct (existsb is_url_string items).
    + eexists _, 500. split; [right; reflexivity | reflexivity].
    + eexists _, 400. split; [left; reflexivity | reflexivity].
  - destruct (CategoryResolver.lookup "url" fields) as [j|]; [|reflexivity].
    destruct j as [|b|n|x|raw|items|fields']; try reflexivity.
    destruct (Text.is_empty (Text.strip raw)); [reflexivity|]. cbv zeta.
    split; [apply has_scheme_normalized|].
    destruct (TrendHarvester.run_analysis w
                (if TrendApiRoutes.has_scheme (Text.strip raw) then Text.strip raw
                 else "https://" +:+ Text.strip raw) s) as [r s'] eqn:Hrun.
    exists r, s'. split; [reflexivity|]. split.
    + destruct r as [run_id|msg]; [destruct in_time|]; reflexivity.
    + intros run_id ->.
      destruct (run_analysis_returned w _ s s' run_id Hrun)
        as (_ & row & (_ & Hrows & Hurl & _) & Hid & _).
      exists row. split; [exact Hrows|]. split; [exact Hid | exact Hurl].
Qed.

Lemma analyze_url_route_witness :
  exists s' row,
    TrendApiRoutes.analyze_url offline_world (fun _ => "TypeError")
      (Ok (JDict [("url", JStr "  www.acmeroofing.example/services ")])) true fresh_store
    = (Ok (TrendApiRoutes.Started 1), s') /\
    TrendHarvesterDB.runs (db s') = [row] /\
    TrendHarvesterDB.id row = 1 /\
    TrendHarvesterDB.url row = VStr "https://www.acmeroofing.example/services".
Proof.
  pose proof (analyze_url_route offline_world (fun _ => "TypeError")
                (Ok (JDict [("url", JStr "  www.acmeroofing.example/services ")]))
                true fresh_store) as H.
  hnf in H. destruct H as (_ & r & s' & Hrun & Hreply & Hrow).
  assert (Hr : r = Ok 1).
  { assert (H1 : (TrendHarvester.run_analysis offline_world
                    "https://www.acmeroofing.example/services" fresh_store).1 = Ok 1)
      by (vm_compute; reflexivity).
    change (TrendHarvester.run_analysis offline_world
              "https://www.acmeroofing.example/services" fresh_store = (r, s')) in Hrun.
    rewrite Hrun in H1. exact H1. }
  destruct (Hrow 1 Hr) as (row & Hrows & Hid & Hurl).
  exists s', row. rewrite Hr in Hreply.
  split; [exact Hreply|]. split; [exact Hrows|]. split; [exact Hid | exact Hurl].
Defined.

Example analyze_url_blank :
  TrendApiRoutes.analyze_url offline_world (fun _ => "TypeError")
    (Ok (JDict [("url", JStr "   ")])) true fresh_store
  = (Ok (TrendApiRoutes.Failure "Valid URL is required" 400), fresh_store).
Proof. reflexivity. Qed.

Example analyze_url_no_body :
  TrendApiRoutes.analyze_url offline_world (fun _ => "TypeError")
    (Raise "415 Unsupported Media Type") true fresh_store
  = (Ok (TrendApiRoutes.Failure "415 Unsupported Media Type" 500), fresh_store).
Proof. reflexivity. Qed.

Example analyze_url_store_down :
  (TrendApiRoutes.analyze_url store_down_world (fun _ => "TypeError")
     (Ok (JDict [("url", JStr "acmeroofing.example/services")])) true fresh_store).1
  = Ok (TrendApiRoutes.Failure "Failed to start analysis" 500).
Proof. vm_compute. reflexivity. Qed.
